(** * OpenMV RPC: packet codec, handshake loops and stream modes

    A shallow embedding of [src/openmvrpc.cpp].  Bytes and machine
    integers are [Z] with the wrap-around written out, buffers are
    [list Z] updated by index, the transport is an interface (the
    virtual methods [get_bytes], [put_bytes], [_flush] of class [rpc]),
    and the blocking loops are run with fuel. *)

From Stdlib Require Import ZArith List Bool Lia Btauto.
From stdpp Require Import base numbers list.
From coqutil Require Import Z.bitblast.
Local Open Scope Z_scope.

(** ** Machine integers *)

(** Conversion to [uint8_t] and [uint16_t]. *)
Definition u8 (x : Z) : Z := Z.land x 0xFF.
Definition u16 (x : Z) : Z := Z.land x 0xFFFF.

(** Conversion to [uint32_t] and [unsigned long]; the code stores an
    [unsigned long] in the four payload bytes of an eight-byte packet, so
    [unsigned long] has 32 bits. *)
Definition u32 (x : Z) : Z := x mod 2 ^ 32.

(** Conversion to [size_t], taken to have 32 bits as well. *)
Definition size_t (x : Z) : Z := x mod 2 ^ 32.

Definition is_byte (b : Z) : Prop := 0 <= b < 256.

(** [buff[i]]; a read outside the list (undefined in C) gives 0. *)
Definition byte_at (buff : list Z) (i : nat) : Z := default 0 (buff !! i).

(** [memcpy(dst + off, src, n)] and [memset(dst, v, n)]; the part of a
    write that falls outside [dst] (undefined in C) is dropped. *)
Definition memcpy (dst : list Z) (off : nat) (src : list Z) (n : nat) : list Z :=
  list_inserts off (take n src) dst.

Definition memset (dst : list Z) (v : Z) (n : nat) : list Z :=
  list_inserts 0 (replicate n v) dst.

(** [unpack_unsigned_long]: [memcpy] of four bytes into an [unsigned long]
    on a little-endian target. *)
Definition unpack_unsigned_long (data : list Z) : Z :=
  u32 (byte_at data 0 + byte_at data 1 * 2 ^ 8
       + byte_at data 2 * 2 ^ 16 + byte_at data 3 * 2 ^ 24).

(** The bytes of a 32-bit object, as read through [(uint8_t * ) &x]. *)
Definition bytes_of_u32 (x : Z) : list Z :=
  [u8 x; u8 (Z.shiftr x 8); u8 (Z.shiftr x 16); u8 (Z.shiftr x 24)].

(** ** CRC-16 *)

Definition __crc_16_table : list Z := [
    0x0000; 0x1021; 0x2042; 0x3063; 0x4084; 0x50A5; 0x60C6; 0x70E7;
    0x8108; 0x9129; 0xA14A; 0xB16B; 0xC18C; 0xD1AD; 0xE1CE; 0xF1EF;
    0x1231; 0x0210; 0x3273; 0x2252; 0x52B5; 0x4294; 0x72F7; 0x62D6;
    0x9339; 0x8318; 0xB37B; 0xA35A; 0xD3BD; 0xC39C; 0xF3FF; 0xE3DE;
    0x2462; 0x3443; 0x0420; 0x1401; 0x64E6; 0x74C7; 0x44A4; 0x5485;
    0xA56A; 0xB54B; 0x8528; 0x9509; 0xE5EE; 0xF5CF; 0xC5AC; 0xD58D;
    0x3653; 0x2672; 0x1611; 0x0630; 0x76D7; 0x66F6; 0x5695; 0x46B4;
    0xB75B; 0xA77A; 0x9719; 0x8738; 0xF7DF; 0xE7FE; 0xD79D; 0xC7BC;
    0x48C4; 0x58E5; 0x6886; 0x78A7; 0x0840; 0x1861; 0x2802; 0x3823;
    0xC9CC; 0xD9ED; 0xE98E; 0xF9AF; 0x8948; 0x9969; 0xA90A; 0xB92B;
    0x5AF5; 0x4AD4; 0x7AB7; 0x6A96; 0x1A71; 0x0A50; 0x3A33; 0x2A12;
    0xDBFD; 0xCBDC; 0xFBBF; 0xEB9E; 0x9B79; 0x8B58; 0xBB3B; 0xAB1A;
    0x6CA6; 0x7C87; 0x4CE4; 0x5CC5; 0x2C22; 0x3C03; 0x0C60; 0x1C41;
    0xEDAE; 0xFD8F; 0xCDEC; 0xDDCD; 0xAD2A; 0xBD0B; 0x8D68; 0x9D49;
    0x7E97; 0x6EB6; 0x5ED5; 0x4EF4; 0x3E13; 0x2E32; 0x1E51; 0x0E70;
    0xFF9F; 0xEFBE; 0xDFDD; 0xCFFC; 0xBF1B; 0xAF3A; 0x9F59; 0x8F78;
    0x9188; 0x81A9; 0xB1CA; 0xA1EB; 0xD10C; 0xC12D; 0xF14E; 0xE16F;
    0x1080; 0x00A1; 0x30C2; 0x20E3; 0x5004; 0x4025; 0x7046; 0x6067;
    0x83B9; 0x9398; 0xA3FB; 0xB3DA; 0xC33D; 0xD31C; 0xE37F; 0xF35E;
    0x02B1; 0x1290; 0x22F3; 0x32D2; 0x4235; 0x5214; 0x6277; 0x7256;
    0xB5EA; 0xA5CB; 0x95A8; 0x8589; 0xF56E; 0xE54F; 0xD52C; 0xC50D;
    0x34E2; 0x24C3; 0x14A0; 0x0481; 0x7466; 0x6447; 0x5424; 0x4405;
    0xA7DB; 0xB7FA; 0x8799; 0x97B8; 0xE75F; 0xF77E; 0xC71D; 0xD73C;
    0x26D3; 0x36F2; 0x0691; 0x16B0; 0x6657; 0x7676; 0x4615; 0x5634;
    0xD94C; 0xC96D; 0xF90E; 0xE92F; 0x99C8; 0x89E9; 0xB98A; 0xA9AB;
    0x5844; 0x4865; 0x7806; 0x6827; 0x18C0; 0x08E1; 0x3882; 0x28A3;
    0xCB7D; 0xDB5C; 0xEB3F; 0xFB1E; 0x8BF9; 0x9BD8; 0xABBB; 0xBB9A;
    0x4A75; 0x5A54; 0x6A37; 0x7A16; 0x0AF1; 0x1AD0; 0x2AB3; 0x3A92;
    0xFD2E; 0xED0F; 0xDD6C; 0xCD4D; 0xBDAA; 0xAD8B; 0x9DE8; 0x8DC9;
    0x7C26; 0x6C07; 0x5C64; 0x4C45; 0x3CA2; 0x2C83; 0x1CE0; 0x0CC1;
    0xEF1F; 0xFF3E; 0xCF5D; 0xDF7C; 0xAF9B; 0xBFBA; 0x8FD9; 0x9FF8;
    0x6E17; 0x7E36; 0x4E55; 0x5E74; 0x2E93; 0x3EB2; 0x0ED1; 0x1EF0
].

(** [__crc_16_table[i]], and one round of the loop of [__crc_16]:
    [crc = __crc_16_table[((crc >> 8) ^ data[i]) & 0xff] ^ (crc << 8)]. *)
Definition crc_table_at (i : Z) : Z := default 0 (__crc_16_table !! Z.to_nat i).

Definition crc_step (crc d : Z) : Z :=
  u16 (Z.lxor (crc_table_at (Z.land (Z.lxor (Z.shiftr crc 8) d) 0xFF))
              (Z.shiftl crc 8)).

Definition __crc_16 (data : list Z) (size : nat) : Z :=
  fold_left crc_step (take size data) 0xFFFF.

(** ** [_zero] and [_same] *)

Definition _zero (data : list Z) (size : nat) : list Z := memset data 0 size.

(** The loop of [_same] from index 1 on, [old_data] being the byte before. *)
Fixpoint same_loop (old_data : Z) (rest : list Z) : bool :=
  match rest with
  | [] => true
  | new_data :: rest' =>
      if negb (new_data =? old_data) then false else same_loop new_data rest'
  end.

Definition _same (data : list Z) (size : nat) : bool :=
  if (size =? 0)%nat then false
  else same_loop (byte_at data 0) (take (size - 1) (drop 1 data)).

(** ** Name hash *)

(** The value of a [char] holding byte [b]: whether plain [char] is signed
    is the compiler's choice (signed with avr-gcc). *)
Definition char_value (char_signed : bool) (b : Z) : Z :=
  if char_signed && (128 <=? b) then b - 256 else b.

(** [h = ((h << 5) + h) ^ c] on a [uint32_t h]; [c] is converted to
    [uint32_t] for the xor. *)
Definition hash_step (h c : Z) : Z :=
  u32 (Z.lxor (u32 (Z.shiftl h 5 + h)) (u32 c)).

(** The loop of [_hash(const char *name, size_t length)]; [None] when the
    loop reads past the end of the memory [name]. *)
Fixpoint hash_len_loop (char_signed : bool) (name : list Z) (length : nat)
    (h : Z) : option Z :=
  match length with
  | O => Some h
  | S n =>
      match name with
      | [] => None
      | b :: name' =>
          let c := char_value char_signed b in
          if c =? 0 then Some h
          else hash_len_loop char_signed name' n (hash_step h c)
      end
  end.

Definition _hash_len (char_signed : bool) (name : list Z) (length : nat)
    : option Z :=
  hash_len_loop char_signed name length 5381.

(** The loop of [_hash(const char *name)]. *)
Fixpoint hash_cstr_loop (char_signed : bool) (name : list Z) (h : Z)
    : option Z :=
  match name with
  | [] => None
  | b :: name' =>
      let c := char_value char_signed b in
      if c =? 0 then Some h
      else hash_cstr_loop char_signed name' (hash_step h c)
  end.

Definition _hash (char_signed : bool) (name : list Z) : option Z :=
  hash_cstr_loop char_signed name 5381.

(** [_hash(const __FlashStringHelper *name)] reads each byte into an
    [unsigned char]. *)
Definition _hash_flash (name : list Z) : option Z := hash_cstr_loop false name 5381.

(** The hash as the specification words it: djb2 with xor over the bytes
    up to the first NUL or the length, whichever comes first. *)
Fixpoint djb2_xor (bytes : list Z) (h : Z) : Z :=
  match bytes with
  | [] => h
  | c :: rest => djb2_xor rest (u32 (Z.lxor (u32 (Z.shiftl h 5 + h)) c))
  end.

Fixpoint until_nul (bytes : list Z) : list Z :=
  match bytes with
  | [] => []
  | c :: rest => if c =? 0 then [] else c :: until_nul rest
  end.

Definition hash_reference (name : list Z) (length : nat) : Z :=
  djb2_xor (take length (until_nul name)) 5381.

(** ** Packet codec *)

(** The two checks at the end of [_get_packet], on the received bytes,
    for a [size] of 2 or more.  With a [size] of 0 or 1 the C code takes
    [size - 2] and [size - 1] in [size_t] and reads far outside the
    buffer, which is undefined; the subtractions here stop at 0. *)
Definition packet_ok (magic_value : Z) (buff : list Z) (size : nat) : bool :=
  let magic := u16 (Z.lor (byte_at buff 0) (Z.shiftl (byte_at buff 1) 8)) in
  let crc := u16 (Z.lor (byte_at buff (size - 2))
                        (Z.shiftl (byte_at buff (size - 1)) 8)) in
  (magic =? magic_value) && (crc =? __crc_16 buff (size - 2)).

Definition _set_packet (buff : list Z) (magic_value : Z) (data : list Z)
    (size : nat) : list Z :=
  let buff := <[0%nat := u8 magic_value]> buff in
  let buff := <[1%nat := u8 (Z.shiftr magic_value 8)]> buff in
  let buff := if (size =? 0)%nat then buff else memcpy buff 2 data size in
  let crc := __crc_16 buff (size + 2) in
  let buff := <[(size + 2)%nat := u8 crc]> buff in
  <[(size + 3)%nat := u8 (Z.shiftr crc 8)]> buff.

(** ** The [rpc] object, the transport and the machine *)

(** The data members of class [rpc] that the modelled methods use. *)
Record rpc := mk_rpc {
  _buff : list Z;
  _buff_len : Z;
  _stream_writer_queue_depth_max : Z;
  _put_short_timeout : Z;
  _get_short_timeout : Z;
  _put_long_timeout : Z;
  _get_long_timeout : Z;
  _put_short_timeout_reset : Z;
  _get_short_timeout_reset : Z
}.

Definition set_buff (b : list Z) (r : rpc) : rpc :=
  mk_rpc b (_buff_len r) (_stream_writer_queue_depth_max r)
    (_put_short_timeout r) (_get_short_timeout r)
    (_put_long_timeout r) (_get_long_timeout r)
    (_put_short_timeout_reset r) (_get_short_timeout_reset r).

Definition set_short_timeouts (p g : Z) (r : rpc) : rpc :=
  mk_rpc (_buff r) (_buff_len r) (_stream_writer_queue_depth_max r) p g
    (_put_long_timeout r) (_get_long_timeout r)
    (_put_short_timeout_reset r) (_get_short_timeout_reset r).

(** The virtual methods of [rpc], over a world [W] that stands for the bus
    and the peer.  [get_bytes self buff size timeout] returns the success
    flag and the buffer after the call. *)
Class Transport (W : Type) := {
  get_bytes : rpc -> list Z -> Z -> Z -> W -> bool * list Z * W;
  put_bytes : rpc -> list Z -> Z -> Z -> W -> bool * W;
  _flush : rpc -> W -> W
}.

(** The Arduino core functions the code calls. *)
Class Arduino (W : Type) := {
  millis : W -> Z * W;
  delay : Z -> W -> W;
  delayMicroseconds : Z -> W -> W;
  digitalWrite : Z -> bool -> W -> W
}.

(** The C buffer a transfer reads from or writes to. *)
Inductive buffer_id :=
| BufPacket | BufScratch | BufLfsr | BufOutData | BufOutHeader
| BufInCommandHeader | BufInCommandData | BufInResultHeader
| BufOutResultHeaderAck | BufOutResultDataAck
| BufOutCommandHeaderAck | BufOutCommandDataAck
| BufInResponseHeader | BufInResponseData.

(** What a run does to the outside, newest event first. *)
Inductive event :=
| EvFlush
| EvGet (dst : buffer_id) (size timeout : Z) (ok : bool)
| EvPut (src : buffer_id) (data : list Z) (timeout : Z) (ok : bool)
| EvReaderCallback (data : list Z) (size : Z)
| EvWriterCallback (out_data_len : Z).

Record machine (W : Type) := mk_machine {
  self : rpc;
  world : W;
  trace : list event
}.
Arguments mk_machine {W} _ _ _.
Arguments self {W} _.
Arguments world {W} _.
Arguments trace {W} _.

(** State passing over the machine. *)
Definition M (W A : Type) : Type := machine W -> A * machine W.

Definition ret {W A} (a : A) : M W A := fun m => (a, m).

Definition bind {W A B} (c : M W A) (k : A -> M W B) : M W B :=
  fun m => let (a, m') := c m in k a m'.

Declare Scope rpc_scope.
Delimit Scope rpc_scope with rpc.
Notation "'let*' x ':=' c 'in' k" := (bind c (fun x => k))
  (at level 10, x pattern, c at level 200, k at level 200) : rpc_scope.
Local Open Scope rpc_scope.

Definition get_self {W} : M W rpc := fun m => (self m, m).

Definition modify_self {W} (f : rpc -> rpc) : M W unit :=
  fun m => (tt, mk_machine (f (self m)) (world m) (trace m)).

Definition log {W} (e : event) : M W unit :=
  fun m => (tt, mk_machine (self m) (world m) (e :: trace m)).

Definition lift_world {W A} (f : W -> A * W) : M W A :=
  fun m => let (a, w) := f (world m) in (a, mk_machine (self m) w (trace m)).

(** [lfsr = (lfsr >> 1) ^ ((lfsr & 1) ? 0xB8 : 0x00)] on a [uint8_t]. *)
Definition lfsr_next (s : Z) : Z :=
  u8 (Z.lxor (Z.shiftr s 1) (if negb (Z.land s 1 =? 0) then 0xB8 else 0x00)).

(** The first [n] values of the shift register from state [s] on. *)
Fixpoint lfsr_seq (s : Z) (n : nat) : list Z :=
  match n with
  | O => []
  | S n' => s :: lfsr_seq (lfsr_next s) n'
  end.

(** The test both stream functions make on the eight-byte [packet] they
    received, [return] following when it holds:
    [(magic != magic_value) && (crc != __crc_16(packet, sizeof(packet) - 2))]
    with [magic = packet[0] | (packet[1] << 8)] and
    [crc = packet[6] | (packet[7] << 8)]. *)
Definition stream_packet_rejected (magic_value : Z) (packet : list Z) : bool :=
  let magic := u16 (Z.lor (byte_at packet 0) (Z.shiftl (byte_at packet 1) 8)) in
  let crc := u16 (Z.lor (byte_at packet 6) (Z.shiftl (byte_at packet 7) 8)) in
  negb (magic =? magic_value) && negb (crc =? __crc_16 packet (8 - 2)).

(** Between attempts: [min((t * 6) / 4, timeout)] on the master side,
    [min(t + 1, timeout)] on the slave side, in [unsigned long]. *)
Definition master_backoff (t timeout : Z) : Z := Z.min (u32 (t * 6) / 4) timeout.
Definition slave_backoff (t timeout : Z) : Z := Z.min (u32 (t + 1)) timeout.

(** The two assignments after the comment [Avoid timeout livelocking.] *)
Definition back_off (next : Z -> Z -> Z) (timeout : Z) (s : rpc) : rpc :=
  set_short_timeouts (next (_put_short_timeout s) timeout)
                     (next (_get_short_timeout s) timeout) s.

(** Modelled from the spec: the packet magic constants of [openmvrpc.h]. *)
Definition _COMMAND_HEADER_PACKET_MAGIC : Z := 0x1209.
Definition _COMMAND_DATA_PACKET_MAGIC : Z := 0x8ADE.
Definition _RESULT_HEADER_PACKET_MAGIC : Z := 0x6CEB.
Definition _RESULT_DATA_PACKET_MAGIC : Z := 0xF1A5.

(** Modelled from the spec: the sizes of the member arrays of
    [openmvrpc.h], each the size of the frame it holds (an empty
    acknowledgement is 4 bytes, a result header 8, a command header 12). *)
Definition sizeof_ack : nat := 4.
Definition sizeof_result_header : nat := 8.
Definition sizeof_command_header : nat := 12.

(** The locals of [stream_writer], with two counters that are not in the
    code: the [STREAM_DATA] frames it has started to send and the
    acknowledgement bytes it has accepted. *)
Record writer_state := mk_writer {
  w_packet : list Z;
  w_queue_depth : Z;
  w_rx_lfsr : Z;
  w_credits : Z;
  w_frames : Z;
  w_acks : list Z
}.

(** What one attempt of a handshake loop leads to: [return a], or the
    back-off at the end of the loop body. *)
Inductive attempt (A : Type) := Return (a : A) | Retry.
Arguments Return {A} _.
Arguments Retry {A}.

Section Protocol.
Context {W : Type} `{Transport W} `{Arduino W}.

(** *** Transfers, each leaving an event *)

Definition io_get (dst : buffer_id) (buff : list Z) (size timeout : Z)
    : M W (bool * list Z) :=
  fun m =>
    let '(ok, buff', w) := get_bytes (self m) buff size timeout (world m) in
    ((ok, buff'), mk_machine (self m) w (EvGet dst size timeout ok :: trace m)).

Definition io_put (src : buffer_id) (data : list Z) (size timeout : Z)
    : M W bool :=
  fun m =>
    let '(ok, w) := put_bytes (self m) data size timeout (world m) in
    (ok, mk_machine (self m) w
           (EvPut src (take (Z.to_nat size) data) timeout ok :: trace m)).

Definition io_flush : M W unit :=
  fun m => (tt, mk_machine (self m) (_flush (self m) (world m))
                  (EvFlush :: trace m)).

Definition _stream_get_bytes := io_get.
Definition _stream_put_bytes := io_put.

Definition _get_packet (dst : buffer_id) (magic_value : Z) (buff : list Z)
    (size : Z) (timeout : Z) : M W (bool * list Z) :=
  let* (ok, buff) := io_get dst buff size timeout in
  if negb ok then ret (false, buff)
  else ret (packet_ok magic_value buff (Z.to_nat size), buff).

(** *** [stream_reader] *)

(** One round of the [for (;;)] of [stream_reader] on the locals
    [packet] and [tx_lfsr]; [None] is [return]. *)
Definition stream_reader_iter (callback : option (list Z -> Z -> W -> W))
    (read_timeout : Z) (packet : list Z) (tx_lfsr : Z)
    : M W (option (list Z * Z)) :=
  let* (ok, packet) := _stream_get_bytes BufPacket packet 8 1000 in
  if negb ok then ret None else
  if stream_packet_rejected 0x542E packet then ret None else
  let size := unpack_unsigned_long (drop 2 packet) in
  let* s := get_self in
  if _buff_len s <? size then ret None else
  let* (ok, buff) := _stream_get_bytes BufScratch (_buff s) size read_timeout in
  let* _ := modify_self (set_buff buff) in
  if negb ok then ret None else
  let* _ := match callback with
            | Some cb =>
                let* _ := log (EvReaderCallback buff size) in
                lift_world (fun w => (tt, cb buff size w))
            | None => ret tt
            end in
  let* ok := _stream_put_bytes BufLfsr [tx_lfsr] 1 1000 in
  if negb ok then ret None else
  ret (Some (packet, lfsr_next tx_lfsr)).

(** The loop, [None] when the fuel runs out before it returns. *)
Fixpoint stream_reader_loop (fuel : nat)
    (callback : option (list Z -> Z -> W -> W)) (read_timeout : Z)
    (packet : list Z) (tx_lfsr : Z) : M W (option unit) :=
  match fuel with
  | O => ret None
  | S fuel' =>
      let* r := stream_reader_iter callback read_timeout packet tx_lfsr in
      match r with
      | None => ret (Some tt)
      | Some (packet', tx_lfsr') =>
          stream_reader_loop fuel' callback read_timeout packet' tx_lfsr'
      end
  end.

Definition stream_reader (fuel : nat)
    (callback : option (list Z -> Z -> W -> W))
    (queue_depth read_timeout : Z) : M W (option unit) :=
  let packet := _set_packet (replicate 8 0) 0xEDF6 (bytes_of_u32 queue_depth) 4 in
  let* ok := _stream_put_bytes BufPacket packet 8 1000 in
  if negb ok then ret (Some tt) else
  stream_reader_loop fuel callback read_timeout packet 255.

(** *** [stream_writer] *)

(** Up to the loop: [None] is [return]. *)
Definition stream_writer_setup : M W (option writer_state) :=
  let* (ok, packet) := _stream_get_bytes BufPacket (replicate 8 0) 8 1000 in
  if negb ok then ret None else
  if stream_packet_rejected 0xEDF6 packet then ret None else
  let* s := get_self in
  let queue_depth :=
    Z.max (Z.min (unpack_unsigned_long (drop 2 packet))
                 (_stream_writer_queue_depth_max s)) 1 in
  ret (Some (mk_writer packet queue_depth 255 queue_depth 0 [])).

(** [if (credits <= (queue_depth / 2)) { ... }]; the flag is false on
    [return]. *)
Definition writer_ack_phase (ws : writer_state) : M W (bool * writer_state) :=
  if w_credits ws <=? w_queue_depth ws / 2 then
    let* (ok, packet) := _stream_get_bytes BufPacket (w_packet ws) 1 1000 in
    if negb ok || negb (byte_at packet 0 =? w_rx_lfsr ws)
    then ret (false, mk_writer packet (w_queue_depth ws) (w_rx_lfsr ws)
                       (w_credits ws) (w_frames ws) (w_acks ws))
    else ret (true, mk_writer packet (w_queue_depth ws)
                      (lfsr_next (w_rx_lfsr ws)) (u32 (w_credits ws + 1))
                      (w_frames ws) (w_acks ws ++ [byte_at packet 0]))
  else ret (true, ws).

(** [if (credits > 0) { ... }]. *)
Definition writer_send_phase (callback : W -> list Z * Z * W)
    (write_timeout : Z) (ws : writer_state) : M W (bool * writer_state) :=
  if 0 <? w_credits ws then
    let* (out_data, out_data_len) := lift_world callback in
    let* _ := log (EvWriterCallback out_data_len) in
    let packet := _set_packet (w_packet ws) 0x542E (bytes_of_u32 out_data_len) 4 in
    let sent := mk_writer packet (w_queue_depth ws) (w_rx_lfsr ws)
                  (w_credits ws) (w_frames ws + 1) (w_acks ws) in
    let* ok := _stream_put_bytes BufPacket packet 8 1000 in
    if negb ok then ret (false, sent) else
    let* ok := _stream_put_bytes BufOutData out_data out_data_len write_timeout in
    if negb ok then ret (false, sent) else
    ret (true, mk_writer packet (w_queue_depth ws) (w_rx_lfsr ws)
                 (u32 (w_credits ws - 1)) (w_frames ws + 1) (w_acks ws))
  else ret (true, ws).

(** The [for (;;)] of [stream_writer]: the locals at [return], or [None]
    when the fuel runs out first. *)
Fixpoint stream_writer_loop (fuel : nat) (callback : W -> list Z * Z * W)
    (write_timeout : Z) (ws : writer_state) : M W (option writer_state) :=
  match fuel with
  | O => ret None
  | S fuel' =>
      let* (go, ws1) := writer_ack_phase ws in
      if negb go then ret (Some ws1) else
      let* (go, ws2) := writer_send_phase callback write_timeout ws1 in
      if negb go then ret (Some ws2) else
      stream_writer_loop fuel' callback write_timeout ws2
  end.

Definition stream_writer (fuel : nat) (callback : W -> list Z * Z * W)
    (write_timeout : Z) : M W (option (option writer_state)) :=
  let* r := stream_writer_setup in
  match r with
  | None => ret (Some None)
  | Some ws =>
      let* f := stream_writer_loop fuel callback write_timeout ws in
      match f with
      | None => ret None
      | Some ws' => ret (Some (Some ws'))
      end
  end.

(** *** [rpc_master] *)

(** Set by the constructor of [rpc_master]. *)
Definition __out_result_header_ack : list Z :=
  _set_packet (replicate sizeof_ack 0) _RESULT_HEADER_PACKET_MAGIC [] 0.
Definition __out_result_data_ack : list Z :=
  _set_packet (replicate sizeof_ack 0) _RESULT_DATA_PACKET_MAGIC [] 0.

(** The [while] the four handshake functions share:
    [while ((millis() - start) < timeout) { body; back off }] followed by
    [return timed_out].  [None] when the fuel runs out first. *)
Fixpoint handshake_loop {R : Type} (fuel : nat) (next : Z -> Z -> Z)
    (body : M W (attempt R)) (timed_out : R) (timeout start : Z)
    : M W (option R) :=
  match fuel with
  | O => ret None
  | S fuel' =>
      let* now := lift_world millis in
      if negb (u32 (now - start) <? timeout) then ret (Some timed_out) else
      let* r := body in
      match r with
      | Return a => ret (Some a)
      | Retry =>
          (* Avoid timeout livelocking. *)
          let* _ := modify_self (back_off next timeout) in
          handshake_loop fuel' next body timed_out timeout start
      end
  end.

(** The body of the [while] of [__put_command], up to the back-off. *)
Definition put_command_attempt (out_header : list Z) (size : Z)
    : M W (attempt bool) :=
  let __in_command_header_buf := _zero (replicate sizeof_ack 0) sizeof_ack in
  let __in_command_data_buf := _zero (replicate sizeof_ack 0) sizeof_ack in
  let* _ := io_flush in
  let* s := get_self in
  let* _ := io_put BufOutHeader out_header 12 (_put_short_timeout s) in
  let* (ok, _) := _get_packet BufInCommandHeader _COMMAND_HEADER_PACKET_MAGIC
                    __in_command_header_buf 4 (_get_short_timeout s) in
  if ok then
    let* _ := io_put BufScratch (_buff s) (size_t (size + 4))
                (_put_long_timeout s) in
    let* (ok, _) := _get_packet BufInCommandData _COMMAND_DATA_PACKET_MAGIC
                      __in_command_data_buf 4 (_get_short_timeout s) in
    if ok then ret (Return true) else ret Retry
  else ret Retry.

Definition put_command_loop (fuel : nat) (out_header : list Z)
    (size timeout start : Z) : M W (option bool) :=
  handshake_loop fuel master_backoff (put_command_attempt out_header size)
    false timeout start.

Definition __put_command (fuel : nat) (command : Z) (data : list Z)
    (size timeout : Z) : M W (option bool) :=
  let header := bytes_of_u32 command ++ bytes_of_u32 size in
  let* s := get_self in
  if _buff_len s <? size_t (size + 4) then ret (Some false) else
  let* _ := modify_self (fun s =>
              set_short_timeouts (_put_short_timeout_reset s)
                                 (_get_short_timeout_reset s) s) in
  let out_header := _set_packet (replicate 12 0)
                      _COMMAND_HEADER_PACKET_MAGIC header 8 in
  let* _ := modify_self (fun s =>
              set_buff (_set_packet (_buff s) _COMMAND_DATA_PACKET_MAGIC
                          data (Z.to_nat size)) s) in
  let* start := lift_world millis in
  put_command_loop fuel out_header size timeout start.

(** The body of the [while] of [__get_result]: [Some size] is
    [return true] with [*size = size] and [*data = _buff + 2], [None] is
    [return false]. *)
Definition get_result_attempt : M W (attempt (option Z)) :=
  let __in_result_header_buf :=
    _zero (replicate sizeof_result_header 0) sizeof_result_header in
  let* _ := io_flush in
  let* s := get_self in
  let* _ := io_put BufOutResultHeaderAck __out_result_header_ack 4
              (_put_short_timeout s) in
  let* (ok, hdr) := _get_packet BufInResultHeader _RESULT_HEADER_PACKET_MAGIC
                      __in_result_header_buf 8 (_get_short_timeout s) in
  if ok then
    let in_result_data_buf_len :=
      u32 (unpack_unsigned_long (drop 2 hdr) + 4) in
    if _buff_len s <? in_result_data_buf_len then ret (Return None) else
    let* _ := io_put BufOutResultDataAck __out_result_data_ack 4
                (_put_short_timeout s) in
    let* (ok, buff) := _get_packet BufScratch _RESULT_DATA_PACKET_MAGIC
                         (_buff s) in_result_data_buf_len
                         (_get_long_timeout s) in
    let* _ := modify_self (set_buff buff) in
    if ok then ret (Return (Some (size_t (in_result_data_buf_len - 4))))
    else ret Retry
  else ret Retry.

Definition get_result_loop (fuel : nat) (timeout start : Z)
    : M W (option (option Z)) :=
  handshake_loop fuel master_backoff get_result_attempt None timeout start.

Definition __get_result (fuel : nat) (timeout : Z) : M W (option (option Z)) :=
  let* _ := modify_self (fun s =>
              set_short_timeouts (_put_short_timeout_reset s)
                                 (_get_short_timeout_reset s) s) in
  let* start := lift_world millis in
  get_result_loop fuel timeout start.

(** [__put_command(...) ? __get_result(...) : false]. *)
Definition exchange (fuel : nat) (command : Z) (command_data : list Z)
    (command_data_len send_timeout recv_timeout : Z)
    : M W (option (option Z)) :=
  let* sent := __put_command fuel command command_data command_data_len
                 send_timeout in
  match sent with
  | None => ret None
  | Some true => __get_result fuel recv_timeout
  | Some false => ret (Some None)
  end.

(** The last three lines of the copying variants.  [exchanged] is what
    the exchange gave: [result_size] is set only when it succeeded, and
    is read only then. *)
Definition copy_result (buff : list Z) (exchanged : option Z)
    (result_data : list Z) (result_data_len : Z)
    (return_false_if_received_data_is_zero : bool) : bool * list Z :=
  let result := match exchanged with Some _ => true | None => false end in
  let result_size := default 0 exchanged in
  let result_pointer := drop 2 buff in
  let result := if return_false_if_received_data_is_zero
                then result && negb (result_size =? 0) else result in
  if result
  then (true, memcpy result_data 0 result_pointer
                (Z.to_nat (Z.min result_data_len result_size)))
  else (false, memset result_data 0 (Z.to_nat result_data_len)).

(** The body shared by the copying variants, after the name is hashed. *)
Definition call_hashed (fuel : nat) (command : Z) (command_data : list Z)
    (command_data_len : Z) (result_data : list Z) (result_data_len : Z)
    (return_false_if_received_data_is_zero : bool)
    (send_timeout recv_timeout : Z) : M W (option (bool * list Z)) :=
  let* exchanged := exchange fuel command command_data command_data_len
                      send_timeout recv_timeout in
  match exchanged with
  | None => ret None
  | Some e =>
      let* s := get_self in
      ret (Some (copy_result (_buff s) e result_data result_data_len
                   return_false_if_received_data_is_zero))
  end.

(** [rpc_master::call(const char *name, ...)]; [None] also when hashing
    [name] reads past its end. *)
Definition call (fuel : nat) (char_signed : bool) (name : list Z)
    (command_data : list Z) (command_data_len : Z)
    (result_data : list Z) (result_data_len : Z)
    (return_false_if_received_data_is_zero : bool)
    (send_timeout recv_timeout : Z) : M W (option (bool * list Z)) :=
  match _hash char_signed name with
  | None => ret None
  | Some h =>
      call_hashed fuel h command_data command_data_len result_data
        result_data_len return_false_if_received_data_is_zero
        send_timeout recv_timeout
  end.

(** [rpc_master::call_no_args(const char *name, ...)]. *)
Definition call_no_args (fuel : nat) (char_signed : bool) (name : list Z)
    (result_data : list Z) (result_data_len : Z)
    (return_false_if_received_data_is_zero : bool)
    (send_timeout recv_timeout : Z) : M W (option (bool * list Z)) :=
  match _hash char_signed name with
  | None => ret None
  | Some h =>
      call_hashed fuel h [] 0 result_data result_data_len
        return_false_if_received_data_is_zero send_timeout recv_timeout
  end.

(** *** [rpc_slave] *)

(** Set by the constructor of [rpc_slave]. *)
Definition __out_command_header_ack : list Z :=
  _set_packet (replicate sizeof_ack 0) _COMMAND_HEADER_PACKET_MAGIC [] 0.
Definition __out_command_data_ack : list Z :=
  _set_packet (replicate sizeof_ack 0) _COMMAND_DATA_PACKET_MAGIC [] 0.

(** The body of the [while] of [__get_command]: [Some (command, size)]
    is [return true] with [*data = _buff + 2]. *)
Definition get_command_attempt : M W (attempt (option (Z * Z))) :=
  let __in_command_header_buf :=
    _zero (replicate sizeof_command_header 0) sizeof_command_header in
  let* _ := io_flush in
  let* s := get_self in
  let* (ok, hdr) := _get_packet BufInCommandHeader _COMMAND_HEADER_PACKET_MAGIC
                      __in_command_header_buf 12 (_get_short_timeout s) in
  if ok then
    let cmd := unpack_unsigned_long (drop 2 hdr) in
    let in_command_data_buf_len :=
      u32 (unpack_unsigned_long (drop 6 hdr) + 4) in
    if _buff_len s <? in_command_data_buf_len then ret (Return None) else
    let* _ := io_put BufOutCommandHeaderAck __out_command_header_ack 4
                (_put_short_timeout s) in
    let* (ok, buff) := _get_packet BufScratch _COMMAND_DATA_PACKET_MAGIC
                         (_buff s) in_command_data_buf_len
                         (_get_long_timeout s) in
    let* _ := modify_self (set_buff buff) in
    if ok then
      let* _ := io_put BufOutCommandDataAck __out_command_data_ack 4
                  (_put_short_timeout s) in
      ret (Return (Some (cmd, size_t (in_command_data_buf_len - 4))))
    else ret Retry
  else ret Retry.

Definition get_command_loop (fuel : nat) (timeout start : Z)
    : M W (option (option (Z * Z))) :=
  handshake_loop fuel slave_backoff get_command_attempt None timeout start.

Definition __get_command (fuel : nat) (timeout : Z)
    : M W (option (option (Z * Z))) :=
  let* _ := modify_self (fun s =>
              set_short_timeouts (_put_short_timeout_reset s)
                                 (_get_short_timeout_reset s) s) in
  let* start := lift_world millis in
  get_command_loop fuel timeout start.

(** The body of the [while] of [__put_result]. *)
Definition put_result_attempt (out_header : list Z) (size : Z)
    : M W (attempt bool) :=
  let __in_response_header_buf := _zero (replicate sizeof_ack 0) sizeof_ack in
  let __in_response_data_buf := _zero (replicate sizeof_ack 0) sizeof_ack in
  let* _ := io_flush in
  let* s := get_self in
  let* (ok, _) := _get_packet BufInResponseHeader _RESULT_HEADER_PACKET_MAGIC
                    __in_response_header_buf 4 (_get_short_timeout s) in
  if ok then
    let* _ := io_put BufOutHeader out_header 8 (_put_short_timeout s) in
    let* (ok, _) := _get_packet BufInResponseData _RESULT_DATA_PACKET_MAGIC
                      __in_response_data_buf 4 (_get_short_timeout s) in
    if ok then
      let* _ := io_put BufScratch (_buff s) (size_t (size + 4))
                  (_put_long_timeout s) in
      ret (Return true)
    else ret Retry
  else ret Retry.

Definition put_result_loop (fuel : nat) (out_header : list Z)
    (size timeout start : Z) : M W (option bool) :=
  handshake_loop fuel slave_backoff (put_result_attempt out_header size)
    false timeout start.

Definition __put_result (fuel : nat) (data : list Z) (size timeout : Z)
    : M W (option bool) :=
  let header := bytes_of_u32 size in
  let* s := get_self in
  if _buff_len s <? size_t (size + 4) then ret (Some false) else
  let* _ := modify_self (fun s =>
              set_short_timeouts (_put_short_timeout_reset s)
                                 (_get_short_timeout_reset s) s) in
  let out_header := _set_packet (replicate 8 0)
                      _RESULT_HEADER_PACKET_MAGIC header 4 in
  let* _ := modify_self (fun s =>
              set_buff (_set_packet (_buff s) _RESULT_DATA_PACKET_MAGIC
                          data (Z.to_nat size)) s) in
  let* start := lift_world millis in
  put_result_loop fuel out_header size timeout start.

End Protocol.

(** ** The SPI and I2C masters *)

(** The Arduino [SPI] and [Wire] objects. *)
Class SPIClass (W : Type) := {
  SPI_beginTransaction : W -> W;
  SPI_transfer : list Z -> Z -> W -> list Z * W;
  SPI_endTransaction : W -> W
}.

Class TwoWire (W : Type) := {
  Wire_begin : W -> W;
  Wire_setClock : Z -> W -> W;
  Wire_requestFrom : Z -> Z -> bool -> W -> Z * W;
  Wire_read : W -> Z * W;
  Wire_end : W -> W
}.

Section HalfDuplexMasters.
Context {W : Type} `{Arduino W} `{SPIClass W} `{TwoWire W}.

Definition rpc_spi_master_get_bytes (__cs_pin : Z) (self : rpc)
    (buff : list Z) (size timeout : Z) (w : W) : bool * list Z * W :=
  let w := digitalWrite __cs_pin false w in
  let w := delayMicroseconds 100 w in
  let w := SPI_beginTransaction w in
  let (buff, w) := SPI_transfer buff size w in
  let w := SPI_endTransaction w in
  let w := digitalWrite __cs_pin true w in
  let ok := negb (_same buff (Z.to_nat size)) in
  let w := if negb ok then delay (_get_short_timeout self) w else w in
  (ok, buff, w).

(** [for (size_t j = 0; j < request_size; j++) buff[i+j] = Wire.read();]
    with [n] reads left and [slot = i + j]. *)
Fixpoint wire_read_into (n : nat) (slot : nat) (buff : list Z) (w : W)
    : list Z * W :=
  match n with
  | O => (buff, w)
  | S n' =>
      let (b, w) := Wire_read w in
      wire_read_into n' (S slot) (<[slot := u8 b]> buff) w
  end.

(** The [for (size_t i = 0; i < size; i += 32)] of
    [rpc_i2c_master::get_bytes], giving [ok], the buffer and the world.
    [i] grows by 32 a round, so [size] rounds of fuel always reach
    [i >= size]. *)
Fixpoint i2c_request_loop (fuel : nat) (__slave_addr : Z) (i size : Z)
    (buff : list Z) (w : W) : bool * list Z * W :=
  match fuel with
  | O => (true, buff, w)
  | S fuel' =>
      if i <? size then
        let size_remaining := size - i in
        let request_size := Z.min size_remaining 32 in
        let request_stop := size_remaining <=? 32 in
        let w := delayMicroseconds 100 w in
        let (got, w) := Wire_requestFrom __slave_addr request_size
                          request_stop w in
        if negb (got =? request_size) then (false, buff, w) else
        let (buff, w) := wire_read_into (Z.to_nat request_size)
                           (Z.to_nat i) buff w in
        i2c_request_loop fuel' __slave_addr (i + 32) size buff w
      else (true, buff, w)
  end.

Definition rpc_i2c_master_get_bytes (__slave_addr __rate : Z) (self : rpc)
    (buff : list Z) (size timeout : Z) (w : W) : bool * list Z * W :=
  let ok := true in
  let w := Wire_begin w in
  let w := Wire_setClock __rate w in
  let '(ok, buff, w) := i2c_request_loop (Z.to_nat size) __slave_addr 0 size
                          buff w in
  let w := Wire_end w in
  let ok := if ok then ok && negb (_same buff (Z.to_nat size)) else ok in
  let w := if negb ok then delay (_get_short_timeout self) w else w in
  (ok, buff, w).

End HalfDuplexMasters.

(** ** A scripted peer, to run the code on

    The world holds a clock, the chunks the peer will deliver to the
    successive receive calls, the stream payloads the application will
    produce, and the milliseconds spent in [delay]. *)
Record script := mk_script {
  clock : Z;
  incoming : list (list Z);
  outgoing : list (list Z);
  delayed : list Z
}.

Definition script_get (buff : list Z) (size : Z) (w : script)
    : bool * list Z * script :=
  match incoming w with
  | chunk :: rest =>
      let w' := mk_script (clock w) rest (outgoing w) (delayed w) in
      if Z.of_nat (length chunk) =? size
      then (true, list_inserts 0 chunk buff, w')
      else (false, buff, w')
  | [] => (false, buff, w)
  end.

#[global] Instance script_transport : Transport script := {
  get_bytes _ buff size _ w := script_get buff size w;
  put_bytes _ _ _ _ w := (true, w);
  _flush _ w := w
}.

#[global] Instance script_arduino : Arduino script := {
  millis w := (clock w, mk_script (clock w + 1) (incoming w) (outgoing w) (delayed w));
  delay ms w := mk_script (clock w + ms) (incoming w) (outgoing w) (ms :: delayed w);
  delayMicroseconds _ w := w;
  digitalWrite _ _ w := w
}.

#[global] Instance script_spi : SPIClass script := {
  SPI_beginTransaction w := w;
  SPI_transfer buff size w :=
    let '(_, buff', w') := script_get buff size w in (buff', w');
  SPI_endTransaction w := w
}.

(** The slave answers a request with the next chunk when it has as many
    bytes as asked for; the chunk is then read byte by byte. *)
#[global] Instance script_wire : TwoWire script := {
  Wire_begin w := w;
  Wire_setClock _ w := w;
  Wire_requestFrom _ n _ w :=
    match incoming w with
    | chunk :: _ => if Z.of_nat (length chunk) =? n then (n, w) else (0, w)
    | [] => (0, w)
    end;
  Wire_read w :=
    match incoming w with
    | (b :: chunk) :: rest =>
        (b, mk_script (clock w)
              (if chunk is [] then rest else chunk :: rest)
              (outgoing w) (delayed w))
    | _ => (-1, w)
    end;
  Wire_end w := w
}.

(** The stream writer's callback: the next payload of the script. *)
Definition script_writer_callback (w : script) : list Z * Z * script :=
  match outgoing w with
  | out :: rest =>
      (out, Z.of_nat (length out),
       mk_script (clock w) (incoming w) rest (delayed w))
  | [] => ([], 0, w)
  end.

Definition default_rpc (buff_len : nat) (queue_depth_max : Z) : rpc :=
  mk_rpc (replicate buff_len 0) (Z.of_nat buff_len) queue_depth_max
    2 2 5000 5000 2 2.

Definition start_machine (buff_len : nat) (queue_depth_max : Z)
    (incoming : list (list Z)) (outgoing : list (list Z)) : machine script :=
  mk_machine (default_rpc buff_len queue_depth_max)
    (mk_script 0 incoming outgoing []) [].

(** A frame as the wire carries it. *)
Definition frame (magic_value : Z) (payload : list Z) : list Z :=
  let head := [u8 magic_value; u8 (Z.shiftr magic_value 8)] ++ payload in
  let crc := fold_left crc_step head 0xFFFF in
  head ++ [u8 crc; u8 (Z.shiftr crc 8)].

(** A stream reader that is sent two data headers, each announcing an
    empty payload. *)
Definition two_frames_start : machine script :=
  start_machine 16 255
    [frame 0x542E (bytes_of_u32 0); []; frame 0x542E (bytes_of_u32 0); []] [].

(** A stream writer on a full-duplex transport, asked for depth 2, that
    is sent two acknowledgements; and its locals when the third receive
    fails. *)
Definition full_duplex_start : machine script :=
  start_machine 16 255 [frame 0xEDF6 (bytes_of_u32 2); [255]; [199]]
    [[1; 2]; [3]; [4]].

Definition full_duplex_final : writer_state :=
  mk_writer [46; 84; 1; 0; 0; 0; 59; 81] 2 219 1 3 [255; 199].

(** A stream writer on a half-duplex transport (maximal depth 1), asked
    for depth 8, that is sent one right and one wrong acknowledgement; and
    its locals at the [return]. *)
Definition half_duplex_start : machine script :=
  start_machine 16 1 [frame 0xEDF6 (bytes_of_u32 8); [255]; [0]]
    [[1; 2]; [3]; [4]].

Definition half_duplex_final : writer_state :=
  mk_writer [0; 84; 1; 0; 0; 0; 59; 81] 1 199 0 2 [255].

(** A master whose slave never answers. *)
Definition silent_start : machine script := start_machine 16 255 [] [].

(** A master whose slave acknowledges the command and returns no bytes. *)
Definition empty_result_start : machine script :=
  start_machine 16 255
    [frame 0x1209 []; frame 0x8ADE []; frame 0x6CEB (bytes_of_u32 0);
     frame 0xF1A5 []] [].

(** A stream reader that is sent a payload as large as its buffer. *)
Definition full_payload_start : machine script :=
  start_machine 16 255 [frame 0x542E (bytes_of_u32 16); replicate 16 7] [].

(** A bus that reads as the same byte four times. *)
Definition stuck_bus : script := mk_script 0 [[7; 7; 7; 7]] [] [].

(** The byte values, to check a property of every byte by evaluation. *)
Definition byte_values : list Z := map Z.of_nat (seq 0 256).

(** The index of the table entry whose low byte is [x]. *)
Definition crc_table_low_index (x : Z) : Z :=
  default 0 (find (fun i => Z.land (crc_table_at i) 0xFF =? x) byte_values).

(** ** Traces, invariants and the places of a run *)

(** The acknowledgement bytes a trace shows [stream_reader] sending from
    [tx_lfsr], oldest first. *)
Fixpoint acks_put (tr : list event) : list Z :=
  match tr with
  | [] => []
  | EvPut BufLfsr data _ _ :: tr' => acks_put tr' ++ data
  | _ :: tr' => acks_put tr'
  end.

(** A receive into the scratch buffer asks for no more than [buff_len]. *)
Definition scratch_get_fits (buff_len : Z) (e : event) : Prop :=
  match e with
  | EvGet BufScratch size _ _ => size <= buff_len
  | _ => True
  end.

(** What a round of [stream_reader] with [tx_lfsr = s], from machine [m]
    to [m'] with result [r], keeps or adds: the buffer length, the events,
    the acknowledgement bytes. *)
Definition reader_step_ok {W : Type} (s : Z) (m : machine W)
    (r : option (list Z * Z)) (m' : machine W) : Prop :=
  _buff_len (self m') = _buff_len (self m)
  /\ (exists new, trace m' = new ++ trace m
                  /\ Forall (scratch_get_fits (_buff_len (self m))) new)
  /\ (exists l, acks_put (trace m') = acks_put (trace m) ++ l
                /\ match r with
                   | Some (_, s') => s' = lfsr_next s /\ l = [s]
                   | None => l = [] \/ l = [s]
                   end).

(** The same for a whole run of rounds. *)
Definition reader_run_ok {W : Type} (s : Z) (m m' : machine W) : Prop :=
  _buff_len (self m') = _buff_len (self m)
  /\ (exists new, trace m' = new ++ trace m
                  /\ Forall (scratch_get_fits (_buff_len (self m))) new)
  /\ (exists n, acks_put (trace m') = acks_put (trace m) ++ lfsr_seq s n).

(** All the bytes of a list are the same. *)
Definition all_equal (l : list Z) : Prop :=
  forall i j x y, l !! i = Some x -> l !! j = Some y -> x = y.

(** The places of [stream_writer] a run can be at: the top of the
    [for (;;)], between its two [if]s, and after a [return]. *)
Inductive writer_point := AtLoopTop | AfterAckPhase | Returned.

(** What holds of the locals of [stream_writer] at every place of a run,
    [qmax] being [_stream_writer_queue_depth_max]. *)
Definition writer_inv (qmax : Z) (p : writer_point) (ws : writer_state) : Prop :=
  let D := w_queue_depth ws in
  let acked := Z.of_nat (length (w_acks ws)) in
  1 <= D < 2 ^ 32
  /\ D <= Z.max qmax 1
  /\ 0 <= w_credits ws <= D
  /\ w_frames ws - acked <= D
  /\ (p <> Returned -> w_frames ws - acked = D - w_credits ws)
  /\ w_acks ws = lfsr_seq 255 (length (w_acks ws))
  /\ w_rx_lfsr ws = Nat.iter (length (w_acks ws)) lfsr_next 255.

Section WriterRuns.
Context {W : Type} `{Transport W}.

(** The runs of [stream_writer] started in machine [m0]. *)
Inductive writer_reach (callback : W -> list Z * Z * W) (write_timeout : Z)
    (m0 : machine W) : writer_point -> writer_state -> machine W -> Prop :=
| reach_setup ws m :
    stream_writer_setup m0 = (Some ws, m) ->
    writer_reach callback write_timeout m0 AtLoopTop ws m
| reach_ack ws m go ws' m' :
    writer_reach callback write_timeout m0 AtLoopTop ws m ->
    writer_ack_phase ws m = (go, ws', m') ->
    writer_reach callback write_timeout m0
      (if go then AfterAckPhase else Returned) ws' m'
| reach_send ws m go ws' m' :
    writer_reach callback write_timeout m0 AfterAckPhase ws m ->
    writer_send_phase callback write_timeout ws m = (go, ws', m') ->
    writer_reach callback write_timeout m0
      (if go then AtLoopTop else Returned) ws' m'.
End WriterRuns.

(** ** The bit-by-bit CRC

    The loop that [__crc_16] keeps in a comment above the table lookup:
    [crc ^= data[i] << 8;] and then, eight times,
    [crc = (crc << 1) ^ ((crc & 0x8000) ? 0x1021 : 0x0000)], on a
    [uint16_t crc]. *)
Definition crc_shift (crc : Z) : Z :=
  u16 (Z.lxor (Z.shiftl crc 1)
              (if negb (Z.land crc 0x8000 =? 0) then 0x1021 else 0x0000)).

Definition crc_bitwise_step (crc d : Z) : Z :=
  Nat.iter 8 crc_shift (u16 (Z.lxor crc (Z.shiftl d 8))).

Definition crc_16_bitwise (data : list Z) (size : nat) : Z :=
  fold_left crc_bitwise_step (take size data) 0xFFFF.

(** The 16-bit value with high byte [hi] and low byte [lo]. *)
Definition u16_of_bytes (hi lo : Z) : Z := hi * 256 + lo.

(** ** The callback table of [rpc_slave] *)

(** [rpc_callback_entry_t]: the hash of a name and a function pointer,
    0 standing for [NULL]. *)
Record rpc_callback_entry_t := mk_entry {
  key : Z;
  value : Z
}.

(** The data members that [rpc_slave] adds to [rpc]: the table the
    constructor is given, its capacity [__dict_len], the number of
    entries in use, and the two hooks (function pointers again).  The two
    counts are kept below the capacity by the code, and are natural
    numbers here. *)
Record rpc_slave := mk_slave {
  __dict : list rpc_callback_entry_t;
  __dict_len : nat;
  __dict_alloced : nat;
  __schedule_cb : Z;
  __loop_cb : Z
}.

Definition set_dict (d : list rpc_callback_entry_t) (alloced : nat)
    (sl : rpc_slave) : rpc_slave :=
  mk_slave d (__dict_len sl) alloced (__schedule_cb sl) (__loop_cb sl).

(** [for (size_t i = 0; i < __dict_alloced; i++) if (__dict[i].key == hash)]
    over the entries in use: the first index, counted from [i], whose key
    is [hash]. *)
Fixpoint dict_find_key (entries : list rpc_callback_entry_t) (hash : Z)
    (i : nat) : option nat :=
  match entries with
  | [] => None
  | e :: rest =>
      if key e =? hash then Some i else dict_find_key rest hash (S i)
  end.

(** [register_callback] once the name is hashed.  A write outside the
    table (undefined in C) is dropped. *)
Definition register_hashed (hash callback : Z) (sl : rpc_slave)
    : bool * rpc_slave :=
  match dict_find_key (take (__dict_alloced sl) (__dict sl)) hash 0 with
  | Some i =>
      (true, set_dict (alter (fun e => mk_entry (key e) callback) i (__dict sl))
                      (__dict_alloced sl) sl)
  | None =>
      if (__dict_alloced sl <? __dict_len sl)%nat
      then (true, set_dict (<[__dict_alloced sl := mk_entry hash callback]>
                              (__dict sl))
                           (S (__dict_alloced sl)) sl)
      else (false, sl)
  end.

(** [rpc_slave::register_callback(const char *name, ...)]; [None] when
    hashing [name] reads past its end. *)
Definition register_callback (char_signed : bool) (name : list Z)
    (callback : Z) (sl : rpc_slave) : option (bool * rpc_slave) :=
  match _hash char_signed name with
  | None => None
  | Some hash => Some (register_hashed hash callback sl)
  end.

Definition schedule_callback (callback : Z) (sl : rpc_slave) : rpc_slave :=
  mk_slave (__dict sl) (__dict_len sl) (__dict_alloced sl) callback
    (__loop_cb sl).

Definition setup_loop_callback (callback : Z) (sl : rpc_slave) : rpc_slave :=
  mk_slave (__dict sl) (__dict_len sl) (__dict_alloced sl) (__schedule_cb sl)
    callback.

(** The [for] of [rpc_slave::loop] that looks [command] up: the function
    pointer of the first entry with this key and a value that is not
    [NULL]. *)
Fixpoint dict_find_callback (entries : list rpc_callback_entry_t)
    (command : Z) : option Z :=
  match entries with
  | [] => None
  | e :: rest =>
      if (key e =? command) && negb (value e =? 0) then Some (value e)
      else dict_find_callback rest command
  end.

Definition lookup_callback (command : Z) (sl : rpc_slave) : option Z :=
  dict_find_callback (take (__dict_alloced sl) (__dict sl)) command.

(** What [register_callback] keeps of the table: the entries in use fit
    the array, and no two of them have the same key. *)
Definition dict_wf (sl : rpc_slave) : Prop :=
  (__dict_alloced sl <= __dict_len sl)%nat
  /\ (__dict_len sl <= length (__dict sl))%nat
  /\ List.NoDup (map key (take (__dict_alloced sl) (__dict sl))).

(** A slave with a table of [n] entries of which none is in use, and no
    callback scheduled or set up. *)
Definition new_slave (n : nat) : rpc_slave :=
  mk_slave (replicate n (mk_entry 0 0)) n 0 0 0.

(** A slave whose table of one entry is in use. *)
Definition full_slave : rpc_slave := mk_slave [mk_entry 177603 7] 1 1 0 0.

(** The values of a list are pairwise different, by evaluation. *)
Fixpoint all_different (l : list Z) : bool :=
  match l with
  | [] => true
  | x :: rest => forallb (fun y => negb (y =? x)) rest && all_different rest
  end.

(** ** The zero-copy variants of [rpc_master] *)

Section ZeroCopy.
Context {W : Type} `{Transport W} `{Arduino W}.

(** [rpc_master::call_no_copy(const char *name, ...)]: [Some size] is
    [return true] with [*result_data = _buff + 2] and
    [*result_data_len = size], [None] is [return false]. *)
Definition call_no_copy (fuel : nat) (char_signed : bool) (name : list Z)
    (command_data : list Z) (command_data_len : Z)
    (send_timeout recv_timeout : Z) : M W (option (option Z)) :=
  match _hash char_signed name with
  | None => ret None
  | Some h =>
      exchange fuel h command_data command_data_len send_timeout recv_timeout
  end.

(** [rpc_master::call_no_copy_no_args(const char *name, ...)]. *)
Definition call_no_copy_no_args (fuel : nat) (char_signed : bool)
    (name : list Z) (send_timeout recv_timeout : Z)
    : M W (option (option Z)) :=
  match _hash char_signed name with
  | None => ret None
  | Some h => exchange fuel h [] 0 send_timeout recv_timeout
  end.

End ZeroCopy.

(** A scratch buffer that holds a checked frame of [size + 4] bytes, or a
    size that shows the announced length wrapped around. *)
Definition checked_frame (magic_value : Z) (this : rpc) (size : Z) : Prop :=
  (0 <= size /\ size + 4 <= _buff_len this
   /\ packet_ok magic_value (_buff this) (Z.to_nat (size + 4)) = true)
  \/ 2 ^ 32 - 4 <= size.

(** A slave that is sent command 5 with the payload [1; 2]. *)
Definition command_start : machine script :=
  start_machine 16 255
    [frame 0x1209 (bytes_of_u32 5 ++ bytes_of_u32 2); frame 0x8ADE [1; 2]] [].

(** A stream writer, asked for depth 2, whose receive line repeats the
    first acknowledgement; and its locals and machine at the top of the
    loop once that acknowledgement is accepted. *)
Definition repeated_ack_start : machine script :=
  start_machine 16 255 [frame 0xEDF6 (bytes_of_u32 2); [255]; [255]]
    [[1; 2]; [3]; [4]].

Definition repeated_ack_locals : writer_state :=
  mk_writer [46; 84; 1; 0; 0; 0; 59; 81] 2 199 1 2 [255].

Definition repeated_ack_machine : machine script :=
  mk_machine (default_rpc 16 255) (mk_script 0 [[255]] [[4]] [])
    [EvPut BufOutData [3] 100 true;
     EvPut BufPacket [46; 84; 1; 0; 0; 0; 59; 81] 1000 true;
     EvWriterCallback 1;
     EvGet BufPacket 1 1000 true;
     EvPut BufOutData [1; 2] 100 true;
     EvPut BufPacket [46; 84; 2; 0; 0; 0; 231; 202] 1000 true;
     EvWriterCallback 2;
     EvGet BufPacket 8 1000 true].

(** A master that is sent the result [7; 8]. *)
Definition result_start : machine script :=
  start_machine 16 255
    [frame 0x6CEB (bytes_of_u32 2); frame 0xF1A5 [7; 8]] [].

(** A master, and a slave, that is sent a header announcing 13 bytes of
    payload, one more than a buffer of 16 bytes can take with its frame. *)
Definition oversized_result_start : machine script :=
  start_machine 16 255 [frame 0x6CEB (bytes_of_u32 13)] [].

Definition oversized_command_start : machine script :=
  start_machine 16 255 [frame 0x1209 (bytes_of_u32 5 ++ bytes_of_u32 13)] [].

(** A stream reader that is sent the header of a payload of 2 bytes and
    the payload. *)
Definition one_frame_start : machine script :=
  start_machine 16 255 [frame 0x542E (bytes_of_u32 2); [7; 8]] [].

(** A slave whose master asks for the result header and for the result. *)
Definition result_request_start : machine script :=
  start_machine 16 255 [frame 0x6CEB []; frame 0xF1A5 []] [].

(** The locals and the machine of [stream_writer] after the setup and [n]
    rounds of the loop, when none of them returns. *)
Fixpoint writer_rounds {W : Type} `{Transport W} (n : nat)
    (callback : W -> list Z * Z * W) (write_timeout : Z)
    (ws : writer_state) (m : machine W) : option (writer_state * machine W) :=
  match n with
  | O => Some (ws, m)
  | S n' =>
      let '(go, ws1, m1) := writer_ack_phase ws m in
      if negb go then None else
      let '(go, ws2, m2) := writer_send_phase callback write_timeout ws1 m1 in
      if negb go then None else
      writer_rounds n' callback write_timeout ws2 m2
  end.

Definition writer_after_rounds {W : Type} `{Transport W} (n : nat)
    (callback : W -> list Z * Z * W) (write_timeout : Z) (m0 : machine W)
    : option (writer_state * machine W) :=
  match stream_writer_setup m0 with
  | (Some ws, m) => writer_rounds n callback write_timeout ws m
  | (None, _) => None
  end.

(** ** The CAN transport *)

(** The [CAN] object of the Arduino CAN library, as far as the receive
    path uses it. *)
Class CANClass (W : Type) := {
  CAN_parsePacket : W -> Z * W;
  CAN_read : W -> Z * W
}.

Section CanTransport.
Context {W : Type} `{Arduino W} `{CANClass W}.

(** [for (int j = 0, jj = CAN.parsePacket(); j < jj; j++)
       { buff[i++] = CAN.read(); if (i == size) break; }]
    with [n] rounds left. *)
Fixpoint can_read_loop (n : nat) (i size : Z) (buff : list Z) (w : W)
    : Z * list Z * W :=
  match n with
  | O => (i, buff, w)
  | S n' =>
      let (b, w) := CAN_read w in
      let buff := <[Z.to_nat i := u8 b]> buff in
      let i := size_t (i + 1) in
      if i =? size then (i, buff, w) else can_read_loop n' i size buff w
  end.

(** [while (((millis() - start) < timeout) && (i != size)) { ... }];
    [None] when the fuel runs out first. *)
Fixpoint can_get_loop (fuel : nat) (start timeout i size : Z)
    (buff : list Z) (w : W) : option (Z * list Z * W) :=
  match fuel with
  | O => None
  | S fuel' =>
      let (now, w) := millis w in
      if (u32 (now - start) <? timeout) && negb (i =? size) then
        let (jj, w) := CAN_parsePacket w in
        let '(i, buff, w) := can_read_loop (Z.to_nat jj) i size buff w in
        can_get_loop fuel' start timeout i size buff w
      else Some (i, buff, w)
  end.

(** [rpc_can_master::get_bytes]. *)
Definition rpc_can_master_get_bytes (fuel : nat) (self : rpc)
    (buff : list Z) (size timeout : Z) (w : W) : option (bool * list Z * W) :=
  let i := 0 in
  let (start, w) := millis w in
  match can_get_loop fuel start timeout i size buff w with
  | None => None
  | Some (i, buff, w) =>
      let ok := i =? size in
      let w := if negb ok then delay (_get_short_timeout self) w else w in
      Some (ok, buff, w)
  end.

(** [rpc_can_slave::get_bytes]: the same without the delay. *)
Definition rpc_can_slave_get_bytes (fuel : nat) (self : rpc)
    (buff : list Z) (size timeout : Z) (w : W) : option (bool * list Z * W) :=
  let i := 0 in
  let (start, w) := millis w in
  match can_get_loop fuel start timeout i size buff w with
  | None => None
  | Some (i, buff, w) => Some (i =? size, buff, w)
  end.

End CanTransport.

(** The scripted peer as a CAN bus: a packet is the next chunk, read byte
    by byte. *)
#[global] Instance script_can : CANClass script := {
  CAN_parsePacket w :=
    (match incoming w with
     | chunk :: _ => Z.of_nat (length chunk)
     | [] => 0
     end, w);
  CAN_read w := Wire_read w
}.

(** A CAN bus that delivers two packets, of three and of two bytes. *)
Definition two_packets : script := mk_script 0 [[1; 2; 3]; [4; 5]] [] [].

(** ** The I2C master, sending *)

(** The part of [Wire] that a master needs to send. *)
Class TwoWireTx (W : Type) := {
  Wire_beginTransmission : Z -> W -> W;
  Wire_write : list Z -> Z -> W -> Z * W;
  Wire_endTransmission : bool -> W -> Z * W
}.

Section I2cMasterPut.
Context {W : Type} `{Arduino W} `{TwoWire W} `{TwoWireTx W}.

(** The [for (size_t i = 0; (i < size) && ok; i += 32)] of
    [rpc_i2c_master::put_bytes], giving [ok] and the world, and with them
    what is not in the code: the bytes and the stop flag of each
    transmission it has begun, oldest first.  [Wire.endTransmission] is
    called only when [Wire.write] took the whole request. *)
Fixpoint i2c_transmit_loop (fuel : nat) (__slave_addr : Z) (i size : Z)
    (ok : bool) (data : list Z) (w : W) (sent : list (list Z * bool))
    : bool * W * list (list Z * bool) :=
  match fuel with
  | O => (ok, w, sent)
  | S fuel' =>
      if (i <? size) && ok then
        let size_remaining := size - i in
        let request_size := Z.min size_remaining 32 in
        let request_stop := size_remaining <=? 32 in
        let w := delayMicroseconds 100 w in
        let w := Wire_beginTransmission __slave_addr w in
        let request := take (Z.to_nat request_size) (drop (Z.to_nat i) data) in
        let sent := sent ++ [(request, request_stop)] in
        let (written, w) := Wire_write (drop (Z.to_nat i) data) request_size w in
        if written =? request_size then
          let (error, w) := Wire_endTransmission request_stop w in
          i2c_transmit_loop fuel' __slave_addr (i + 32) size (error =? 0)
            data w sent
        else
          i2c_transmit_loop fuel' __slave_addr (i + 32) size false data w sent
      else (ok, w, sent)
  end.

Definition rpc_i2c_master_put_bytes (__slave_addr __rate : Z) (self : rpc)
    (data : list Z) (size timeout : Z) (w : W)
    : bool * W * list (list Z * bool) :=
  let ok := true in
  let w := Wire_begin w in
  let w := Wire_setClock __rate w in
  let '(ok, w, sent) := i2c_transmit_loop (Z.to_nat size) __slave_addr 0 size
                          ok data w [] in
  let w := Wire_end w in
  (ok, w, sent).

End I2cMasterPut.

(** A scripted slave that takes every transmission. *)
#[global] Instance script_wire_tx : TwoWireTx script := {
  Wire_beginTransmission _ w := w;
  Wire_write _ n w := (n, w);
  Wire_endTransmission _ w := (0, w)
}.

(** ** The loop of [rpc_slave] *)

Section SlaveLoop.
Context {W : Type} `{Transport W} `{Arduino W}.

(** What calling through a function pointer does: an [rpc_callback_t] is
    given the payload and its size and sets [out_data] and
    [out_data_len], an [rpc_plain_callback_t] is given nothing.  Either
    may use the slave, so it gets the data members and the machine. *)
Variable call_rpc_callback :
  Z -> list Z -> Z -> rpc_slave -> M W (list Z * Z * rpc_slave).
Variable call_plain_callback : Z -> rpc_slave -> M W rpc_slave.

(** The [for] over the table in [loop], with [out_data = NULL] and
    [out_data_len = 0] when it calls nothing. *)
Definition dispatch (command : Z) (data : list Z) (size : Z) (sl : rpc_slave)
    : M W (list Z * Z * rpc_slave) :=
  match lookup_callback command sl with
  | Some callback => call_rpc_callback callback data size sl
  | None => ret ([], 0, sl)
  end.

(** [if (__get_command(...)) { ... }] in a round of [loop]; [None] when
    the fuel of a handshake runs out. *)
Definition loop_serve (fuel : nat) (send_timeout recv_timeout : Z)
    (sl : rpc_slave) : M W (option rpc_slave) :=
  let* got := __get_command fuel recv_timeout in
  match got with
  | None => ret None
  | Some None => ret (Some sl)
  | Some (Some (command, size)) =>
      let* s := get_self in
      let* (out, sl) := dispatch command (drop 2 (_buff s)) size sl in
      let (out_data, out_data_len) := out in
      let* put := __put_result fuel out_data out_data_len send_timeout in
      match put with
      | None => ret None
      | Some ok =>
          let* sl := if ok && negb (__schedule_cb sl =? 0)
                     then call_plain_callback (__schedule_cb sl) sl
                     else ret sl in
          ret (Some (schedule_callback 0 sl))
      end
  end.

(** One round of the [for (;;)] of [loop]. *)
Definition loop_round (fuel : nat) (send_timeout recv_timeout : Z)
    (sl : rpc_slave) : M W (option rpc_slave) :=
  let* served := loop_serve fuel send_timeout recv_timeout sl in
  match served with
  | None => ret None
  | Some sl =>
      if negb (__loop_cb sl =? 0)
      then let* sl := call_plain_callback (__loop_cb sl) sl in ret (Some sl)
      else ret (Some sl)
  end.

(** The first [rounds] rounds of [loop], which never returns. *)
Fixpoint loop (rounds fuel : nat) (send_timeout recv_timeout : Z)
    (sl : rpc_slave) : M W (option rpc_slave) :=
  match rounds with
  | O => ret (Some sl)
  | S rounds' =>
      let* r := loop_round fuel send_timeout recv_timeout sl in
      match r with
      | None => ret None
      | Some sl => loop rounds' fuel send_timeout recv_timeout sl
      end
  end.

End SlaveLoop.

(** A slave with one callback, registered under the hash 5, that has a
    callback scheduled and is sent command 5 with the payload [1; 2] and
    then asked for the result; its callbacks echo the payload and do
    nothing. *)
Definition echo_slave : rpc_slave := mk_slave [mk_entry 5 7] 1 1 3 0.

Definition echo_start : machine script :=
  start_machine 16 255
    [frame 0x1209 (bytes_of_u32 5 ++ bytes_of_u32 2); frame 0x8ADE [1; 2];
     frame 0x6CEB []; frame 0xF1A5 []] [].

Definition echo_callback (callback : Z) (data : list Z) (size : Z)
    (sl : rpc_slave) : M script (list Z * Z * rpc_slave) :=
  ret (data, size, sl).

Definition idle_callback (callback : Z) (sl : rpc_slave)
    : M script rpc_slave :=
  ret sl.

(** ** A bus that records what was read from it *)

Section Recorder.
Context {W : Type}.

(** The world [W] together with the values that [Wire.read()] or
    [CAN.read()] have returned so far, oldest first.  The record is only
    written: every function of the bus does to [W] what it did. *)
Definition recording_arduino `{Arduino W} : Arduino (W * list Z) := {|
  millis wl := let (t, w) := millis (fst wl) in (t, (w, snd wl));
  delay ms wl := (delay ms (fst wl), snd wl);
  delayMicroseconds us wl := (delayMicroseconds us (fst wl), snd wl);
  digitalWrite pin level wl := (digitalWrite pin level (fst wl), snd wl)
|}.

Definition recording_wire `{TwoWire W} : TwoWire (W * list Z) := {|
  Wire_begin wl := (Wire_begin (fst wl), snd wl);
  Wire_setClock rate wl := (Wire_setClock rate (fst wl), snd wl);
  Wire_requestFrom addr n stop wl :=
    let (got, w) := Wire_requestFrom addr n stop (fst wl) in
    (got, (w, snd wl));
  Wire_read wl :=
    let (b, w) := Wire_read (fst wl) in (b, (w, snd wl ++ [b]));
  Wire_end wl := (Wire_end (fst wl), snd wl)
|}.

Definition recording_can `{CANClass W} : CANClass (W * list Z) := {|
  CAN_parsePacket wl :=
    let (n, w) := CAN_parsePacket (fst wl) in (n, (w, snd wl));
  CAN_read wl :=
    let (b, w) := CAN_read (fst wl) in (b, (w, snd wl ++ [b]))
|}.

End Recorder.

(** A bus that delivers the four bytes 1, 2, 3, 4 in one chunk. *)
Definition four_bytes : script := mk_script 0 [[1; 2; 3; 4]] [] [].

(** ** The back-off, as the specification words it *)

(** Both short timeouts replaced by [f] of their previous values, every
    other member of the object as it was. *)
Definition short_timeouts_stepped (f : Z -> Z) (s : rpc) : rpc :=
  mk_rpc (_buff s) (_buff_len s) (_stream_writer_queue_depth_max s)
    (f (_put_short_timeout s)) (f (_get_short_timeout s))
    (_put_long_timeout s) (_get_long_timeout s)
    (_put_short_timeout_reset s) (_get_short_timeout_reset s).

(** A side in the middle of a wait: its peer is silent and its short
    timeouts have grown to [t] ms. *)
Definition waiting_start (t : Z) : machine script :=
  mk_machine (mk_rpc (replicate 16 0) 16 255 t t 5000 5000 2 2)
    (mk_script 0 [] [] []) [].

(** ** Receives that [_get_packet] can check *)

(** After a receive that succeeded [_get_packet] reads [buff[size - 2]] and
    [buff[size - 1]] and runs the CRC over [size - 2] bytes: with a [size]
    below 2 these lie outside the buffer.  The handshake functions ask for
    so little only when a header announces [2^32 - 4] or [2^32 - 3]
    bytes, [size + 4] then being 0 or 1 in 32 bits. *)
Definition get_packet_in_bounds (e : event) : bool :=
  match e with
  | EvGet _ size _ true => 2 <=? size
  | _ => true
  end.

(** ** Receives into the scratch buffer *)

(** From machine [m] to [m'] the length [_buff_len] has stayed [len], and
    every new event that is a receive into the scratch buffer asks for at
    most [len] bytes. *)
Definition scratch_safe {W : Type} (len : Z) (m m' : machine W) : Prop :=
  _buff_len (self m) = len ->
  _buff_len (self m') = len
  /\ exists new, trace m' = new ++ trace m
                 /\ Forall (scratch_get_fits len) new.

(** The same with the length [m] starts with. *)
Definition stays_inside_scratch {W : Type} (m m' : machine W) : Prop :=
  _buff_len (self m') = _buff_len (self m)
  /\ exists new, trace m' = new ++ trace m
                 /\ Forall (scratch_get_fits (_buff_len (self m))) new.

(** ** Tactics *)

(** Bitwise equations, bit by bit; a bit below position 0 is clear. *)
Ltac bits :=
  unfold u16, u8; change 255 with (Z.ones 8); change 65535 with (Z.ones 16);
  Z.bitblast; subst;
  repeat match goal with
         | |- context [Z.testbit ?a ?n] => rewrite (Z.testbit_neg_r a n) by lia
         end;
  try btauto.

(** Unfold one round of [stream_reader], of [stream_writer]. *)
Ltac run_reader :=
  unfold stream_reader_iter, _stream_get_bytes, _stream_put_bytes, io_get,
    io_put, bind, ret, get_self, modify_self, log, lift_world; cbn.

Ltac run_writer :=
  unfold stream_writer_setup, writer_ack_phase, writer_send_phase,
    _stream_get_bytes, _stream_put_bytes, io_get, io_put, bind, ret,
    get_self, modify_self, log, lift_world; cbn.

(** Every new event fits, [Hfit] being the bound on the payload size. *)
Ltac fits Hfit :=
  repeat first [apply List.Forall_nil
               |apply List.Forall_cons; [first [exact I | exact Hfit]|]].

(** The conjuncts of [writer_inv]. *)
Ltac finish :=
  repeat split; try lia; try assumption; try reflexivity;
  try (let Hp := fresh in intros Hp; now elim Hp).

(** The time the transfers of the goal take, [Hput] and [Hget] bounding
    that of a [put_bytes] and of a [get_bytes]. *)
Ltac transfers Hput Hget :=
  repeat match goal with
         | |- context [put_bytes ?a ?b ?c ?d ?e] =>
             let Ht := fresh "Ht" in
             pose proof (Hput a b c d e) as Ht;
             destruct (put_bytes a b c d e) as [? ?];
             cbn [fst snd negb self world trace] in *
         | |- context [get_bytes ?a ?b ?c ?d ?e] =>
             let Ht := fresh "Ht" in
             pose proof (Hget a b c d e) as Ht;
             destruct (get_bytes a b c d e) as [[? ?] ?];
             cbn [fst snd negb self world trace] in *
         | |- context [if ?c then _ else _] =>
             destruct c; cbn [fst snd negb self world trace] in *
         end.

(** * Proofs *)

(** ** Bytes and words *)

Lemma forall_byte (P : Z -> bool) :
  forallb P byte_values = true -> forall b, is_byte b -> P b = true.
Proof.
  intros HP b Hb. rewrite forallb_forall in HP. apply HP.
  unfold byte_values. apply in_map_iff. exists (Z.to_nat b).
  split; [unfold is_byte in Hb; lia|]. apply in_seq. unfold is_byte in Hb. lia.
Qed.

Lemma u8_is_byte x : is_byte (u8 x).
Proof.
  unfold is_byte, u8. change 255 with (Z.ones 8). rewrite Z.land_ones by lia.
  apply Z.mod_pos_bound. lia.
Qed.

Lemma u8_of_byte b : is_byte b -> u8 b = b.
Proof.
  intros Hb. unfold u8. change 255 with (Z.ones 8). rewrite Z.land_ones by lia.
  apply Z.mod_small. exact Hb.
Qed.

Lemma u16_range x : 0 <= u16 x < 65536.
Proof.
  unfold u16. change 65535 with (Z.ones 16). rewrite Z.land_ones by lia.
  apply Z.mod_pos_bound. lia.
Qed.

Lemma u16_small x : 0 <= x < 65536 -> u16 x = x.
Proof.
  intros Hx. unfold u16. change 65535 with (Z.ones 16).
  rewrite Z.land_ones by lia. apply Z.mod_small. exact Hx.
Qed.

(** A 16-bit word is its two bytes put together again. *)
Lemma u16_of_halves m :
  u16 (Z.lor (u8 m) (Z.shiftl (u8 (Z.shiftr m 8)) 8)) = u16 m.
Proof.
  bits.
Qed.

Lemma low_of_pair lo hi : u8 (Z.lor (u8 lo) (Z.shiftl hi 8)) = u8 lo.
Proof. bits. Qed.

Lemma high_of_pair lo hi :
  u8 (Z.shiftr (u16 (Z.lor (u8 lo) (Z.shiftl (u8 hi) 8))) 8) = u8 hi.
Proof.
  bits.
Qed.

Lemma low_of_u16_pair lo hi :
  u8 (u16 (Z.lor (u8 lo) (Z.shiftl (u8 hi) 8))) = u8 lo.
Proof.
  bits.
Qed.

(** Two byte pairs that make the same word are the same pair. *)
Lemma pair_inj lo hi lo' hi' :
  is_byte lo -> is_byte hi -> is_byte lo' -> is_byte hi' ->
  u16 (Z.lor lo (Z.shiftl hi 8)) = u16 (Z.lor lo' (Z.shiftl hi' 8)) ->
  lo = lo' /\ hi = hi'.
Proof.
  intros Hlo Hhi Hlo' Hhi' Heq.
  rewrite <- (u8_of_byte lo), <- (u8_of_byte hi), <- (u8_of_byte lo'),
    <- (u8_of_byte hi') in Heq by assumption.
  split.
  - apply (f_equal u8) in Heq. rewrite !low_of_u16_pair in Heq.
    now rewrite !u8_of_byte in Heq.
  - apply (f_equal (fun x => u8 (Z.shiftr x 8))) in Heq.
    rewrite !high_of_pair in Heq. now rewrite !u8_of_byte in Heq.
Qed.

(** ** The CRC round is injective in the state and in the data byte *)

Lemma crc_table_low_index_spec i :
  is_byte i -> crc_table_low_index (u8 (crc_table_at i)) = i.
Proof.
  intros Hi. apply Z.eqb_eq. revert i Hi.
  apply (forall_byte (fun i => crc_table_low_index (u8 (crc_table_at i)) =? i)).
  vm_compute. reflexivity.
Qed.

Lemma crc_table_low_inj i j :
  is_byte i -> is_byte j ->
  u8 (crc_table_at i) = u8 (crc_table_at j) -> i = j.
Proof.
  intros Hi Hj Heq.
  rewrite <- (crc_table_low_index_spec i Hi), <- (crc_table_low_index_spec j Hj).
  now rewrite Heq.
Qed.

Lemma crc_step_range crc d : 0 <= crc_step crc d < 65536.
Proof. apply u16_range. Qed.

(** The low byte of the new state is the low byte of the table entry. *)
Lemma crc_step_low t crc : u8 (u16 (Z.lxor t (Z.shiftl crc 8))) = u8 t.
Proof.
  bits.
Qed.

(** The high byte of the new state gives back the low byte of the old. *)
Lemma crc_step_high t crc :
  u8 (Z.shiftr (Z.lxor (u16 (Z.lxor t (Z.shiftl crc 8))) t) 8) = u8 crc.
Proof.
  bits.
Qed.

Lemma crc_index_state h d : u8 (Z.lxor (u8 (Z.lxor h d)) d) = u8 h.
Proof. bits. Qed.

Lemma crc_index_data h d : u8 (Z.lxor (u8 (Z.lxor h d)) h) = u8 d.
Proof. bits. Qed.

Lemma u16_split c : u16 (Z.lor (u8 c) (Z.shiftl (u8 (Z.shiftr c 8)) 8)) = u16 c.
Proof. apply u16_of_halves. Qed.

Lemma crc_step_index_eq c1 d1 c2 d2 :
  crc_step c1 d1 = crc_step c2 d2 ->
  u8 (Z.lxor (Z.shiftr c1 8) d1) = u8 (Z.lxor (Z.shiftr c2 8) d2).
Proof.
  intros Heq. apply crc_table_low_inj; try apply u8_is_byte.
  apply (f_equal u8) in Heq. unfold crc_step in Heq.
  now rewrite !crc_step_low in Heq.
Qed.

Lemma crc_step_inj_state c1 c2 d :
  0 <= c1 < 65536 -> 0 <= c2 < 65536 ->
  crc_step c1 d = crc_step c2 d -> c1 = c2.
Proof.
  intros H1 H2 Heq. pose proof (crc_step_index_eq _ _ _ _ Heq) as Hidx.
  assert (Hhi : u8 (Z.shiftr c1 8) = u8 (Z.shiftr c2 8)).
  { rewrite <- (crc_index_state (Z.shiftr c1 8) d),
      <- (crc_index_state (Z.shiftr c2 8) d). now rewrite Hidx. }
  assert (Hlo : u8 c1 = u8 c2).
  { unfold crc_step in Heq. fold (u8 (Z.lxor (Z.shiftr c1 8) d)) in Heq.
    fold (u8 (Z.lxor (Z.shiftr c2 8) d)) in Heq. rewrite <- Hidx in Heq.
    set (t := crc_table_at (u8 (Z.lxor (Z.shiftr c1 8) d))) in Heq.
    rewrite <- (crc_step_high t c1), <- (crc_step_high t c2).
    now rewrite Heq. }
  rewrite <- (u16_small c1 H1), <- (u16_small c2 H2).
  rewrite <- (u16_split c1), <- (u16_split c2). now rewrite Hhi, Hlo.
Qed.

Lemma crc_step_inj_data c d1 d2 :
  is_byte d1 -> is_byte d2 -> crc_step c d1 = crc_step c d2 -> d1 = d2.
Proof.
  intros H1 H2 Heq. pose proof (crc_step_index_eq _ _ _ _ Heq) as Hidx.
  rewrite <- (u8_of_byte d1 H1), <- (u8_of_byte d2 H2).
  rewrite <- (crc_index_data (Z.shiftr c 8) d1),
    <- (crc_index_data (Z.shiftr c 8) d2). now rewrite Hidx.
Qed.

Lemma crc_fold_range l c : 0 <= c < 65536 -> 0 <= fold_left crc_step l c < 65536.
Proof.
  revert c. induction l as [|d l IH]; intros c Hc; simpl; [exact Hc|].
  apply IH, crc_step_range.
Qed.

Lemma crc_fold_inj l c1 c2 :
  0 <= c1 < 65536 -> 0 <= c2 < 65536 ->
  fold_left crc_step l c1 = fold_left crc_step l c2 -> c1 = c2.
Proof.
  revert c1 c2. induction l as [|d l IH]; intros c1 c2 H1 H2 Heq; simpl in Heq.
  - exact Heq.
  - apply IH in Heq; try apply crc_step_range.
    now apply crc_step_inj_state in Heq.
Qed.

(** Changing one byte of the data changes the CRC. *)
Lemma crc_single_byte l1 a b l2 :
  is_byte a -> is_byte b -> a <> b ->
  fold_left crc_step (l1 ++ a :: l2) 0xFFFF
  <> fold_left crc_step (l1 ++ b :: l2) 0xFFFF.
Proof.
  intros Ha Hb Hab Heq. rewrite !fold_left_app in Heq. simpl in Heq.
  apply crc_fold_inj in Heq; try apply crc_step_range.
  apply crc_step_inj_data in Heq; auto.
Qed.

(** ** The encoder writes a frame *)

Lemma crc_16_prefix l rest :
  __crc_16 (l ++ rest) (length l) = fold_left crc_step l 0xFFFF.
Proof. unfold __crc_16. now rewrite take_app_length. Qed.

Lemma memcpy_payload m0 m1 mid rest data size :
  length mid = size -> (size <= length data)%nat ->
  (if (size =? 0)%nat then m0 :: m1 :: mid ++ rest
   else memcpy (m0 :: m1 :: mid ++ rest) 2 data size)
  = m0 :: m1 :: take size data ++ rest.
Proof.
  intros Hmid Hdata.
  assert (Hcopy : memcpy (m0 :: m1 :: mid ++ rest) 2 data size
                  = m0 :: m1 :: take size data ++ rest).
  { unfold memcpy. rewrite !list_inserts_cons.
    rewrite list_inserts_0_r; [reflexivity|].
    rewrite length_take_le; lia. }
  destruct (Nat.eqb_spec size 0) as [Hz|Hz]; [|exact Hcopy].
  subst size. destruct mid; [|discriminate]. reflexivity.
Qed.

Lemma set_packet_at b0 b1 mid c0 c1 tail magic_value data size :
  length mid = size -> (size <= length data)%nat ->
  _set_packet (b0 :: b1 :: mid ++ c0 :: c1 :: tail) magic_value data size
  = frame magic_value (take size data) ++ tail.
Proof.
  intros Hmid Hdata. unfold _set_packet. cbn [list_insert insert].
  rewrite (memcpy_payload _ _ mid (c0 :: c1 :: tail) data size Hmid Hdata).
  set (head := [u8 magic_value; u8 (Z.shiftr magic_value 8)] ++ take size data).
  assert (Hlen : length head = (size + 2)%nat).
  { unfold head. rewrite length_app, length_take_le by lia. simpl. lia. }
  change (u8 magic_value :: u8 (Z.shiftr magic_value 8)
          :: take size data ++ c0 :: c1 :: tail)
    with (head ++ c0 :: c1 :: tail).
  replace (size + 3)%nat with (length head + 1)%nat by lia.
  rewrite <- Hlen, crc_16_prefix.
  rewrite (insert_app_r_alt head _ (length head)) by lia.
  rewrite Nat.sub_diag, insert_app_r. cbn [list_insert insert].
  unfold frame. fold head. now rewrite <- app_assoc.
Qed.

(** The buffer after [_set_packet]: the frame, then what was there. *)
Lemma set_packet_frame buff magic_value data size :
  (size + 4 <= length buff)%nat -> (size <= length data)%nat ->
  _set_packet buff magic_value data size
  = frame magic_value (take size data) ++ drop (size + 4) buff.
Proof.
  intros Hbuff Hdata.
  destruct buff as [|b0 [|b1 rest]]; simpl in Hbuff; try lia.
  rewrite <- (take_drop size rest) at 1.
  destruct (drop size rest) as [|c0 [|c1 tail]] eqn:Hdrop;
    try (apply (f_equal length) in Hdrop; rewrite length_drop in Hdrop;
         simpl in Hdrop; lia).
  rewrite set_packet_at; [|rewrite length_take_le; lia|exact Hdata].
  f_equal. replace (size + 4)%nat with (S (S (size + 2))) by lia.
  cbn [drop]. now rewrite <- drop_drop, Hdrop.
Qed.

Lemma frame_length magic_value payload :
  length (frame magic_value payload) = (length payload + 4)%nat.
Proof. unfold frame. rewrite !length_app. simpl. lia. Qed.

(** ** The decoder on a frame and on a frame with one byte changed *)

Lemma byte_at_middle l x rest : byte_at (l ++ x :: rest) (length l) = x.
Proof. unfold byte_at. now rewrite list_lookup_middle. Qed.

Lemma byte_at_cons x l k : byte_at (x :: l) (S k) = byte_at l k.
Proof. reflexivity. Qed.

Lemma insert_cons_S (x v : Z) l k : <[S k := v]> (x :: l) = x :: <[k := v]> l.
Proof. reflexivity. Qed.

(** The checks of the decoder on a buffer cut into header, payload and
    the two CRC bytes. *)
Lemma packet_ok_parts magic_value m0 m1 payload c0 c1 rest :
  packet_ok magic_value (m0 :: m1 :: payload ++ c0 :: c1 :: rest)
    (length payload + 4)
  = (u16 (Z.lor m0 (Z.shiftl m1 8)) =? magic_value)
    && (u16 (Z.lor c0 (Z.shiftl c1 8))
        =? fold_left crc_step (m0 :: m1 :: payload) 0xFFFF).
Proof.
  unfold packet_ok.
  replace (length payload + 4 - 2)%nat
    with (length (m0 :: m1 :: payload)) by (simpl; lia).
  replace (length payload + 4 - 1)%nat
    with (length ((m0 :: m1 :: payload) ++ [c0])) by (rewrite length_app; simpl; lia).
  change (m0 :: m1 :: payload ++ c0 :: c1 :: rest)
    with ((m0 :: m1 :: payload) ++ c0 :: c1 :: rest).
  rewrite crc_16_prefix, byte_at_middle.
  replace ((m0 :: m1 :: payload) ++ c0 :: c1 :: rest)
    with (((m0 :: m1 :: payload) ++ [c0]) ++ c1 :: rest)
    by (now rewrite <- app_assoc).
  rewrite byte_at_middle. reflexivity.
Qed.

Lemma frame_parts magic_value payload :
  frame magic_value payload
  = u8 magic_value :: u8 (Z.shiftr magic_value 8) :: payload
    ++ [u8 (fold_left crc_step
              (u8 magic_value :: u8 (Z.shiftr magic_value 8) :: payload) 0xFFFF);
        u8 (Z.shiftr (fold_left crc_step
              (u8 magic_value :: u8 (Z.shiftr magic_value 8) :: payload) 0xFFFF) 8)].
Proof. reflexivity. Qed.

Lemma stored_crc crc :
  0 <= crc < 65536 -> u16 (Z.lor (u8 crc) (Z.shiftl (u8 (Z.shiftr crc 8)) 8)) = crc.
Proof. intros Hc. rewrite u16_of_halves. now apply u16_small. Qed.

Lemma crc_init_range : 0 <= 0xFFFF < 65536.
Proof. lia. Qed.

(** Round trip: the decoder accepts what the encoder wrote. *)
Lemma packet_ok_frame magic_value payload rest :
  0 <= magic_value < 65536 ->
  packet_ok magic_value (frame magic_value payload ++ rest) (length payload + 4)
  = true.
Proof.
  intros Hm. rewrite frame_parts. cbn [app]. rewrite <- app_assoc. cbn [app].
  rewrite packet_ok_parts, u16_of_halves, (u16_small _ Hm), Z.eqb_refl.
  rewrite stored_crc by (apply crc_fold_range, crc_init_range).
  now rewrite Z.eqb_refl.
Qed.

(** A frame with one byte changed is rejected. *)
Lemma packet_ok_flipped magic_value payload rest i v :
  0 <= magic_value < 65536 -> Forall is_byte payload ->
  (i < length payload + 4)%nat -> is_byte v ->
  v <> byte_at (frame magic_value payload) i ->
  packet_ok magic_value (<[i := v]> (frame magic_value payload) ++ rest)
    (length payload + 4) = false.
Proof.
  intros Hm Hp Hi Hv Hne. rewrite frame_parts in *.
  set (m0 := u8 magic_value) in *. set (m1 := u8 (Z.shiftr magic_value 8)) in *.
  set (crc := fold_left crc_step (m0 :: m1 :: payload) 0xFFFF) in *.
  assert (Hcrc : 0 <= crc < 65536) by (apply crc_fold_range, crc_init_range).
  assert (Hm0 : is_byte m0) by apply u8_is_byte.
  assert (Hm1 : is_byte m1) by apply u8_is_byte.
  destruct i as [|[|k]].
  - (* the low byte of the magic *)
    cbn [list_insert insert app]. rewrite <- app_assoc. cbn [app].
    rewrite packet_ok_parts. apply andb_false_iff. left. apply Z.eqb_neq.
    intros Heq. apply Hne. unfold byte_at. cbn.
    rewrite <- (u16_small _ Hm) in Heq. rewrite <- (u16_of_halves magic_value) in Heq.
    now apply pair_inj in Heq as [? _]; try apply u8_is_byte.
  - (* the high byte of the magic *)
    cbn [list_insert insert app]. rewrite <- app_assoc. cbn [app].
    rewrite packet_ok_parts. apply andb_false_iff. left. apply Z.eqb_neq.
    intros Heq. apply Hne. unfold byte_at. cbn.
    rewrite <- (u16_small _ Hm) in Heq. rewrite <- (u16_of_halves magic_value) in Heq.
    now apply pair_inj in Heq as [_ ?]; try apply u8_is_byte.
  - rewrite !insert_cons_S. rewrite !byte_at_cons in Hne. unfold byte_at in Hne.
    destruct (Nat.lt_ge_cases k (length payload)) as [Hk|Hk].
    + (* a payload byte *)
      rewrite lookup_app_l in Hne by exact Hk.
      destruct (lookup_lt_is_Some_2 payload k Hk) as [a Ha].
      rewrite Ha in Hne. cbn in Hne.
      rewrite insert_app_l by exact Hk. rewrite insert_take_drop by exact Hk.
      cbn [app]. rewrite <- !app_assoc. cbn [app].
      pose proof (length_take_le payload k ltac:(lia)) as Htk.
      replace (length payload + 4)%nat
        with (length (take k payload ++ v :: drop (S k) payload) + 4)%nat.
      2:{ rewrite length_app. cbn [length]. rewrite Htk, length_drop. lia. }
      replace (take k payload ++ v :: drop (S k) payload
               ++ u8 crc :: u8 (Z.shiftr crc 8) :: rest)
        with ((take k payload ++ v :: drop (S k) payload)
               ++ u8 crc :: u8 (Z.shiftr crc 8) :: rest)
        by (now rewrite <- app_assoc).
      rewrite packet_ok_parts. apply andb_false_iff. right. apply Z.eqb_neq.
      rewrite stored_crc by exact Hcrc. unfold crc.
      rewrite <- (take_drop_middle payload k a Ha) at 1.
      change (m0 :: m1 :: take k payload ++ ?x :: ?t)
        with ((m0 :: m1 :: take k payload) ++ x :: t).
      apply crc_single_byte; [|exact Hv|congruence].
      rewrite Forall_forall in Hp. apply Hp.
      apply list_elem_of_lookup. eauto.
    + (* a byte of the CRC *)
      assert (Hj : exists j, k = (length payload + j)%nat /\ (j < 2)%nat)
        by (exists (k - length payload)%nat; lia).
      destruct Hj as (j & -> & Hj).
      rewrite lookup_app_r in Hne by lia.
      replace (length payload + j - length payload)%nat with j in Hne by lia.
      rewrite insert_app_r. cbn [app]. rewrite <- app_assoc.
      destruct j as [|[|j]]; [| |lia]; cbn in Hne; cbn [list_insert insert app];
        rewrite packet_ok_parts; apply andb_false_iff; right; apply Z.eqb_neq;
        fold crc; intros Heq; apply Hne;
        rewrite <- (stored_crc crc Hcrc) in Heq at 2.
      * now apply pair_inj in Heq as [? _]; try apply u8_is_byte.
      * now apply pair_inj in Heq as [_ ?]; try apply u8_is_byte.
Qed.

(** ** [stream_reader]: acknowledgements and scratch-buffer bounds *)

Section ReaderFacts.
Context {W : Type} `{Transport W} `{Arduino W}.

Lemma reader_iter_spec callback read_timeout packet s m :
  reader_step_ok s m
    (fst (stream_reader_iter callback read_timeout packet s m))
    (snd (stream_reader_iter callback read_timeout packet s m)).
Proof.
  assert (Htrue : True) by exact I.
  unfold reader_step_ok. run_reader.
  destruct (get_bytes (self m) packet 8 1000 (world m)) as [[ok1 packet1] w1].
  destruct ok1; cbn.
  2:{ split; [reflexivity|]. split.
      - eexists [_]. split; [reflexivity|]. fits Htrue.
      - exists []. rewrite app_nil_r. auto. }
  destruct (stream_packet_rejected 0x542E packet1); cbn.
  { split; [reflexivity|]. split.
    - eexists [_]. split; [reflexivity|]. fits Htrue.
    - exists []. rewrite app_nil_r. auto. }
  destruct (Z.ltb_spec (_buff_len (self m))
              (unpack_unsigned_long (drop 2 packet1))) as [Hbig|Hfit]; cbn.
  { split; [reflexivity|]. split.
    - eexists [_]. split; [reflexivity|]. fits Htrue.
    - exists []. rewrite app_nil_r. auto. }
  destruct (get_bytes (self m) (_buff (self m)) _ read_timeout w1)
    as [[ok2 buff2] w2].
  destruct ok2; cbn.
  2:{ split; [reflexivity|]. split.
      - eexists [_; _]. split; [reflexivity|]. fits Hfit.
      - exists []. rewrite app_nil_r. auto. }
  destruct callback as [cb|]; cbn;
    match goal with
    | |- context [put_bytes ?a ?b ?c ?d ?e] =>
        destruct (put_bytes a b c d e) as [ok3 w3]
    end; destruct ok3; cbn;
    (split; [reflexivity|]); (split;
      [first [eexists [_; _; _; _]; split; [reflexivity|]
             |eexists [_; _; _]; split; [reflexivity|]];
       fits Hfit
      |exists [s]; auto]).
Qed.

Lemma reader_loop_spec fuel callback read_timeout packet s m :
  reader_run_ok s m
    (snd (stream_reader_loop fuel callback read_timeout packet s m)).
Proof.
  revert packet s m. induction fuel as [|fuel IH]; intros packet s m.
  - cbn. split; [reflexivity|]. split.
    + exists []. split; [reflexivity|constructor].
    + exists 0%nat. cbn. now rewrite app_nil_r.
  - cbn [stream_reader_loop]. unfold bind at 1.
    pose proof (reader_iter_spec callback read_timeout packet s m) as Hstep.
    destruct (stream_reader_iter callback read_timeout packet s m) as [r m1].
    cbn [fst snd] in Hstep.
    destruct Hstep as (Hlen & (new & Hnew & Hfits) & (l & Hacks & Hr)).
    destruct r as [[packet' s']|].
    + destruct Hr as [-> ->].
      specialize (IH packet' (lfsr_next s) m1).
      destruct (stream_reader_loop fuel callback read_timeout packet'
                  (lfsr_next s) m1) as [r2 m2]. cbn [snd] in *.
      destruct IH as (Hlen2 & (new2 & Hnew2 & Hfits2) & (n & Hacks2)).
      split; [congruence|]. split.
      * exists (new2 ++ new). split.
        { rewrite Hnew2, Hnew. now rewrite app_assoc. }
        rewrite Hlen in Hfits2. apply Forall_app. now split.
      * exists (S n). rewrite Hacks2, Hacks. cbn. now rewrite <- app_assoc.
    + cbn. split; [exact Hlen|]. split; [now exists new|].
      destruct Hr as [->| ->].
      * exists 0%nat. exact Hacks.
      * exists 1%nat. exact Hacks.
Qed.

Lemma stream_reader_spec fuel callback queue_depth read_timeout m :
  reader_run_ok 255 m
    (snd (stream_reader fuel callback queue_depth read_timeout m)).
Proof.
  unfold stream_reader, _stream_put_bytes, io_put. unfold bind at 1.
  destruct (put_bytes (self m) _ 8 1000 (world m)) as [ok w1].
  set (m1 := mk_machine (self m) w1 _).
  destruct ok; cbn [negb].
  - pose proof (reader_loop_spec fuel callback read_timeout
                  (_set_packet (replicate 8 0) 0xEDF6
                     (bytes_of_u32 queue_depth) 4) 255 m1) as Hloop.
    destruct (stream_reader_loop fuel callback read_timeout _ 255 m1)
      as [r m2]. cbn [snd] in *.
    destruct Hloop as (Hlen & (new & Hnew & Hfits) & (n & Hacks)).
    split; [exact Hlen|]. split.
    + eexists (new ++ [_]). split.
      * rewrite Hnew. unfold m1. cbn [trace]. now rewrite <- app_assoc.
      * apply Forall_app. split; [exact Hfits|]. repeat constructor.
    + exists n. exact Hacks.
  - cbn. split; [reflexivity|]. split.
    + eexists [_]. split; [reflexivity|]. repeat constructor.
    + exists 0%nat. cbn. now rewrite app_nil_r.
Qed.
End ReaderFacts.

(** ** [stream_writer]: credits and expected acknowledgements *)

Lemma iter_lfsr_shift n s :
  Nat.iter n lfsr_next (lfsr_next s) = lfsr_next (Nat.iter n lfsr_next s).
Proof. rewrite <- Nat.iter_succ_r. apply Nat.iter_succ. Qed.

Lemma lfsr_seq_snoc s n :
  lfsr_seq s (S n) = lfsr_seq s n ++ [Nat.iter n lfsr_next s].
Proof.
  revert s. induction n as [|n IH]; intros s; [reflexivity|].
  change (lfsr_seq s (S (S n))) with (s :: lfsr_seq (lfsr_next s) (S n)).
  rewrite IH. cbn [lfsr_seq app]. now rewrite iter_lfsr_shift.
Qed.

Lemma lfsr_seq_length s n : length (lfsr_seq s n) = n.
Proof. revert s. induction n as [|n IH]; intros s; cbn; [|rewrite IH]; reflexivity. Qed.

Lemma unpack_range data : 0 <= unpack_unsigned_long data < 2 ^ 32.
Proof. unfold unpack_unsigned_long, u32. apply Z.mod_pos_bound. lia. Qed.

Section WriterFacts.
Context {W : Type} `{Transport W}.

Lemma writer_setup_inv m0 ws m :
  stream_writer_setup m0 = (Some ws, m) ->
  self m = self m0
  /\ writer_inv (_stream_writer_queue_depth_max (self m0)) AtLoopTop ws.
Proof.
  run_writer. destruct (get_bytes (self m0) _ 8 1000 (world m0)) as [[ok packet] w1].
  destruct ok; cbn; [|discriminate].
  destruct (stream_packet_rejected 0xEDF6 packet); cbn; [discriminate|].
  intros [= <- <-]. split; [reflexivity|].
  pose proof (unpack_range (drop 2 packet)) as Hr.
  unfold writer_inv. cbn.
  repeat split; try lia.
Qed.

Lemma writer_ack_inv qmax ws m go ws' m' :
  writer_inv qmax AtLoopTop ws ->
  writer_ack_phase ws m = (go, ws', m') ->
  self m' = self m
  /\ writer_inv qmax (if go then AfterAckPhase else Returned) ws'.
Proof.
  intros (HD & Hmax & Hc & Hle & Heq & Hacks & Hlfsr). run_writer.
  specialize (Heq ltac:(discriminate)).
  destruct (Z.leb_spec (w_credits ws) (w_queue_depth ws / 2)) as [Hlow|Hhigh].
  - destruct (get_bytes (self m) (w_packet ws) 1 1000 (world m))
      as [[ok packet] w1]. cbn.
    destruct ok; cbn.
    + destruct (Z.eqb_spec (byte_at packet 0) (w_rx_lfsr ws)) as [Hb|Hb]; cbn;
        intros [= <- <- <-]; (split; [reflexivity|]); unfold writer_inv; cbn.
      * assert (Hhalf : w_queue_depth ws / 2 + 1 <= w_queue_depth ws).
        { pose proof (Z.div_lt_upper_bound (w_queue_depth ws) 2
                        (w_queue_depth ws)). lia. }
        unfold u32. rewrite Z.mod_small by lia.
        rewrite length_app. cbn [length].
        replace (length (w_acks ws) + 1)%nat with (S (length (w_acks ws))) by lia.
        rewrite lfsr_seq_snoc, <- Hacks, Hb, Hlfsr.
        finish.
      * finish.
    + intros [= <- <- <-]. split; [reflexivity|]. unfold writer_inv. cbn.
      finish.
  - intros [= <- <- <-]. split; [reflexivity|]. unfold writer_inv.
    finish.
Qed.

Lemma writer_send_inv qmax callback write_timeout ws m go ws' m' :
  writer_inv qmax AfterAckPhase ws ->
  writer_send_phase callback write_timeout ws m = (go, ws', m') ->
  self m' = self m
  /\ writer_inv qmax (if go then AtLoopTop else Returned) ws'.
Proof.
  intros (HD & Hmax & Hc & Hle & Heq & Hacks & Hlfsr). run_writer.
  specialize (Heq ltac:(discriminate)).
  destruct (Z.ltb_spec 0 (w_credits ws)) as [Hpos|Hzero].
  - destruct (callback (world m)) as [[out_data out_data_len] w1]. cbn.
    destruct (put_bytes (self m) _ 8 1000 w1) as [ok1 w2]. cbn.
    destruct ok1; cbn.
    + destruct (put_bytes (self m) out_data out_data_len write_timeout w2)
        as [ok2 w3]. cbn.
      destruct ok2; cbn; intros [= <- <- <-]; (split; [reflexivity|]);
        unfold writer_inv; cbn.
      * unfold u32. rewrite Z.mod_small by lia.
        finish.
      * finish.
    + intros [= <- <- <-]. split; [reflexivity|]. unfold writer_inv. cbn.
      finish.
  - intros [= <- <- <-]. split; [reflexivity|]. unfold writer_inv.
    finish.
Qed.

Lemma writer_reach_inv callback write_timeout m0 p ws m :
  writer_reach callback write_timeout m0 p ws m ->
  self m = self m0
  /\ writer_inv (_stream_writer_queue_depth_max (self m0)) p ws.
Proof.
  induction 1 as [ws m Hsetup|ws m go ws' m' _ [Hself Hinv] Hack
                 |ws m go ws' m' _ [Hself Hinv] Hsend].
  - now apply writer_setup_inv.
  - destruct (writer_ack_inv _ _ _ _ _ _ Hinv Hack) as [Hs Hi].
    split; [congruence|exact Hi].
  - destruct (writer_send_inv _ _ _ _ _ _ _ _ Hinv Hsend) as [Hs Hi].
    split; [congruence|exact Hi].
Qed.

(** The queue depth is the one the setup packet asked for, clamped. *)
Lemma writer_reach_depth callback write_timeout m0 p ws m received w1 :
  writer_reach callback write_timeout m0 p ws m ->
  get_bytes (self m0) (replicate 8 0) 8 1000 (world m0) = (true, received, w1) ->
  w_queue_depth ws
  = Z.max (Z.min (unpack_unsigned_long (drop 2 received))
                 (_stream_writer_queue_depth_max (self m0))) 1.
Proof.
  intros Hreach Hget.
  induction Hreach as [ws m Hsetup|ws m go ws' m' _ IH Hack
                      |ws m go ws' m' _ IH Hsend].
  - revert Hsetup.
    unfold stream_writer_setup, _stream_get_bytes, io_get, bind, ret, get_self.
    rewrite Hget. cbn.
    destruct (stream_packet_rejected 0xEDF6 received); cbn; [discriminate|].
    now intros [= <- <-].
  - rewrite <- IH. revert Hack. run_writer.
    destruct (w_credits ws <=? w_queue_depth ws / 2);
      [|now intros [= <- <- <-]].
    destruct (get_bytes (self m) (w_packet ws) 1 1000 (world m))
      as [[ok packet] w2]. cbn.
    destruct (negb ok || negb (byte_at packet 0 =? w_rx_lfsr ws));
      now intros [= <- <- <-].
  - rewrite <- IH. revert Hsend. run_writer.
    destruct (0 <? w_credits ws); [|now intros [= <- <- <-]].
    destruct (callback (world m)) as [[out_data out_data_len] w2]. cbn.
    destruct (put_bytes (self m) _ 8 1000 w2) as [ok1 w3]. cbn.
    destruct ok1; cbn; [|now intros [= <- <- <-]].
    destruct (put_bytes (self m) out_data out_data_len write_timeout w3)
      as [ok2 w4]. cbn.
    destruct ok2; now intros [= <- <- <-].
Qed.

(** What the loop returns is a place of a run_writer. *)
Lemma writer_loop_reach callback write_timeout m0 fuel ws m ws' m' :
  writer_reach callback write_timeout m0 AtLoopTop ws m ->
  stream_writer_loop fuel callback write_timeout ws m = (Some ws', m') ->
  writer_reach callback write_timeout m0 Returned ws' m'.
Proof.
  revert ws m. induction fuel as [|fuel IH]; intros ws m Hreach; cbn;
    [discriminate|].
  unfold bind at 1.
  destruct (writer_ack_phase ws m) as [[go1 ws1] m1] eqn:Hack.
  pose proof (reach_ack _ _ _ _ _ _ _ _ Hreach Hack) as Hr1.
  destruct go1; cbn [negb].
  - unfold bind at 1.
    destruct (writer_send_phase callback write_timeout ws1 m1)
      as [[go2 ws2] m2] eqn:Hsend.
    pose proof (reach_send _ _ _ _ _ _ _ _ Hr1 Hsend) as Hr2.
    destruct go2; cbn [negb].
    + now apply IH.
    + unfold ret. now intros [= <- <-].
  - unfold ret. now intros [= <- <-].
Qed.

Lemma stream_writer_reach callback write_timeout m0 fuel ws' m' :
  stream_writer fuel callback write_timeout m0 = (Some (Some ws'), m') ->
  writer_reach callback write_timeout m0 Returned ws' m'.
Proof.
  unfold stream_writer. unfold bind at 1.
  destruct (stream_writer_setup m0) as [[ws|] m] eqn:Hsetup;
    [|unfold ret; discriminate].
  unfold bind at 1.
  destruct (stream_writer_loop fuel callback write_timeout ws m)
    as [[ws2|] m2] eqn:Hloop; unfold ret; [|discriminate].
  intros [= <- <-]. eapply writer_loop_reach; [|exact Hloop].
  now apply reach_setup.
Qed.
End WriterFacts.

(** ** The name hash *)

Lemma u32_small x : 0 <= x < 2 ^ 32 -> u32 x = x.
Proof. intros Hx. now apply Z.mod_small. Qed.

Lemma hash_step_byte h c :
  is_byte c -> hash_step h c = u32 (Z.lxor (u32 (Z.shiftl h 5 + h)) c).
Proof.
  intros Hc. unfold hash_step. rewrite (u32_small c); [reflexivity|].
  unfold is_byte in Hc. lia.
Qed.

(** With an unsigned [char] the length-bounded overload is the reference,
    whenever it stays inside the memory of the name. *)
Lemma hash_len_reference name len h :
  Forall is_byte name -> ((len <= length name)%nat \/ In 0 name) ->
  hash_len_loop false name len h = Some (djb2_xor (take len (until_nul name)) h).
Proof.
  intros Hname. revert len h.
  induction Hname as [|b name Hb Hname IH]; intros len h Hin.
  - destruct len; [reflexivity|]. destruct Hin as [Hl|[]]. simpl in Hl. lia.
  - destruct len as [|len]; [reflexivity|].
    cbn [hash_len_loop until_nul]. unfold char_value. cbn [andb].
    destruct (Z.eqb_spec b 0) as [->|Hnz]; [reflexivity|].
    cbn [take djb2_xor]. rewrite IH, hash_step_byte by
      (first [exact Hb | destruct Hin as [Hl|[?|?]];
                         [left; simpl in Hl; lia|congruence|now right]]).
    reflexivity.
Qed.

(** With an unsigned [char] the NUL-terminated overload is the reference
    on every terminated name. *)
Lemma hash_cstr_reference name h :
  Forall is_byte name -> In 0 name ->
  hash_cstr_loop false name h = Some (djb2_xor (until_nul name) h).
Proof.
  intros Hname. revert h.
  induction Hname as [|b name Hb Hname IH]; intros h Hin; [destruct Hin|].
  cbn [hash_cstr_loop until_nul]. unfold char_value. cbn [andb].
  destruct (Z.eqb_spec b 0) as [->|Hnz]; [reflexivity|].
  cbn [djb2_xor]. rewrite IH, hash_step_byte; [reflexivity|exact Hb|].
  destruct Hin as [?|?]; [congruence|assumption].
Qed.

(** The two [const char *] overloads agree with each other, whatever the
    signedness of [char]. *)
Lemma hash_overloads_agree char_signed name h :
  (exists b, In b name /\ char_value char_signed b = 0) ->
  hash_cstr_loop char_signed name h
  = hash_len_loop char_signed name (length name) h.
Proof.
  revert h. induction name as [|b name IH]; intros h (z & Hin & Hz);
    [destruct Hin|].
  cbn [hash_cstr_loop hash_len_loop length].
  destruct (Z.eqb_spec (char_value char_signed b) 0) as [Hb|Hb]; [reflexivity|].
  apply IH. exists z. split; [|exact Hz].
  destruct Hin as [->|Hin]; [contradiction|exact Hin].
Qed.

(** Below 0x80 the signedness of [char] makes no difference. *)
Lemma char_value_ascii char_signed b : b < 128 -> char_value char_signed b = b.
Proof.
  intros Hb. unfold char_value.
  destruct (Z.leb_spec 128 b); [lia|]. now rewrite andb_false_r.
Qed.

Lemma hash_cstr_ascii char_signed name h :
  Forall (fun b => b < 128) name ->
  hash_cstr_loop char_signed name h = hash_cstr_loop false name h.
Proof.
  intros Hname. revert h. induction Hname as [|b name Hb Hname IH]; intros h;
    [reflexivity|].
  cbn [hash_cstr_loop]. rewrite !char_value_ascii by exact Hb.
  destruct (b =? 0); [reflexivity|apply IH].
Qed.

(** ** [_same] *)

Lemma same_loop_spec old rest :
  same_loop old rest = true <-> Forall (fun x => x = old) rest.
Proof.
  revert old. induction rest as [|new rest IH]; intros old; cbn.
  - split; [constructor|reflexivity].
  - destruct (Z.eqb_spec new old) as [->|Hne]; cbn.
    + rewrite IH. split.
      * intros Hall. now constructor.
      * intros Hall. now inversion Hall.
    + split; [discriminate|]. intros Hall. inversion Hall. contradiction.
Qed.

Lemma all_equal_cons d l :
  all_equal (d :: l) <-> Forall (fun x => x = d) l.
Proof.
  unfold all_equal. split.
  - intros Hall. apply Forall_forall. intros x Hx.
    apply list_elem_of_lookup in Hx as [i Hi].
    exact (Hall (S i) 0%nat x d Hi eq_refl).
  - intros Hall i j x y Hi Hj. rewrite Forall_forall in Hall.
    assert (Hd : forall k z, (d :: l) !! k = Some z -> z = d).
    { intros [|k] z Hk; cbn in Hk; [congruence|].
      apply Hall, list_elem_of_lookup. eauto. }
    rewrite (Hd _ _ Hi), (Hd _ _ Hj). reflexivity.
Qed.

(** [_same] answers whether the [size] bytes are all the same, for a
    nonzero [size] inside the buffer. *)
Lemma _same_spec data size :
  (0 < size <= length data)%nat ->
  (_same data size = true <-> all_equal (take size data)).
Proof.
  intros [Hpos Hlen]. unfold _same.
  destruct (Nat.eqb_spec size 0) as [->|_]; [lia|].
  destruct data as [|d rest]; [simpl in Hlen; lia|].
  destruct size as [|size]; [lia|].
  cbn [take drop]. replace (S size - 1)%nat with size by lia.
  change (byte_at (d :: rest) 0) with d. rewrite drop_0.
  rewrite same_loop_spec. symmetry. apply all_equal_cons.
Qed.

Lemma _same_zero data : _same data 0 = false.
Proof. reflexivity. Qed.

(** ** The packet codec, end to end *)

Lemma get_packet_result {W : Type} `{Transport W} dst magic_value rx size
    timeout (m : machine W) :
  fst (_get_packet dst magic_value rx size timeout m)
  = let '(ok, rx', _) := get_bytes (self m) rx size timeout (world m) in
    (ok && packet_ok magic_value rx' (Z.to_nat size), rx').
Proof.
  unfold _get_packet, io_get, bind, ret.
  destruct (get_bytes (self m) rx size timeout (world m)) as [[ok rx'] w].
  now destruct ok.
Qed.

Lemma sent_frame buff magic_value data size :
  (size + 4 <= length buff)%nat -> (size <= length data)%nat ->
  take (size + 4) (_set_packet buff magic_value data size)
  = frame magic_value (take size data).
Proof.
  intros Hbuff Hdata. rewrite set_packet_frame by assumption.
  apply take_app_length'. rewrite frame_length, length_take_le; lia.
Qed.

(** C1.  A frame written by [_set_packet] and delivered by the transport
    is accepted by [_get_packet] called with the same magic and the total
    size; delivered with any one of its bytes (magic, payload or CRC)
    changed to another value, it is rejected. *)
Theorem C1_crc_round_trip_and_single_byte_detection
    {W : Type} `{Transport W} (m m' : machine W) (dst : buffer_id)
    (buff : list Z) (magic_value : Z) (data : list Z) (size : nat)
    (timeout : Z) (rx rest : list Z) (i : nat) (v : Z) (w1 w2 : W) :
  0 <= magic_value < 65536 ->
  Forall is_byte data ->
  (size <= length data)%nat ->
  (size + 4 <= length buff)%nat ->
  (i < size + 4)%nat ->
  is_byte v ->
  v <> byte_at (take (size + 4) (_set_packet buff magic_value data size)) i ->
  get_bytes (self m) rx (Z.of_nat (size + 4)) timeout (world m)
  = (true, take (size + 4) (_set_packet buff magic_value data size) ++ rest, w1) ->
  get_bytes (self m') rx (Z.of_nat (size + 4)) timeout (world m')
  = (true, <[i := v]> (take (size + 4) (_set_packet buff magic_value data size))
           ++ rest, w2) ->
  fst (fst (_get_packet dst magic_value rx (Z.of_nat (size + 4)) timeout m))
  = true
  /\ fst (fst (_get_packet dst magic_value rx (Z.of_nat (size + 4)) timeout m'))
     = false.
Proof.
  intros Hm Hdata Hsize Hbuff Hi Hv Hne Hrx Hrx'.
  rewrite sent_frame in * by assumption.
  assert (Hlen : length (take size data) = size) by (apply length_take_le; lia).
  rewrite !get_packet_result, Hrx, Hrx', Nat2Z.id. cbn [fst andb].
  rewrite <- Hlen at 2 4. split.
  - now apply packet_ok_frame.
  - apply packet_ok_flipped; try assumption; [|lia].
    now apply Forall_take.
Qed.

(** The same on the frame of magic 0x1209 and payload 1, 2, 3, received
    whole and with its second payload byte changed to 255. *)
Lemma C1_witness :
  fst (fst (_get_packet BufInCommandHeader 0x1209 (replicate 7 0) 7 2
              (start_machine 16 255 [[9; 18; 1; 2; 3; 142; 46]] [])))
  = true
  /\ fst (fst (_get_packet BufInCommandHeader 0x1209 (replicate 7 0) 7 2
                 (start_machine 16 255 [[9; 18; 1; 255; 3; 142; 46]] [])))
     = false.
Proof.
  apply (C1_crc_round_trip_and_single_byte_detection
           (start_machine 16 255 [[9; 18; 1; 2; 3; 142; 46]] [])
           (start_machine 16 255 [[9; 18; 1; 255; 3; 142; 46]] [])
           BufInCommandHeader (replicate 16 0) 0x1209 [1; 2; 3] 3 2
           (replicate 7 0) [] 3 255
           (mk_script 0 [] [] []) (mk_script 0 [] [] [])).
  - lia.
  - repeat constructor; unfold is_byte; lia.
  - cbn; lia.
  - cbn; lia.
  - lia.
  - unfold is_byte; lia.
  - vm_compute. discriminate.
  - vm_compute. reflexivity.
  - vm_compute. reflexivity.
Defined.

(** ** The stream functions *)

(** C2.  A received frame must pass both the magic and the CRC check.
    [_get_packet] asks for both; the test of [stream_writer] and
    [stream_reader] lets a packet through as soon as one of the two holds:
    here the setup packet has the right magic and a wrong CRC ([_get_packet]
    would reject it) and [stream_writer] goes on with queue depth 8; so it
    does for a packet with the magic 0x1209 and a right CRC; and
    [stream_reader] reads the payload of a data header whose CRC is wrong. *)
Theorem C2_stream_paths_accept_one_failed_check :
  packet_ok 0xEDF6 [0xF6; 0xED; 8; 0; 0; 0; 0; 0] 8 = false
  /\ stream_packet_rejected 0xEDF6 [0xF6; 0xED; 8; 0; 0; 0; 0; 0] = false
  /\ fst (stream_writer_setup
            (start_machine 16 255 [[0xF6; 0xED; 8; 0; 0; 0; 0; 0]] []))
     = Some (mk_writer [0xF6; 0xED; 8; 0; 0; 0; 0; 0] 8 255 8 0 [])
  /\ packet_ok 0xEDF6 (frame 0x1209 (bytes_of_u32 8)) 8 = false
  /\ fst (stream_writer_setup
            (start_machine 16 255 [frame 0x1209 (bytes_of_u32 8)] []))
     = Some (mk_writer (frame 0x1209 (bytes_of_u32 8)) 8 255 8 0 [])
  /\ packet_ok 0x542E [0x2E; 0x54; 2; 0; 0; 0; 0; 0] 8 = false
  /\ trace (snd (stream_reader_iter None 100 (replicate 8 0) 255
                   (start_machine 16 255
                      [[0x2E; 0x54; 2; 0; 0; 0; 0; 0]; [7; 7]] [])))
     = [EvPut BufLfsr [255] 1000 true; EvGet BufScratch 2 100 true;
        EvGet BufPacket 8 1000 true].
Proof. vm_compute. repeat split; reflexivity. Qed.

(** The test of the stream functions rejects only when both checks fail. *)
Lemma stream_packet_rejected_both magic_value packet :
  stream_packet_rejected magic_value packet = true <->
  u16 (Z.lor (byte_at packet 0) (Z.shiftl (byte_at packet 1) 8)) <> magic_value
  /\ u16 (Z.lor (byte_at packet 6) (Z.shiftl (byte_at packet 7) 8))
     <> __crc_16 packet 6.
Proof.
  unfold stream_packet_rejected. rewrite andb_true_iff, !negb_true_iff.
  now rewrite !Z.eqb_neq.
Qed.

(** [_get_packet] accepts exactly when the transfer succeeded and both
    checks hold. *)
Lemma get_packet_both {W : Type} `{Transport W} dst magic_value rx size
    timeout (m : machine W) :
  (4 <= size)%nat ->
  fst (fst (_get_packet dst magic_value rx (Z.of_nat size) timeout m)) = true <->
  exists rx' w, get_bytes (self m) rx (Z.of_nat size) timeout (world m)
                = (true, rx', w)
    /\ u16 (Z.lor (byte_at rx' 0) (Z.shiftl (byte_at rx' 1) 8)) = magic_value
    /\ u16 (Z.lor (byte_at rx' (size - 2))
                  (Z.shiftl (byte_at rx' (size - 1)) 8))
       = __crc_16 rx' (size - 2).
Proof.
  intros Hsize. rewrite get_packet_result, Nat2Z.id.
  destruct (get_bytes (self m) rx (Z.of_nat size) timeout (world m))
    as [[ok rx'] w]. cbn [fst]. unfold packet_ok.
  rewrite !andb_true_iff, !Z.eqb_eq. split.
  - intros (-> & Hmagic & Hcrc). now exists rx', w.
  - intros (rx2 & w2 & [= -> <- <-] & Hmagic & Hcrc). auto.
Qed.

(** C3 as the code has it.  The shift register started at 255 gives
    255, 199, 219, 213, 210, ...; the acknowledgement bytes [stream_reader]
    sends are a prefix of that sequence, and so are the bytes
    [stream_writer] has accepted at any place of a run, its [rx_lfsr]
    being the next value of the sequence. *)
Theorem C3_lfsr_acknowledgement_sequence
    {W : Type} `{Transport W} (fuel : nat)
    (reader_callback : option (list Z -> Z -> W -> W))
    (queue_depth read_timeout : Z) (m : machine W)
    (writer_callback : W -> list Z * Z * W) (write_timeout : Z)
    (m0 : machine W) (p : writer_point) (ws : writer_state) (mw : machine W) :
  writer_reach writer_callback write_timeout m0 p ws mw ->
  lfsr_seq 255 5 = [255; 199; 219; 213; 210]
  /\ (exists n,
        acks_put (trace (snd (stream_reader fuel reader_callback queue_depth
                                read_timeout m)))
        = acks_put (trace m) ++ lfsr_seq 255 n)
  /\ w_acks ws = lfsr_seq 255 (length (w_acks ws))
  /\ w_rx_lfsr ws = Nat.iter (length (w_acks ws)) lfsr_next 255.
Proof.
  intros Hreach. split; [reflexivity|]. split.
  - apply stream_reader_spec.
  - apply writer_reach_inv in Hreach as [_ Hinv].
    destruct Hinv as (_ & _ & _ & _ & _ & Hacks & Hlfsr). now split.
Qed.

(** The same on a reader that is sent two data headers and a writer that
    is sent two acknowledgements. *)
Lemma C3_witness :
  lfsr_seq 255 5 = [255; 199; 219; 213; 210]
  /\ (exists n,
        acks_put (trace (snd (stream_reader 3 None 8 100 two_frames_start)))
        = acks_put (trace two_frames_start) ++ lfsr_seq 255 n)
  /\ w_acks full_duplex_final
     = lfsr_seq 255 (length (w_acks full_duplex_final))
  /\ w_rx_lfsr full_duplex_final
     = Nat.iter (length (w_acks full_duplex_final)) lfsr_next 255.
Proof.
  apply (C3_lfsr_acknowledgement_sequence 3 None 8 100 two_frames_start
           script_writer_callback 100 full_duplex_start Returned
           full_duplex_final
           (snd (stream_writer 10 script_writer_callback 100
                   full_duplex_start))).
  apply (stream_writer_reach _ _ _ 10). vm_compute. reflexivity.
Defined.

(** C3 as the spec words it fails on the second byte: a reader that is sent
    two data headers acknowledges with 255 and then 199, and 127 is not the
    successor of 255. *)
Lemma C3_second_acknowledgement_is_199 :
  acks_put (trace (snd (stream_reader 3 None 8 100 two_frames_start)))
  = [255; 199]
  /\ lfsr_next 255 = 199
  /\ (lfsr_next 255 =? 127) = false
  /\ lfsr_seq 255 5 <> [255; 127; 191; 95; 175].
Proof. vm_compute. repeat split; try reflexivity. discriminate. Qed.

(** C4.  At every place of a run of [stream_writer] the queue depth [D] is
    the depth the setup packet asked for, clamped into
    [1, _stream_writer_queue_depth_max]; the credits stay within [0, D];
    the [STREAM_DATA] frames the writer has started to send, less the
    acknowledgement bytes it has accepted, never exceed [D] and are
    [D - credits] while the loop runs; and with no credit the sending step
    sends nothing. *)
Theorem C4_writer_never_exceeds_queue_depth
    {W : Type} `{Transport W} (callback : W -> list Z * Z * W)
    (write_timeout : Z) (m0 : machine W) (p : writer_point)
    (ws : writer_state) (m : machine W) (setup_packet : list Z) (w1 : W) :
  writer_reach callback write_timeout m0 p ws m ->
  get_bytes (self m0) (replicate 8 0) 8 1000 (world m0)
  = (true, setup_packet, w1) ->
  w_queue_depth ws
  = Z.max (Z.min (unpack_unsigned_long (drop 2 setup_packet))
                 (_stream_writer_queue_depth_max (self m0))) 1
  /\ 1 <= w_queue_depth ws
  /\ w_queue_depth ws <= Z.max (_stream_writer_queue_depth_max (self m0)) 1
  /\ 0 <= w_credits ws <= w_queue_depth ws
  /\ w_frames ws - Z.of_nat (length (w_acks ws)) <= w_queue_depth ws
  /\ (p <> Returned ->
      w_frames ws - Z.of_nat (length (w_acks ws))
      = w_queue_depth ws - w_credits ws)
  /\ (w_credits ws <= 0 ->
      forall m1, writer_send_phase callback write_timeout ws m1 = (true, ws, m1)).
Proof.
  intros Hreach Hsetup.
  split; [now apply (writer_reach_depth callback write_timeout m0 p ws m _ w1)|].
  apply writer_reach_inv in Hreach as [_ Hinv].
  destruct Hinv as (HD & Hmax & Hc & Hle & Heq & _ & _).
  repeat split; try lia; try assumption.
  intros Hzero m1. unfold writer_send_phase.
  destruct (Z.ltb_spec 0 (w_credits ws)); [lia|reflexivity].
Qed.

(** The same on a half-duplex writer asked for depth 8: the depth is 1 and
    it returns with two frames started and one acknowledged. *)
Lemma C4_witness :
  w_queue_depth half_duplex_final
  = Z.max (Z.min (unpack_unsigned_long
                    (drop 2 (frame 0xEDF6 (bytes_of_u32 8))))
                 (_stream_writer_queue_depth_max (self half_duplex_start))) 1
  /\ 1 <= w_queue_depth half_duplex_final
  /\ w_queue_depth half_duplex_final
     <= Z.max (_stream_writer_queue_depth_max (self half_duplex_start)) 1
  /\ 0 <= w_credits half_duplex_final <= w_queue_depth half_duplex_final
  /\ w_frames half_duplex_final
     - Z.of_nat (length (w_acks half_duplex_final))
     <= w_queue_depth half_duplex_final
  /\ (Returned <> Returned ->
      w_frames half_duplex_final
      - Z.of_nat (length (w_acks half_duplex_final))
      = w_queue_depth half_duplex_final - w_credits half_duplex_final)
  /\ (w_credits half_duplex_final <= 0 ->
      forall m1,
        writer_send_phase script_writer_callback 100 half_duplex_final m1
        = (true, half_duplex_final, m1)).
Proof.
  apply (C4_writer_never_exceeds_queue_depth script_writer_callback 100
           half_duplex_start Returned half_duplex_final
           (snd (stream_writer 10 script_writer_callback 100
                   half_duplex_start))
           (frame 0xEDF6 (bytes_of_u32 8))
           (mk_script 0 [[255]; [0]] [[1; 2]; [3]; [4]] [])).
  - apply (stream_writer_reach _ _ _ 10). vm_compute. reflexivity.
  - vm_compute. reflexivity.
Defined.

(** ** The handshake loops *)

Lemma master_backoff_bound t timeout : master_backoff t timeout <= timeout.
Proof. apply Z.le_min_r. Qed.

Lemma slave_backoff_bound t timeout : slave_backoff t timeout <= timeout.
Proof. apply Z.le_min_r. Qed.

Lemma master_backoff_exact t timeout :
  0 <= t -> t * 6 < 2 ^ 32 -> master_backoff t timeout = Z.min (t * 3 / 2) timeout.
Proof.
  intros Ht Hfit. unfold master_backoff. rewrite u32_small by lia.
  replace (t * 6) with (t * 3 * 2) by lia. change 4 with (2 * 2).
  now rewrite Z.div_mul_cancel_r by lia.
Qed.

Lemma slave_backoff_exact t timeout :
  0 <= t -> t + 1 < 2 ^ 32 -> slave_backoff t timeout = Z.min (t + 1) timeout.
Proof. intros Ht Hfit. unfold slave_backoff. now rewrite u32_small by lia. Qed.

Section HandshakeFacts.
Context {W : Type} `{Transport W} `{Arduino W}.

(** A round that ends in the back-off: the loop goes on from the machine
  the round left, its two short timeouts stepped. *)
Lemma handshake_retry {R : Type} fuel next (body : M W (attempt R)) timed_out
  timeout start (m m2 : machine W) now w1 :
millis (world m) = (now, w1) ->
u32 (now - start) < timeout ->
body (mk_machine (self m) w1 (trace m)) = (Retry, m2) ->
handshake_loop (S fuel) next body timed_out timeout start m
= handshake_loop fuel next body timed_out timeout start
    (mk_machine (back_off next timeout (self m2)) (world m2) (trace m2)).
Proof.
intros Hclock Hin Hbody. cbn [handshake_loop].
unfold bind at 1. unfold lift_world. rewrite Hclock.
destruct (Z.ltb_spec (u32 (now - start)) timeout) as [_|Hout]; [|lia].
cbn [negb]. unfold bind at 1. rewrite Hbody. reflexivity.
Qed.

(** Past the budget the loop returns its failure value. *)
Lemma handshake_timed_out {R : Type} fuel next (body : M W (attempt R))
  timed_out timeout start (m : machine W) now w1 :
millis (world m) = (now, w1) ->
timeout <= u32 (now - start) ->
handshake_loop (S fuel) next body timed_out timeout start m
= (Some timed_out, mk_machine (self m) w1 (trace m)).
Proof.
intros Hclock Hout. cbn [handshake_loop].
unfold bind at 1. unfold lift_world. rewrite Hclock.
destruct (Z.ltb_spec (u32 (now - start)) timeout) as [Hin|_]; [lia|].
reflexivity.
Qed.

Lemma size_t_small x : 0 <= x < 2 ^ 32 -> size_t x = x.
Proof. intros Hx. now apply Z.mod_small. Qed.



Lemma call_hashed_result fuel command command_data command_data_len
  result_data result_data_len flag send_timeout recv_timeout
  (m m1 : machine W) exchanged :
exchange fuel command command_data command_data_len send_timeout
  recv_timeout m = (Some exchanged, m1) ->
call_hashed fuel command command_data command_data_len result_data
  result_data_len flag send_timeout recv_timeout m
= (Some (copy_result (_buff (self m1)) exchanged result_data
           result_data_len flag), m1).
Proof. intros Hex. unfold call_hashed, bind. now rewrite Hex. Qed.
End HandshakeFacts.

Lemma memset_inside dst v n :
  (n <= length dst)%nat -> memset dst v n = replicate n v ++ drop n dst.
Proof.
  intros Hn. unfold memset. rewrite <- (take_drop n dst) at 1.
  apply list_inserts_0_r. rewrite length_replicate, length_take_le; lia.
Qed.

Lemma memcpy_inside dst src n :
  (n <= length dst)%nat -> (n <= length src)%nat ->
  memcpy dst 0 src n = take n src ++ drop n dst.
Proof.
  intros Hdst Hsrc. unfold memcpy. rewrite <- (take_drop n dst) at 1.
  apply list_inserts_0_r. rewrite !length_take_le; lia.
Qed.

(** What the copying variants hand back, case by case. *)
Lemma copy_result_cases buff exchanged result_data result_data_len flag :
  (Z.to_nat result_data_len <= length result_data)%nat ->
  (Z.to_nat (default 0%Z exchanged) <= length (drop 2 buff))%nat ->
  copy_result buff exchanged result_data result_data_len flag
  = match exchanged with
    | Some result_size =>
        if flag && (result_size =? 0)
        then (false, replicate (Z.to_nat result_data_len) 0
                     ++ drop (Z.to_nat result_data_len) result_data)
        else (true, take (Z.to_nat (Z.min result_data_len result_size))
                      (drop 2 buff)
                    ++ drop (Z.to_nat (Z.min result_data_len result_size))
                         result_data)
    | None => (false, replicate (Z.to_nat result_data_len) 0
                      ++ drop (Z.to_nat result_data_len) result_data)
    end.
Proof.
  intros Hdst Hsrc. unfold copy_result.
  destruct exchanged as [result_size|]; cbn in Hsrc |- *.
  - assert (Hcopy : memcpy result_data 0 (drop 2 buff)
                      (Z.to_nat (Z.min result_data_len result_size))
                    = take (Z.to_nat (Z.min result_data_len result_size))
                        (drop 2 buff)
                      ++ drop (Z.to_nat (Z.min result_data_len result_size))
                           result_data)
      by (apply memcpy_inside; lia).
    destruct flag; cbn [andb].
    + destruct (result_size =? 0); cbn [negb].
      * now rewrite memset_inside.
      * now rewrite Hcopy.
    + now rewrite Hcopy.
  - destruct flag; cbn [andb]; now rewrite memset_inside.
Qed.

(** ** Back-off, size limit and the copying calls *)

(** C5.  A round of a handshake loop that ends in a retry goes on with both
    short timeouts set anew and nothing else changed: in [__put_command]
    and [__get_result] to [min((prev * 6) / 4, timeout)], the product
    taken in 32 bits, which is [min(prev * 3 / 2, timeout)] rounded down
    as long as [prev * 6] fits 32 bits; in [__get_command] and
    [__put_result] to [min(prev + 1, timeout)], the sum taken in 32 bits.
    Whatever the previous value and the budget, the new value does not
    exceed the budget. *)
Theorem C5_short_timeouts_back_off
    {W : Type} `{Transport W} `{Arduino W} (fuel : nat)
    (timeout start : Z) (m : machine W) (now : Z) (w1 : W) :
  millis (world m) = (now, w1) ->
  u32 (now - start) < timeout ->
  (forall out_header size a,
      put_command_attempt out_header size (mk_machine (self m) w1 (trace m))
      = (Retry, a) ->
      put_command_loop (S fuel) out_header size timeout start m
      = put_command_loop fuel out_header size timeout start
          (mk_machine
             (short_timeouts_stepped
                (fun prev => Z.min (u32 (prev * 6) / 4) timeout) (self a))
             (world a) (trace a)))
  /\ (forall a,
        get_result_attempt (mk_machine (self m) w1 (trace m)) = (Retry, a) ->
        get_result_loop (S fuel) timeout start m
        = get_result_loop fuel timeout start
            (mk_machine
               (short_timeouts_stepped
                  (fun prev => Z.min (u32 (prev * 6) / 4) timeout) (self a))
               (world a) (trace a)))
  /\ (forall a,
        get_command_attempt (mk_machine (self m) w1 (trace m)) = (Retry, a) ->
        get_command_loop (S fuel) timeout start m
        = get_command_loop fuel timeout start
            (mk_machine
               (short_timeouts_stepped
                  (fun prev => Z.min (u32 (prev + 1)) timeout) (self a))
               (world a) (trace a)))
  /\ (forall out_header size a,
        put_result_attempt out_header size (mk_machine (self m) w1 (trace m))
        = (Retry, a) ->
        put_result_loop (S fuel) out_header size timeout start m
        = put_result_loop fuel out_header size timeout start
            (mk_machine
               (short_timeouts_stepped
                  (fun prev => Z.min (u32 (prev + 1)) timeout) (self a))
               (world a) (trace a)))
  /\ (forall prev, 0 <= prev -> prev * 6 < 2 ^ 32 ->
        Z.min (u32 (prev * 6) / 4) timeout = Z.min (prev * 3 / 2) timeout)
  /\ (forall prev, 0 <= prev -> prev + 1 < 2 ^ 32 ->
        Z.min (u32 (prev + 1)) timeout = Z.min (prev + 1) timeout)
  /\ (forall prev budget,
        Z.min (u32 (prev * 6) / 4) budget <= budget
        /\ Z.min (u32 (prev + 1)) budget <= budget).
Proof.
  intros Hclock Hin.
  unfold put_command_loop, get_result_loop, get_command_loop,
    put_result_loop.
  split; [|split; [|split; [|split; [|split; [|split]]]]].
  - intros out_header size a Hretry.
    now rewrite (handshake_retry _ _ _ _ _ _ _ _ now w1 Hclock Hin Hretry).
  - intros a Hretry.
    now rewrite (handshake_retry _ _ _ _ _ _ _ _ now w1 Hclock Hin Hretry).
  - intros a Hretry.
    now rewrite (handshake_retry _ _ _ _ _ _ _ _ now w1 Hclock Hin Hretry).
  - intros out_header size a Hretry.
    now rewrite (handshake_retry _ _ _ _ _ _ _ _ now w1 Hclock Hin Hretry).
  - intros prev Hprev Hfit. apply (master_backoff_exact prev timeout Hprev Hfit).
  - intros prev Hprev Hfit. apply (slave_backoff_exact prev timeout Hprev Hfit).
  - intros prev budget. split; apply Z.le_min_r.
Qed.

(** The same on a master and on a slave whose peer is silent: after the
    first round the short timeouts, 2 ms at the start, are 3 ms. *)
Lemma C5_witness :
  put_command_loop 1 (replicate 12 0) 0 100 0 silent_start
  = put_command_loop 0 (replicate 12 0) 0 100 0
      (mk_machine
         (short_timeouts_stepped (fun prev => Z.min (u32 (prev * 6) / 4) 100)
            (self silent_start))
         (mk_script 1 [] [] [])
         [EvGet BufInCommandHeader 4 2 false;
          EvPut BufOutHeader (replicate 12 0) 2 true; EvFlush])
  /\ get_result_loop 1 100 0 silent_start
     = get_result_loop 0 100 0
         (mk_machine
            (short_timeouts_stepped
               (fun prev => Z.min (u32 (prev * 6) / 4) 100)
               (self silent_start))
            (mk_script 1 [] [] [])
            [EvGet BufInResultHeader 8 2 false;
             EvPut BufOutResultHeaderAck __out_result_header_ack 2 true;
             EvFlush])
  /\ get_command_loop 1 100 0 silent_start
     = get_command_loop 0 100 0
         (mk_machine
            (short_timeouts_stepped (fun prev => Z.min (u32 (prev + 1)) 100)
               (self silent_start))
            (mk_script 1 [] [] [])
            [EvGet BufInCommandHeader 12 2 false; EvFlush])
  /\ put_result_loop 1 (replicate 8 0) 0 100 0 silent_start
     = put_result_loop 0 (replicate 8 0) 0 100 0
         (mk_machine
            (short_timeouts_stepped (fun prev => Z.min (u32 (prev + 1)) 100)
               (self silent_start))
            (mk_script 1 [] [] [])
            [EvGet BufInResponseHeader 4 2 false; EvFlush])
  /\ _put_short_timeout
       (short_timeouts_stepped (fun prev => Z.min (u32 (prev * 6) / 4) 100)
          (self silent_start)) = 3
  /\ _get_short_timeout
       (short_timeouts_stepped (fun prev => Z.min (u32 (prev + 1)) 100)
          (self silent_start)) = 3.
Proof.
  assert (Hclock : millis (world silent_start) = (0, mk_script 1 [] [] []))
    by reflexivity.
  assert (Hin : u32 (0 - 0) < 100) by reflexivity.
  destruct (C5_short_timeouts_back_off 0 100 0 silent_start 0
              (mk_script 1 [] [] []) Hclock Hin)
    as (Hput & Hres & Hcmd & Hans & _).
  split.
  { apply (Hput _ _ (mk_machine (self silent_start) (mk_script 1 [] [] [])
                       [EvGet BufInCommandHeader 4 2 false;
                        EvPut BufOutHeader (replicate 12 0) 2 true; EvFlush])).
    vm_compute. reflexivity. }
  split.
  { apply (Hres (mk_machine (self silent_start) (mk_script 1 [] [] [])
                   [EvGet BufInResultHeader 8 2 false;
                    EvPut BufOutResultHeaderAck __out_result_header_ack 2 true;
                    EvFlush])).
    vm_compute. reflexivity. }
  split.
  { apply (Hcmd (mk_machine (self silent_start) (mk_script 1 [] [] [])
                   [EvGet BufInCommandHeader 12 2 false; EvFlush])).
    vm_compute. reflexivity. }
  split.
  { apply (Hans _ _ (mk_machine (self silent_start) (mk_script 1 [] [] [])
                       [EvGet BufInResponseHeader 4 2 false; EvFlush])).
    vm_compute. reflexivity. }
  split; vm_compute; reflexivity.
Defined.

(** C5 as the specification words it fails once [prev * 6] passes 32 bits:
    a master that retries with short timeouts of 800000000 ms and a budget
    of 4000000000 ms goes on with 126258176 ms, where
    [min(prev * 1.5, total_budget)] is 1200000000 ms.  A slave that
    retries with short timeouts and a budget of 4294967295 ms goes on with
    0 ms, [prev + 1] being 0 in 32 bits.  And a master that retries with
    3 ms goes on with 4 ms, the whole milliseconds of 4.5. *)
Lemma C5_back_off_wraps_in_32_bits :
  _put_short_timeout
    (self (snd (put_command_loop 1 (replicate 12 0) 0 4000000000 0
                  (waiting_start 800000000)))) = 126258176
  /\ _get_short_timeout
       (self (snd (put_command_loop 1 (replicate 12 0) 0 4000000000 0
                     (waiting_start 800000000)))) = 126258176
  /\ _put_short_timeout
       (self (snd (get_result_loop 1 4000000000 0 (waiting_start 800000000))))
     = 126258176
  /\ Z.min (800000000 * 3 / 2) 4000000000 = 1200000000
  /\ (126258176 =? Z.min (800000000 * 3 / 2) 4000000000) = false
  /\ _put_short_timeout
       (self (snd (get_command_loop 1 4294967295 0
                     (waiting_start 4294967295)))) = 0
  /\ (0 =? Z.min (4294967295 + 1) 4294967295) = false
  /\ _put_short_timeout
       (self (snd (get_result_loop 1 100 0 (waiting_start 3)))) = 4
  /\ (2 * 4 =? 3 * 3) = false.
Proof. vm_compute. repeat split; reflexivity. Qed.




(** C7.  A copying call, once the exchange has ended: with the flag set
    and a result of length zero it returns false; whenever it returns
    false all [result_data_len] bytes of the caller's buffer are zero;
    when it returns true the first [min(result_data_len, result_size)]
    bytes of the buffer are those of the result and the rest is as it
    was.  [call_no_args] is [call] with no command data. *)
Theorem C7_copying_call_result
    {W : Type} `{Transport W} `{Arduino W} (fuel : nat) (char_signed : bool)
    (name : list Z) (h : Z) (command_data : list Z) (command_data_len : Z)
    (result_data : list Z) (result_data_len : Z) (flag : bool)
    (send_timeout recv_timeout : Z) (m m1 : machine W) (exchanged : option Z) :
  _hash char_signed name = Some h ->
  exchange fuel h command_data command_data_len send_timeout recv_timeout m
  = (Some exchanged, m1) ->
  (Z.to_nat result_data_len <= length result_data)%nat ->
  (Z.to_nat (default 0%Z exchanged) <= length (drop 2 (_buff (self m1))))%nat ->
  call fuel char_signed name command_data command_data_len result_data
    result_data_len flag send_timeout recv_timeout m
  = (Some
       match exchanged with
       | Some result_size =>
           if flag && (result_size =? 0)
           then (false, replicate (Z.to_nat result_data_len) 0
                        ++ drop (Z.to_nat result_data_len) result_data)
           else (true, take (Z.to_nat (Z.min result_data_len result_size))
                         (drop 2 (_buff (self m1)))
                       ++ drop (Z.to_nat (Z.min result_data_len result_size))
                            result_data)
       | None => (false, replicate (Z.to_nat result_data_len) 0
                         ++ drop (Z.to_nat result_data_len) result_data)
       end, m1)
  /\ call_no_args fuel char_signed name result_data result_data_len flag
       send_timeout recv_timeout
     = call fuel char_signed name [] 0 result_data result_data_len flag
         send_timeout recv_timeout.
Proof.
  intros Hhash Hex Hdst Hsrc. split; [|reflexivity].
  unfold call. rewrite Hhash.
  rewrite (call_hashed_result _ _ _ _ _ _ _ _ _ _ _ _ Hex).
  now rewrite copy_result_cases.
Qed.

(** The same on a master whose slave returns no bytes, the flag set. *)
Lemma C7_witness :
  call 10 false [97; 0] [1; 2; 3] 3 [9; 9; 9; 9] 4 true 100 100
    empty_result_start
  = (Some
       match Some 0 with
       | Some result_size =>
           if true && (result_size =? 0)
           then (false, replicate (Z.to_nat 4) 0 ++ drop (Z.to_nat 4) [9; 9; 9; 9])
           else (true, take (Z.to_nat (Z.min 4 result_size))
                         (drop 2 (_buff (self (snd (exchange 10 177604 [1; 2; 3]
                                                      3 100 100
                                                      empty_result_start)))))
                       ++ drop (Z.to_nat (Z.min 4 result_size)) [9; 9; 9; 9])
       | None => (false, replicate (Z.to_nat 4) 0 ++ drop (Z.to_nat 4) [9; 9; 9; 9])
       end, snd (exchange 10 177604 [1; 2; 3] 3 100 100 empty_result_start))
  /\ call_no_args 10 false [97; 0] [9; 9; 9; 9] 4 true 100 100
     = call 10 false [97; 0] [] 0 [9; 9; 9; 9] 4 true 100 100.
Proof.
  apply (C7_copying_call_result 10 false [97; 0] 177604 [1; 2; 3] 3
           [9; 9; 9; 9] 4 true 100 100 empty_result_start
           (snd (exchange 10 177604 [1; 2; 3] 3 100 100 empty_result_start))
           (Some 0)).
  - vm_compute. reflexivity.
  - vm_compute. reflexivity.
  - vm_compute. lia.
  - vm_compute. lia.
Defined.

(** ** The name hash where [char] is signed *)

(** C8.  Where plain [char] is signed, a name byte with the high bit set
    is sign-extended before the xor: the two [const char *] overloads hash
    the one-byte name 0x80 to 0xFFFD4A25, the reference and the
    [__FlashStringHelper] overload to 0x0002B525. *)
Theorem C8_signed_char_hash_of_high_byte :
  _hash true [0x80; 0] = Some 0xFFFD4A25
  /\ _hash_len true [0x80; 0] 1 = Some 0xFFFD4A25
  /\ hash_reference [0x80; 0] 1 = 0x0002B525
  /\ _hash_flash [0x80; 0] = Some 0x0002B525
  /\ _hash false [0x80; 0] = Some 0x0002B525
  /\ _hash_len false [0x80; 0] 1 = Some 0x0002B525.
Proof. vm_compute. repeat split; reflexivity. Qed.

(** ** The repeat-byte guard and the scratch buffer *)

(** C9.  On the SPI and the I2C master a [get_bytes] that has filled a
    buffer of nonzero size returns false, after a [delay] of the current
    [_get_short_timeout], exactly when the bytes received are all the
    same; when two of them differ it returns true and does not delay. *)
Theorem C9_repeat_byte_guard
    {W : Type} `{Arduino W} `{SPIClass W} `{TwoWire W}
    (__cs_pin __slave_addr __rate : Z) (this : rpc) (buff : list Z)
    (size timeout : Z) (w : W) (spi_buff : list Z) (spi_w : W)
    (i2c_buff : list Z) (i2c_w : W) :
  0 < size ->
  SPI_transfer buff size
    (SPI_beginTransaction (delayMicroseconds 100 (digitalWrite __cs_pin false w)))
  = (spi_buff, spi_w) ->
  (Z.to_nat size <= length spi_buff)%nat ->
  i2c_request_loop (Z.to_nat size) __slave_addr 0 size buff
    (Wire_setClock __rate (Wire_begin w))
  = (true, i2c_buff, i2c_w) ->
  (Z.to_nat size <= length i2c_buff)%nat ->
  (_same spi_buff (Z.to_nat size) = true
   <-> all_equal (take (Z.to_nat size) spi_buff))
  /\ rpc_spi_master_get_bytes __cs_pin this buff size timeout w
     = (if _same spi_buff (Z.to_nat size)
        then (false, spi_buff,
              delay (_get_short_timeout this)
                (digitalWrite __cs_pin true (SPI_endTransaction spi_w)))
        else (true, spi_buff,
              digitalWrite __cs_pin true (SPI_endTransaction spi_w)))
  /\ (_same i2c_buff (Z.to_nat size) = true
      <-> all_equal (take (Z.to_nat size) i2c_buff))
  /\ rpc_i2c_master_get_bytes __slave_addr __rate this buff size timeout w
     = (if _same i2c_buff (Z.to_nat size)
        then (false, i2c_buff,
              delay (_get_short_timeout this) (Wire_end i2c_w))
        else (true, i2c_buff, Wire_end i2c_w)).
Proof.
  intros Hsize Hspi Hspi_len Hi2c Hi2c_len.
  split; [apply _same_spec; lia|].
  split.
  { unfold rpc_spi_master_get_bytes. rewrite Hspi.
    now destruct (_same spi_buff (Z.to_nat size)). }
  split; [apply _same_spec; lia|].
  unfold rpc_i2c_master_get_bytes. rewrite Hi2c.
  now destruct (_same i2c_buff (Z.to_nat size)).
Qed.

(** The same on a bus that reads 7, 7, 7, 7. *)
Lemma C9_witness :
  (_same [7; 7; 7; 7] (Z.to_nat 4) = true
   <-> all_equal (take (Z.to_nat 4) [7; 7; 7; 7]))
  /\ rpc_spi_master_get_bytes 10 (default_rpc 16 1) [0; 0; 0; 0] 4 100 stuck_bus
     = (if _same [7; 7; 7; 7] (Z.to_nat 4)
        then (false, [7; 7; 7; 7],
              delay (_get_short_timeout (default_rpc 16 1))
                (digitalWrite 10 true
                   (SPI_endTransaction (mk_script 0 [] [] []))))
        else (true, [7; 7; 7; 7],
              digitalWrite 10 true (SPI_endTransaction (mk_script 0 [] [] []))))
  /\ (_same [7; 7; 7; 7] (Z.to_nat 4) = true
      <-> all_equal (take (Z.to_nat 4) [7; 7; 7; 7]))
  /\ rpc_i2c_master_get_bytes 18 100000 (default_rpc 16 1) [0; 0; 0; 0] 4 100
       stuck_bus
     = (if _same [7; 7; 7; 7] (Z.to_nat 4)
        then (false, [7; 7; 7; 7],
              delay (_get_short_timeout (default_rpc 16 1))
                (Wire_end (mk_script 0 [] [] [])))
        else (true, [7; 7; 7; 7], Wire_end (mk_script 0 [] [] []))).
Proof.
  apply (C9_repeat_byte_guard 10 18 100000 (default_rpc 16 1) [0; 0; 0; 0] 4
           100 stuck_bus [7; 7; 7; 7] (mk_script 0 [] [] [])
           [7; 7; 7; 7] (mk_script 0 [] [] [])).
  - lia.
  - vm_compute. reflexivity.
  - vm_compute. lia.
  - vm_compute. reflexivity.
  - vm_compute. lia.
Defined.

(** C10.  [stream_reader] asks the transport for a payload into the
    scratch buffer only with a size of at most [_buff_len]: so for every
    event of a run; and in a round whose header was received and let
    through, an announced size above [_buff_len] ends the function with
    nothing read, while any size up to [_buff_len] itself is asked for in
    full. *)
Theorem C10_stream_reader_stays_inside_scratch_buffer
    {W : Type} `{Transport W} (fuel : nat)
    (callback : option (list Z -> Z -> W -> W)) (queue_depth read_timeout : Z)
    (m mi : machine W) (packet : list Z) (tx_lfsr : Z) (received : list Z)
    (w1 : W) :
  get_bytes (self mi) packet 8 1000 (world mi) = (true, received, w1) ->
  stream_packet_rejected 0x542E received = false ->
  (exists new,
      trace (snd (stream_reader fuel callback queue_depth read_timeout m))
      = new ++ trace m
      /\ Forall (scratch_get_fits (_buff_len (self m))) new)
  /\ (if _buff_len (self mi) <? unpack_unsigned_long (drop 2 received)
      then stream_reader_iter callback read_timeout packet tx_lfsr mi
           = (None, mk_machine (self mi) w1
                      (EvGet BufPacket 8 1000 true :: trace mi))
      else exists ok new,
          trace (snd (stream_reader_iter callback read_timeout packet tx_lfsr mi))
          = new ++ EvGet BufScratch (unpack_unsigned_long (drop 2 received))
                     read_timeout ok
                   :: EvGet BufPacket 8 1000 true :: trace mi).
Proof.
  intros Hget Hpass. split.
  - pose proof (stream_reader_spec fuel callback queue_depth read_timeout m)
      as (_ & Hnew & _). exact Hnew.
  - unfold stream_reader_iter, _stream_get_bytes, _stream_put_bytes, io_get,
      io_put, bind, ret, get_self, modify_self, log, lift_world. cbn.
    rewrite Hget. cbn. rewrite Hpass. cbn.
    destruct (_buff_len (self mi) <? unpack_unsigned_long (drop 2 received));
      [reflexivity|]. simpl.
    destruct (get_bytes (self mi) (_buff (self mi)) _ read_timeout w1)
      as [[ok2 buff2] w2]. exists ok2.
    destruct ok2; simpl; [|now exists []].
    destruct callback as [cb|]; simpl;
      match goal with
      | |- context [put_bytes ?a ?b ?c ?d ?e] =>
          destruct (put_bytes a b c d e) as [ok3 w3]
      end; destruct ok3; simpl;
      first [now eexists [_; _] | now eexists [_]].
Qed.

(** The same on a reader with a buffer of 16 bytes that is sent a payload
    of 16 bytes. *)
Lemma C10_witness :
  (exists new,
      trace (snd (stream_reader 3 None 8 100 full_payload_start))
      = new ++ trace full_payload_start
      /\ Forall (scratch_get_fits (_buff_len (self full_payload_start))) new)
  /\ (if _buff_len (self full_payload_start)
         <? unpack_unsigned_long (drop 2 (frame 0x542E (bytes_of_u32 16)))
      then stream_reader_iter None 100 (replicate 8 0) 255 full_payload_start
           = (None, mk_machine (self full_payload_start)
                      (mk_script 0 [replicate 16 7] [] [])
                      (EvGet BufPacket 8 1000 true :: trace full_payload_start))
      else exists ok new,
          trace (snd (stream_reader_iter None 100 (replicate 8 0) 255
                        full_payload_start))
          = new ++ EvGet BufScratch
                     (unpack_unsigned_long
                        (drop 2 (frame 0x542E (bytes_of_u32 16)))) 100 ok
                   :: EvGet BufPacket 8 1000 true :: trace full_payload_start).
Proof.
  apply (C10_stream_reader_stays_inside_scratch_buffer 3 None 8 100
           full_payload_start full_payload_start (replicate 8 0) 255
           (frame 0x542E (bytes_of_u32 16))
           (mk_script 0 [replicate 16 7] [] [])).
  - vm_compute. reflexivity.
  - vm_compute. reflexivity.
Defined.

(** ** Enough fuel: the handshake loops return *)

Section Returns.
Context {W : Type} `{Transport W} `{Arduino W}.
Variable clock : W -> Z.
Variable longest : Z.
Hypothesis millis_reads : forall w, fst (millis w) = clock w.
Hypothesis millis_ticks : forall w, clock (snd (millis w)) = clock w + 1.

(** With [millis] reading a clock that moves on and a loop body that
    takes between 0 and [longest] milliseconds, the loop returns as soon
    as the fuel exceeds what is left of the budget. *)
Lemma handshake_loop_returns {R : Type} next (body : M W (attempt R))
    timed_out timeout start :
  (forall m, clock (world m) <= clock (world (snd (body m)))
             <= clock (world m) + longest) ->
  timeout + longest < 2 ^ 32 ->
  forall fuel m,
    0 <= clock (world m) - start < 2 ^ 32 ->
    Z.max 0 (timeout - (clock (world m) - start)) < Z.of_nat fuel ->
    exists r m',
      handshake_loop fuel next body timed_out timeout start m = (Some r, m').
Proof.
  intros Hbody Hlongest fuel.
  induction fuel as [|fuel IH]; intros m Hrange Hfuel; [lia|].
  cbn [handshake_loop]. unfold bind at 1. unfold lift_world.
  pose proof (millis_reads (world m)) as Hnow.
  pose proof (millis_ticks (world m)) as Htick.
  destruct (millis (world m)) as [now w1]. cbn [fst snd] in Hnow, Htick.
  subst now. rewrite u32_small by lia.
  destruct (Z.ltb_spec (clock (world m) - start) timeout) as [Hin|Hout];
    cbn [negb]; [|unfold ret; eauto].
  unfold bind at 1.
  specialize (Hbody (mk_machine (self m) w1 (trace m))).
  destruct (body (mk_machine (self m) w1 (trace m))) as [[r|] m2];
    cbn [snd world] in Hbody; [unfold ret; eauto|].
  unfold bind at 1. unfold modify_self. apply IH; cbn [world]; lia.
Qed.
End Returns.

(** On the scripted peer a transfer takes no time. *)
Lemma script_get_clock buff size w :
  clock (snd (script_get buff size w)) = clock w.
Proof.
  unfold script_get. destruct (incoming w) as [|chunk rest]; [reflexivity|].
  now destruct (Z.of_nat (length chunk) =? size).
Qed.

Lemma script_attempts_keep_clock out_header size (m : machine script) :
  clock (world (snd (put_command_attempt out_header size m))) = clock (world m)
  /\ clock (world (snd (get_result_attempt m))) = clock (world m)
  /\ clock (world (snd (get_command_attempt m))) = clock (world m)
  /\ clock (world (snd (put_result_attempt out_header size m)))
     = clock (world m).
Proof.
  unfold put_command_attempt, get_result_attempt, get_command_attempt,
    put_result_attempt, _get_packet, io_get, io_put, io_flush, bind, ret,
    get_self, modify_self.
  cbn [get_bytes put_bytes _flush script_transport self world trace fst snd].
  repeat split;
    repeat match goal with
           | |- context [script_get ?b ?s ?w] =>
               let Hc := fresh "Hc" in
               pose proof (script_get_clock b s w) as Hc;
               destruct (script_get b s w) as [[? ?] ?];
               cbn [fst snd negb self world trace] in *
           | |- context [if ?c then _ else _] =>
               destruct c; cbn [fst snd negb self world trace] in *
           end;
    congruence.
Qed.

(** On the scripted peer, whose clock moves a millisecond at each reading,
    a handshake loop entered right after [start = millis()] returns when
    the fuel exceeds the budget. *)
Lemma script_loop_returns {R : Type} fuel next (body : M script (attempt R))
    timed_out timeout this w tr :
  (forall m, clock (world (snd (body m))) = clock (world m)) ->
  timeout < 2 ^ 32 -> Z.max 0 timeout < Z.of_nat fuel ->
  exists r m',
    handshake_loop fuel next body timed_out timeout (clock w)
      (mk_machine this
         (mk_script (clock w + 1) (incoming w) (outgoing w) (delayed w)) tr)
    = (Some r, m').
Proof.
  intros Hkeeps Ht Hfuel.
  apply (handshake_loop_returns clock 0); try reflexivity.
  - intros m. rewrite Hkeeps. lia.
  - lia.
  - cbn. lia.
  - cbn. lia.
Qed.

Lemma script_put_command_returns fuel command data size timeout
    (m : machine script) :
  timeout < 2 ^ 32 -> Z.max 0 timeout < Z.of_nat fuel ->
  exists r m', __put_command fuel command data size timeout m = (Some r, m').
Proof.
  intros Ht Hfuel. unfold __put_command, bind, get_self, modify_self, lift_world.
  destruct (_buff_len (self m) <? size_t (size + 4)); [unfold ret; eauto|].
  cbn [millis script_arduino self world trace].
  apply script_loop_returns; try assumption.
  intros m2. apply script_attempts_keep_clock.
Qed.

Lemma script_get_result_returns fuel timeout (m : machine script) :
  timeout < 2 ^ 32 -> Z.max 0 timeout < Z.of_nat fuel ->
  exists r m', __get_result fuel timeout m = (Some r, m').
Proof.
  intros Ht Hfuel. unfold __get_result, bind, modify_self, lift_world.
  cbn [millis script_arduino self world trace].
  apply script_loop_returns; try assumption.
  intros m2. apply (script_attempts_keep_clock [] 0).
Qed.

(** So a [call] with more fuel than the longer of its two budgets
    returns. *)
Lemma script_call_returns fuel char_signed name h command_data
    command_data_len result_data result_data_len flag send_timeout
    recv_timeout (m : machine script) :
  _hash char_signed name = Some h ->
  send_timeout < 2 ^ 32 -> recv_timeout < 2 ^ 32 ->
  Z.max 0 (Z.max send_timeout recv_timeout) < Z.of_nat fuel ->
  exists r m',
    call fuel char_signed name command_data command_data_len result_data
      result_data_len flag send_timeout recv_timeout m = (Some r, m').
Proof.
  intros Hhash Hsend Hrecv Hfuel.
  unfold call. rewrite Hhash. unfold call_hashed, exchange.
  unfold bind at 1. unfold bind at 1.
  destruct (script_put_command_returns fuel h command_data command_data_len
              send_timeout m) as (sent & m1 & Hsent); [lia|lia|].
  rewrite Hsent. destruct sent.
  - destruct (script_get_result_returns fuel recv_timeout m1)
      as (got & m2 & Hgot); [lia|lia|].
    rewrite Hgot. unfold ret, bind, get_self. eauto.
  - unfold ret, bind, get_self. eauto.
Qed.

(** * Further properties of the code *)

(** ** The CRC, bit by bit *)

Lemma crc_shift_range c : 0 <= crc_shift c < 65536.
Proof. apply u16_range. Qed.

Lemma crc_rounds_table :
  forallb (fun hi => forallb (fun lo =>
     Nat.iter 8 crc_shift (u16_of_bytes hi lo)
     =? u16 (Z.lxor (crc_table_at hi) (Z.shiftl lo 8))) byte_values) byte_values
  = true.
Proof. vm_compute. reflexivity. Qed.

Lemma u16_bytes s :
  0 <= s < 65536 ->
  is_byte (Z.shiftr s 8) /\ is_byte (u8 s)
  /\ s = u16_of_bytes (Z.shiftr s 8) (u8 s).
Proof.
  intros Hs. unfold is_byte, u16_of_bytes, u8.
  change 255 with (Z.ones 8). rewrite Z.land_ones, Z.shiftr_div_pow2 by lia.
  change (2 ^ 8) with 256.
  pose proof (Z.div_mod s 256 ltac:(lia)).
  pose proof (Z.mod_pos_bound s 256 ltac:(lia)).
  assert (0 <= s / 256 < 256)
    by (split; [apply Z.div_pos; lia | apply Z.div_lt_upper_bound; lia]).
  lia.
Qed.

Lemma crc_rounds s :
  0 <= s < 65536 ->
  Nat.iter 8 crc_shift s
  = u16 (Z.lxor (crc_table_at (Z.shiftr s 8)) (Z.shiftl (u8 s) 8)).
Proof.
  intros Hs. destruct (u16_bytes s Hs) as (Hhi & Hlo & Heq).
  rewrite Heq at 1.
  pose proof (forall_byte _ crc_rounds_table _ Hhi) as Hrow. cbv beta in Hrow.
  pose proof (forall_byte _ Hrow _ Hlo) as Hcell. cbv beta in Hcell.
  now apply Z.eqb_eq in Hcell.
Qed.

Lemma crc_index_bitwise crc d :
  Z.shiftr (u16 (Z.lxor crc (Z.shiftl d 8))) 8
  = Z.land (Z.lxor (Z.shiftr crc 8) d) 0xFF.
Proof.
  unfold u16. change 255 with (Z.ones 8). change 65535 with (Z.ones 16).
  Z.bitblast.
Qed.

Lemma crc_low_bitwise t crc d :
  u16 (Z.lxor t (Z.shiftl (u8 (u16 (Z.lxor crc (Z.shiftl d 8)))) 8))
  = u16 (Z.lxor t (Z.shiftl crc 8)).
Proof. bits. Qed.

Lemma crc_step_bitwise crc d : crc_step crc d = crc_bitwise_step crc d.
Proof.
  unfold crc_bitwise_step.
  rewrite crc_rounds by apply u16_range.
  rewrite crc_index_bitwise, crc_low_bitwise. reflexivity.
Qed.

Lemma fold_left_pointwise {A B : Type} (f g : A -> B -> A) l c :
  (forall a b, f a b = g a b) -> fold_left f l c = fold_left g l c.
Proof.
  intros Hfg. revert c. induction l as [|d l IH]; intros c; [reflexivity|].
  cbn [fold_left]. rewrite Hfg. apply IH.
Qed.

(** X1.  The table lookup of [__crc_16] computes what the bit-by-bit loop
    kept in its comment computes, on every input. *)
Theorem crc_16_table_is_bitwise_crc (data : list Z) (size : nat) :
  __crc_16 data size = crc_16_bitwise data size.
Proof. apply fold_left_pointwise, crc_step_bitwise. Qed.

(** *** The callback table *)

Lemma dict_find_key_some entries hash i j :
  dict_find_key entries hash i = Some j ->
  exists l1 e l2, entries = l1 ++ e :: l2 /\ j = (i + length l1)%nat
    /\ key e = hash /\ Forall (fun e' => key e' <> hash) l1.
Proof.
  revert i. induction entries as [|e rest IH]; intros i Hfind; [discriminate|].
  cbn in Hfind. destruct (key e =? hash) eqn:Hk.
  - injection Hfind as <-. exists [], e, rest. cbn.
    repeat split; [lia | lia | constructor].
  - destruct (IH _ Hfind) as (l1 & e' & l2 & -> & -> & Hkey & Hall).
    exists (e :: l1), e', l2. cbn.
    repeat split; [lia | assumption | constructor; [lia | assumption]].
Qed.

Lemma dict_find_key_none entries hash i :
  dict_find_key entries hash i = None ->
  Forall (fun e' => key e' <> hash) entries.
Proof.
  revert i. induction entries as [|e rest IH]; intros i Hfind; [constructor|].
  cbn in Hfind. destruct (key e =? hash) eqn:Hk; [discriminate|].
  constructor; [lia | eauto].
Qed.

Lemma dict_find_callback_app l1 l2 command :
  dict_find_callback (l1 ++ l2) command
  = match dict_find_callback l1 command with
    | Some v => Some v
    | None => dict_find_callback l2 command
    end.
Proof.
  induction l1 as [|e l1 IH]; [reflexivity|]. cbn.
  destruct ((key e =? command) && negb (value e =? 0)); [reflexivity | apply IH].
Qed.

Lemma dict_find_callback_skip l command :
  Forall (fun e' => key e' <> command) l -> dict_find_callback l command = None.
Proof.
  induction 1 as [|e l Hk _ IH]; [reflexivity|]. cbn.
  destruct (key e =? command) eqn:E; [lia | exact IH].
Qed.

Lemma keys_apart (l : list rpc_callback_entry_t) hash :
  Forall (fun e' => key e' <> hash) l <-> ~ In hash (map key l).
Proof.
  rewrite List.Forall_forall, in_map_iff. split.
  - intros Hall (e & Hk & Hin). exact (Hall e Hin Hk).
  - intros Hno e Hin Hk. apply Hno. now exists e.
Qed.

(** What [register_hashed] does to the entries in use, [l] being those
    entries and [rest] the free part of the array. *)
Lemma register_hashed_cases hash callback sl :
  (__dict_alloced sl <= length (__dict sl))%nat ->
  let l := take (__dict_alloced sl) (__dict sl) in
  let rest := drop (__dict_alloced sl) (__dict sl) in
  (exists l1 e l2, l = l1 ++ e :: l2 /\ key e = hash
     /\ Forall (fun e' => key e' <> hash) l1
     /\ register_hashed hash callback sl
        = (true, set_dict ((l1 ++ mk_entry (key e) callback :: l2) ++ rest)
                   (__dict_alloced sl) sl))
  \/ (Forall (fun e' => key e' <> hash) l
      /\ (__dict_alloced sl < __dict_len sl)%nat
      /\ register_hashed hash callback sl
         = (true, set_dict (<[__dict_alloced sl := mk_entry hash callback]>
                              (__dict sl))
                    (S (__dict_alloced sl)) sl))
  \/ (Forall (fun e' => key e' <> hash) l
      /\ (__dict_len sl <= __dict_alloced sl)%nat
      /\ register_hashed hash callback sl = (false, sl)).
Proof.
  intros Hlen l rest. unfold register_hashed. fold l.
  destruct (dict_find_key l hash 0) as [i|] eqn:Hfind.
  - left. destruct (dict_find_key_some _ _ _ _ Hfind)
      as (l1 & e & l2 & Hl & -> & Hk & Hall).
    exists l1, e, l2. repeat split; try assumption.
    rewrite <- (take_drop (__dict_alloced sl) (__dict sl)) at 1.
    fold l rest. rewrite Hl. cbn [Nat.add].
    rewrite alter_app_l by (rewrite length_app; cbn; lia).
    replace (length l1) with (length l1 + 0)%nat by lia.
    rewrite alter_app_r. reflexivity.
  - right. pose proof (dict_find_key_none _ _ _ Hfind) as Hall.
    destruct (__dict_alloced sl <? __dict_len sl)%nat eqn:Hfree.
    + left. apply Nat.ltb_lt in Hfree. now repeat split.
    + right. apply Nat.ltb_ge in Hfree. now repeat split.
Qed.

Lemma alloced_entries sl :
  (__dict_alloced sl <= length (__dict sl))%nat ->
  length (take (__dict_alloced sl) (__dict sl)) = __dict_alloced sl.
Proof. intros Hlen. rewrite length_take. lia. Qed.

Lemma take_after_append {A : Type} (l : list A) (a : nat) (x : A) :
  (a < length l)%nat -> take (S a) (<[a := x]> l) = take a l ++ [x].
Proof.
  intros Ha. rewrite (take_S_r _ a x) by (apply list_lookup_insert_eq; exact Ha).
  now rewrite take_insert_ge by lia.
Qed.

Lemma keys_after_middle (l1 l2 : list rpc_callback_entry_t) e :
  List.NoDup (map key (l1 ++ e :: l2)) ->
  Forall (fun e' => key e' <> key e) l2.
Proof.
  rewrite map_app. cbn [map]. intros Hnd.
  apply NoDup_remove_2 in Hnd. apply keys_apart. intros Hin.
  apply Hnd, in_or_app. now right.
Qed.

(** X2.  After a successful registration the dispatch of [loop] finds the
    new function pointer under the hash of the name (nothing when the
    pointer is [NULL]), and finds under every other hash what it found
    before. *)
Theorem register_callback_then_lookup (char_signed : bool) (name : list Z)
    (callback : Z) (sl sl' : rpc_slave) (hash : Z) :
  dict_wf sl ->
  _hash char_signed name = Some hash ->
  register_callback char_signed name callback sl = Some (true, sl') ->
  lookup_callback hash sl' = (if callback =? 0 then None else Some callback)
  /\ (forall command, command <> hash ->
        lookup_callback command sl' = lookup_callback command sl).
Proof.
  intros (Halloc & Hcap & Hnd) Hhash Hreg.
  unfold register_callback in Hreg. rewrite Hhash in Hreg.
  injection Hreg as Hreg.
  assert (Hlen : (__dict_alloced sl <= length (__dict sl))%nat) by lia.
  pose proof (alloced_entries sl Hlen) as Hused.
  unfold lookup_callback.
  destruct (register_hashed_cases hash callback sl Hlen)
    as [(l1 & e & l2 & Hl & Hk & Hall & Heq)
       |[(Hall & Hfree & Heq)|(_ & _ & Heq)]];
    rewrite Heq in Hreg; [| |discriminate]; injection Hreg as <-; cbn.
  - assert (Hsame : length (l1 ++ mk_entry (key e) callback :: l2)
                    = __dict_alloced sl).
    { rewrite <- Hused, Hl, !length_app. reflexivity. }
    rewrite take_app_length' by (symmetry; exact Hsame).
    rewrite Hl in Hnd |- *. split.
    + rewrite dict_find_callback_app, (dict_find_callback_skip l1) by exact Hall.
      cbn. rewrite Hk, Z.eqb_refl. cbn.
      destruct (callback =? 0); [|reflexivity].
      apply dict_find_callback_skip. rewrite <- Hk.
      exact (keys_after_middle _ _ _ Hnd).
    + intros command Hne. rewrite !dict_find_callback_app. cbn.
      rewrite Hk. destruct (hash =? command) eqn:E; [lia | reflexivity].
  - rewrite take_after_append by lia. split.
    + rewrite dict_find_callback_app, dict_find_callback_skip by exact Hall.
      cbn. rewrite Z.eqb_refl. cbn. now destruct (callback =? 0).
    + intros command Hne. rewrite dict_find_callback_app. cbn.
      destruct (hash =? command) eqn:E; [lia|]. cbn.
      now destruct (dict_find_callback _ command).
Qed.

Lemma register_callback_then_lookup_witness :
  lookup_callback 177603
    (set_dict [mk_entry 177603 7; mk_entry 0 0] 1 (new_slave 2))
  = (if 7 =? 0 then None else Some 7)
  /\ (forall command, command <> 177603 ->
        lookup_callback command
          (set_dict [mk_entry 177603 7; mk_entry 0 0] 1 (new_slave 2))
        = lookup_callback command (new_slave 2)).
Proof.
  apply (register_callback_then_lookup false [102; 0] 7 (new_slave 2)).
  - repeat split; cbn; [lia | lia | constructor].
  - reflexivity.
  - reflexivity.
Defined.

(** X3.  A registration keeps the table well formed and its capacity, uses at
    most one more entry, and fails exactly when the hash is new and every
    entry is in use; a failed registration changes nothing. *)
Theorem register_callback_keeps_table (char_signed : bool) (name : list Z)
    (callback : Z) (sl sl' : rpc_slave) (hash : Z) (ok : bool) :
  dict_wf sl ->
  _hash char_signed name = Some hash ->
  register_callback char_signed name callback sl = Some (ok, sl') ->
  dict_wf sl'
  /\ __dict_len sl' = __dict_len sl
  /\ length (__dict sl') = length (__dict sl)
  /\ (__dict_alloced sl <= __dict_alloced sl' <= S (__dict_alloced sl))%nat
  /\ (In hash (map key (take (__dict_alloced sl) (__dict sl))) ->
      ok = true /\ __dict_alloced sl' = __dict_alloced sl)
  /\ (ok = false <->
      __dict_alloced sl = __dict_len sl
      /\ ~ In hash (map key (take (__dict_alloced sl) (__dict sl))))
  /\ (ok = false -> sl' = sl).
Proof.
  intros (Halloc & Hcap & Hnd) Hhash Hreg.
  unfold register_callback in Hreg. rewrite Hhash in Hreg.
  injection Hreg as Hreg.
  assert (Hlen : (__dict_alloced sl <= length (__dict sl))%nat) by lia.
  pose proof (alloced_entries sl Hlen) as Hused.
  destruct (register_hashed_cases hash callback sl Hlen)
    as [(l1 & e & l2 & Hl & Hk & Hall & Heq)
       |[(Hall & Hfree & Heq)|(Hall & Hfull & Heq)]];
    rewrite Heq in Hreg; injection Hreg as <- <-.
  - assert (Hsame : length (l1 ++ mk_entry (key e) callback :: l2)
                    = __dict_alloced sl).
    { rewrite <- Hused, Hl, !length_app. reflexivity. }
    assert (Hin : In hash (map key (take (__dict_alloced sl) (__dict sl)))).
    { rewrite Hl, map_app. apply in_or_app. right. left. exact Hk. }
    assert (Hlen' : length ((l1 ++ mk_entry (key e) callback :: l2)
                            ++ drop (__dict_alloced sl) (__dict sl))
                    = length (__dict sl)).
    { rewrite length_app, Hsame, length_drop. lia. }
    unfold dict_wf. cbn [__dict __dict_len __dict_alloced set_dict].
    rewrite take_app_length' by (symmetry; exact Hsame). rewrite Hlen'.
    repeat apply conj; try lia; try discriminate; try reflexivity.
    + rewrite Hl in Hnd. rewrite map_app in Hnd |- *. exact Hnd.
    + intros (_ & Hno). now elim Hno.
  - apply keys_apart in Hall.
    unfold dict_wf. cbn [__dict __dict_len __dict_alloced set_dict].
    rewrite take_after_append by lia. rewrite length_insert.
    repeat apply conj; try lia; try discriminate; try reflexivity.
    + rewrite map_app. cbn. apply List.NoDup_app.
      * exact Hnd.
      * repeat constructor. intros [].
      * intros k Hin [<-|[]]. exact (Hall Hin).
    + intros Hin. now elim Hall.
  - apply keys_apart in Hall.
    repeat apply conj; try assumption; try lia; try reflexivity.
    + intros Hin. now elim Hall.
    + intros _. split; [lia | exact Hall].
Qed.

Lemma register_callback_keeps_table_witness :
  dict_wf full_slave
  /\ __dict_len full_slave = __dict_len full_slave
  /\ length (__dict full_slave) = length (__dict full_slave)
  /\ (__dict_alloced full_slave <= __dict_alloced full_slave
      <= S (__dict_alloced full_slave))%nat
  /\ (In 177602 (map key (take (__dict_alloced full_slave) (__dict full_slave))) ->
      false = true /\ __dict_alloced full_slave = __dict_alloced full_slave)
  /\ (false = false <->
      __dict_alloced full_slave = __dict_len full_slave
      /\ ~ In 177602 (map key (take (__dict_alloced full_slave)
                                (__dict full_slave))))
  /\ (false = false -> full_slave = full_slave).
Proof.
  apply (register_callback_keeps_table false [103; 0] 9 full_slave full_slave).
  - repeat split; cbn; [lia | lia | repeat constructor; intros []].
  - reflexivity.
  - reflexivity.
Defined.

(** *** The shift register *)

Lemma all_different_NoDup l : all_different l = true -> List.NoDup l.
Proof.
  induction l as [|x rest IH]; [constructor|]. cbn.
  intros (Hx & Hrest)%andb_true_iff. constructor; [|now apply IH].
  intros Hin. rewrite forallb_forall in Hx. specialize (Hx _ Hin).
  rewrite Z.eqb_refl in Hx. discriminate.
Qed.

Lemma lfsr_next_moves s :
  1 <= s <= 255 -> 1 <= lfsr_next s <= 255 /\ lfsr_next s <> s.
Proof.
  intros Hs.
  assert (Hall : forallb (fun s => (s =? 0)
                   || ((1 <=? lfsr_next s) && (lfsr_next s <=? 255)
                       && negb (lfsr_next s =? s))) byte_values = true)
    by (vm_compute; reflexivity).
  pose proof (forall_byte _ Hall s ltac:(unfold is_byte; lia)) as Hb.
  cbv beta in Hb. destruct (s =? 0) eqn:E; [lia|]. cbn in Hb.
  apply andb_true_iff in Hb as (Hb & Hne).
  apply andb_true_iff in Hb as (Hlo & Hhi).
  apply negb_true_iff in Hne. lia.
Qed.

Lemma lfsr_iter_range n : 1 <= Nat.iter n lfsr_next 255 <= 255.
Proof.
  induction n as [|n IH]; [cbn; lia|].
  rewrite Nat.iter_succ. now apply lfsr_next_moves.
Qed.

(** X4.  The acknowledgement bytes, which start at 255, run through 255
    different values and then start again; none of them is 0. *)
Theorem lfsr_acknowledgements_have_period_255 (n : nat) :
  List.NoDup (lfsr_seq 255 255)
  /\ Nat.iter (n + 255) lfsr_next 255 = Nat.iter n lfsr_next 255
  /\ 1 <= Nat.iter n lfsr_next 255 <= 255
  /\ (Nat.iter (S n) lfsr_next 255 =? Nat.iter n lfsr_next 255) = false.
Proof.
  split; [|split; [|split]].
  - apply all_different_NoDup. vm_compute. reflexivity.
  - rewrite Nat.iter_add. f_equal.
  - apply lfsr_iter_range.
  - rewrite Nat.iter_succ. apply Z.eqb_neq.
    now apply lfsr_next_moves, lfsr_iter_range.
Qed.

(** *** The back-off *)

(** X5.  A retry sets both short timeouts anew.  Below the budget, and as
    long as six times the previous value fits 32 bits, a slave-side loop
    sets each to its previous value plus one, and a master-side loop sets
    each to [min(t + t / 2, timeout)], which is above [t] as soon as [t] is
    2 or more and is [t] for a [t] of 0 or 1. *)
Theorem short_timeouts_grow_until_the_budget (timeout : Z) (s : rpc) :
  0 <= _put_short_timeout s < timeout ->
  0 <= _get_short_timeout s < timeout ->
  _put_short_timeout s * 6 < 2 ^ 32 ->
  _get_short_timeout s * 6 < 2 ^ 32 ->
  _put_short_timeout (back_off slave_backoff timeout s)
  = _put_short_timeout s + 1
  /\ _get_short_timeout (back_off slave_backoff timeout s)
     = _get_short_timeout s + 1
  /\ _put_short_timeout (back_off master_backoff timeout s)
     = Z.min (_put_short_timeout s + _put_short_timeout s / 2) timeout
  /\ _get_short_timeout (back_off master_backoff timeout s)
     = Z.min (_get_short_timeout s + _get_short_timeout s / 2) timeout
  /\ (2 <= _put_short_timeout s ->
      _put_short_timeout s
      < _put_short_timeout (back_off master_backoff timeout s) <= timeout)
  /\ (2 <= _get_short_timeout s ->
      _get_short_timeout s
      < _get_short_timeout (back_off master_backoff timeout s) <= timeout)
  /\ (_put_short_timeout s < 2 ->
      _put_short_timeout (back_off master_backoff timeout s)
      = _put_short_timeout s)
  /\ (_get_short_timeout s < 2 ->
      _get_short_timeout (back_off master_backoff timeout s)
      = _get_short_timeout s).
Proof.
  intros Hp Hg Hpfit Hgfit.
  unfold back_off, set_short_timeouts, slave_backoff, master_backoff.
  cbn [_put_short_timeout _get_short_timeout].
  rewrite !u32_small by lia.
  assert (Hhalf : forall t, t * 6 / 4 = t + t / 2)
    by (intros t; Z.div_mod_to_equations; lia).
  rewrite !Hhalf.
  assert (Hgrow : forall t, 0 <= t -> (2 <= t -> 1 <= t / 2)
                            /\ (t < 2 -> t / 2 = 0)).
  { intros t Ht. split; intros Hc.
    - apply Z.div_le_lower_bound; lia.
    - apply Z.div_small. lia. }
  destruct (Hgrow (_put_short_timeout s) ltac:(lia)) as (Hp2 & Hp0).
  destruct (Hgrow (_get_short_timeout s) ltac:(lia)) as (Hg2 & Hg0).
  repeat apply conj; try lia; intros Hc;
    try (specialize (Hp2 Hc)); try (specialize (Hg2 Hc)); lia.
Qed.

Lemma short_timeouts_grow_until_the_budget_witness :
  _put_short_timeout (back_off slave_backoff 5000 (default_rpc 16 255))
  = _put_short_timeout (default_rpc 16 255) + 1
  /\ _get_short_timeout (back_off slave_backoff 5000 (default_rpc 16 255))
     = _get_short_timeout (default_rpc 16 255) + 1
  /\ _put_short_timeout (back_off master_backoff 5000 (default_rpc 16 255))
     = Z.min (_put_short_timeout (default_rpc 16 255)
              + _put_short_timeout (default_rpc 16 255) / 2) 5000
  /\ _get_short_timeout (back_off master_backoff 5000 (default_rpc 16 255))
     = Z.min (_get_short_timeout (default_rpc 16 255)
              + _get_short_timeout (default_rpc 16 255) / 2) 5000
  /\ (2 <= _put_short_timeout (default_rpc 16 255) ->
      _put_short_timeout (default_rpc 16 255)
      < _put_short_timeout (back_off master_backoff 5000 (default_rpc 16 255))
      <= 5000)
  /\ (2 <= _get_short_timeout (default_rpc 16 255) ->
      _get_short_timeout (default_rpc 16 255)
      < _get_short_timeout (back_off master_backoff 5000 (default_rpc 16 255))
      <= 5000)
  /\ (_put_short_timeout (default_rpc 16 255) < 2 ->
      _put_short_timeout (back_off master_backoff 5000 (default_rpc 16 255))
      = _put_short_timeout (default_rpc 16 255))
  /\ (_get_short_timeout (default_rpc 16 255) < 2 ->
      _get_short_timeout (back_off master_backoff 5000 (default_rpc 16 255))
      = _get_short_timeout (default_rpc 16 255)).
Proof.
  apply (short_timeouts_grow_until_the_budget 5000 (default_rpc 16 255));
    cbn; lia.
Defined.

(** *** The hash of a name of ASCII characters *)

Lemma until_nul_length name : (length (until_nul name) <= length name)%nat.
Proof.
  induction name as [|c rest IH]; [reflexivity|]. cbn.
  destruct (c =? 0); cbn; lia.
Qed.

(** X6.  On a NUL-terminated name whose bytes are below 0x80 the three
    overloads of [_hash] all return the reference hash, whether plain
    [char] is signed or not. *)
Theorem hash_of_ascii_name (char_signed : bool) (name : list Z) :
  Forall (fun b => 0 <= b < 128) name ->
  In 0 name ->
  _hash char_signed name = Some (hash_reference name (length name))
  /\ _hash_len char_signed name (length name)
     = Some (hash_reference name (length name))
  /\ _hash_flash name = Some (hash_reference name (length name)).
Proof.
  intros Hascii Hnul.
  assert (Hbytes : Forall is_byte name).
  { eapply List.Forall_impl; [|exact Hascii]. unfold is_byte. cbn. lia. }
  assert (Hsmall : Forall (fun b => b < 128) name).
  { eapply List.Forall_impl; [|exact Hascii]. cbn. lia. }
  assert (Href : hash_reference name (length name)
                 = djb2_xor (until_nul name) 5381).
  { unfold hash_reference. rewrite take_ge by apply until_nul_length.
    reflexivity. }
  assert (Hcstr : _hash char_signed name
                  = Some (hash_reference name (length name))).
  { unfold _hash. rewrite hash_cstr_ascii by exact Hsmall.
    rewrite Href. now apply hash_cstr_reference. }
  split; [exact Hcstr|]. split.
  - unfold _hash_len. rewrite <- hash_overloads_agree; [exact Hcstr|].
    exists 0. split; [exact Hnul|]. now destruct char_signed.
  - unfold _hash_flash. rewrite Href. now apply hash_cstr_reference.
Qed.

Lemma hash_of_ascii_name_witness :
  _hash true [102; 0] = Some (hash_reference [102; 0] (length [102; 0]))
  /\ _hash_len true [102; 0] (length [102; 0])
     = Some (hash_reference [102; 0] (length [102; 0]))
  /\ _hash_flash [102; 0] = Some (hash_reference [102; 0] (length [102; 0])).
Proof.
  apply (hash_of_ascii_name true [102; 0]).
  - repeat constructor; lia.
  - right. left. reflexivity.
Defined.

(** *** What a handshake function returns *)

Section HandshakeResults.
Context {W : Type} `{Transport W} `{Arduino W}.

(** A handshake loop returns what an attempt returned, in the machine this
    attempt left, or else [timed_out]. *)
Lemma handshake_loop_result {R : Type} (Q : R -> machine W -> Prop) fuel next
    (body : M W (attempt R)) timed_out timeout start (m m' : machine W) r :
  (forall m1 a m2, body m1 = (Return a, m2) -> Q a m2) ->
  handshake_loop fuel next body timed_out timeout start m = (Some r, m') ->
  r = timed_out \/ Q r m'.
Proof.
  intros Hbody. revert m. induction fuel as [|fuel IH]; intros m Hrun.
  - discriminate.
  - cbn [handshake_loop] in Hrun. unfold bind at 1 in Hrun.
    unfold lift_world in Hrun.
    destruct (millis (world m)) as [now w1].
    destruct (u32 (now - start) <? timeout); cbn [negb] in Hrun.
    + unfold bind at 1 in Hrun.
      destruct (body (mk_machine (self m) w1 (trace m))) as [[a|] m2] eqn:Hb.
      * unfold ret in Hrun. injection Hrun as <- <-. right.
        exact (Hbody _ _ _ Hb).
      * unfold bind at 1, modify_self in Hrun. exact (IH _ Hrun).
    + unfold ret in Hrun. injection Hrun as <- _. now left.
Qed.

Lemma checked_frame_of_length magic_value this len :
  0 <= len < 2 ^ 32 -> len <= _buff_len this ->
  packet_ok magic_value (_buff this) (Z.to_nat len) = true ->
  checked_frame magic_value this (size_t (len - 4)).
Proof.
  intros Hlen Hfit Hok. unfold checked_frame, size_t.
  destruct (Z_lt_le_dec len 4) as [Hsmall|Hbig].
  - right. rewrite <- (Z.mod_add (len - 4) 1 (2 ^ 32)) by lia.
    rewrite Z.mod_small; lia.
  - left. rewrite Z.mod_small by lia.
    replace (len - 4 + 4) with len by lia. repeat split; [lia | lia | exact Hok].
Qed.

Lemma get_result_attempt_frame (m1 : machine W) a (m2 : machine W) :
  get_result_attempt m1 = (Return a, m2) ->
  match a with
  | Some size => checked_frame _RESULT_DATA_PACKET_MAGIC (self m2) size
  | None => True
  end.
Proof.
  unfold get_result_attempt, _get_packet, io_get, io_put, io_flush, bind, ret,
    get_self, modify_self.
  cbn [self world trace].
  destruct (put_bytes _ _ _ _ _) as [okp w1].
  destruct (get_bytes _ _ _ _ _) as [[ok hdr] w2]. cbn [self world trace].
  destruct ok; cbn [negb]; [|discriminate].
  destruct (packet_ok _ hdr _); [|discriminate].
  set (len := u32 (unpack_unsigned_long (drop 2 hdr) + 4)).
  destruct (Z.ltb_spec (_buff_len (self m1)) len) as [Hlong|Hfit].
  - intros Heq. injection Heq as <- _. exact I.
  - cbn [self world trace].
    destruct (put_bytes _ _ _ _ _) as [okp2 w3].
    destruct (get_bytes _ _ _ _ _) as [[ok2 buff] w4]. cbn [self world trace].
    destruct ok2; cbn [negb]; [|discriminate].
    destruct (packet_ok _ buff _) eqn:Hok; [|discriminate].
    intros Heq. injection Heq as <- <-. cbn [self].
    apply checked_frame_of_length; cbn; [|exact Hfit|exact Hok].
    unfold len, u32. apply Z.mod_pos_bound. lia.
Qed.

Lemma get_command_attempt_frame (m1 : machine W) a (m2 : machine W) :
  get_command_attempt m1 = (Return a, m2) ->
  match a with
  | Some (command, size) =>
      0 <= command < 2 ^ 32
      /\ checked_frame _COMMAND_DATA_PACKET_MAGIC (self m2) size
  | None => True
  end.
Proof.
  unfold get_command_attempt, _get_packet, io_get, io_put, io_flush, bind, ret,
    get_self, modify_self.
  cbn [self world trace].
  destruct (get_bytes _ _ _ _ _) as [[ok hdr] w2]. cbn [self world trace].
  destruct ok; cbn [negb]; [|discriminate].
  destruct (packet_ok _ hdr _); [|discriminate].
  set (len := u32 (unpack_unsigned_long (drop 6 hdr) + 4)).
  destruct (Z.ltb_spec (_buff_len (self m1)) len) as [Hlong|Hfit].
  - intros Heq. injection Heq as <- _. exact I.
  - cbn [self world trace].
    destruct (put_bytes _ _ _ _ _) as [okp2 w3].
    destruct (get_bytes _ _ _ _ _) as [[ok2 buff] w4]. cbn [self world trace].
    destruct ok2; cbn [negb]; [|discriminate].
    destruct (packet_ok _ buff _) eqn:Hok; [|discriminate].
    cbn [self world trace].
    destruct (put_bytes _ _ _ _ _) as [okp3 w5].
    intros Heq. injection Heq as <- <-. cbn [self].
    split; [apply unpack_range|].
    apply checked_frame_of_length; cbn; [|exact Hfit|exact Hok].
    unfold len, u32. apply Z.mod_pos_bound. lia.
Qed.

End HandshakeResults.

Section CheckedFrames.
Context {W : Type} `{Transport W} `{Arduino W}.

Lemma get_result_frame fuel timeout (m m' : machine W) size :
  __get_result fuel timeout m = (Some (Some size), m') ->
  checked_frame _RESULT_DATA_PACKET_MAGIC (self m') size.
Proof.
  unfold __get_result, get_result_loop, bind, modify_self, lift_world.
  cbn [self world trace]. destruct (millis (world m)) as [start w1].
  intros Hrun.
  destruct (handshake_loop_result
              (fun a m2 => match a with
                           | Some size =>
                               checked_frame _RESULT_DATA_PACKET_MAGIC (self m2) size
                           | None => True
                           end) _ _ _ _ _ _ _ _ _
              get_result_attempt_frame Hrun) as [Hnone|Hframe];
    [discriminate | exact Hframe].
Qed.

(** X7.  The result a zero-copy call points at lies in a frame that fits the
    scratch buffer and passed the magic and CRC checks, unless the
    announced length wrapped around. *)
Theorem call_no_copy_result_is_a_checked_frame (fuel : nat)
    (char_signed : bool) (name : list Z) (command_data : list Z)
    (command_data_len send_timeout recv_timeout : Z) (m m' : machine W)
    (size : Z) :
  call_no_copy fuel char_signed name command_data command_data_len
    send_timeout recv_timeout m = (Some (Some size), m') ->
  checked_frame _RESULT_DATA_PACKET_MAGIC (self m') size
  /\ call_no_copy_no_args fuel char_signed name send_timeout recv_timeout
     = call_no_copy fuel char_signed name [] 0 send_timeout recv_timeout.
Proof.
  intros Hcall. split; [|reflexivity].
  unfold call_no_copy in Hcall.
  destruct (_hash char_signed name) as [h|]; [|discriminate].
  unfold exchange in Hcall. unfold bind at 1 in Hcall.
  destruct (__put_command fuel h command_data command_data_len send_timeout m)
    as [[[|]|] m1]; [|discriminate|discriminate].
  exact (get_result_frame _ _ _ _ _ Hcall).
Qed.

(** X8.  The command the slave hands to a callback comes out of a frame that
    fits the scratch buffer and passed the magic and CRC checks, unless the
    announced length wrapped around. *)
Theorem get_command_result_is_a_checked_frame (fuel : nat) (timeout : Z)
    (m m' : machine W) (command size : Z) :
  __get_command fuel timeout m = (Some (Some (command, size)), m') ->
  0 <= command < 2 ^ 32
  /\ checked_frame _COMMAND_DATA_PACKET_MAGIC (self m') size.
Proof.
  unfold __get_command, get_command_loop, bind, modify_self, lift_world.
  cbn [self world trace]. destruct (millis (world m)) as [start w1].
  intros Hrun.
  destruct (handshake_loop_result
              (fun a m2 => match a with
                           | Some (command, size) =>
                               0 <= command < 2 ^ 32
                               /\ checked_frame _COMMAND_DATA_PACKET_MAGIC
                                    (self m2) size
                           | None => True
                           end) _ _ _ _ _ _ _ _ _
              get_command_attempt_frame Hrun) as [Hnone|Hframe];
    [discriminate | exact Hframe].
Qed.

End CheckedFrames.

Lemma call_no_copy_result_is_a_checked_frame_witness :
  checked_frame _RESULT_DATA_PACKET_MAGIC
    (self (snd (call_no_copy 10 false [97; 0] [1; 2; 3] 3 100 100
                  empty_result_start))) 0
  /\ call_no_copy_no_args (W := script) 10 false [97; 0] 100 100
     = call_no_copy 10 false [97; 0] [] 0 100 100.
Proof.
  apply (call_no_copy_result_is_a_checked_frame 10 false [97; 0] [1; 2; 3] 3
           100 100 empty_result_start).
  vm_compute. reflexivity.
Defined.

Lemma get_command_result_is_a_checked_frame_witness :
  0 <= 5 < 2 ^ 32
  /\ checked_frame _COMMAND_DATA_PACKET_MAGIC
       (self (snd (__get_command 10 100 command_start))) 2.
Proof.
  apply (get_command_result_is_a_checked_frame 10 100 command_start).
  vm_compute. reflexivity.
Defined.

(** *** A receive line that repeats itself *)

Lemma writer_rounds_reach {W : Type} `{Transport W} n
    (callback : W -> list Z * Z * W) write_timeout (m0 : machine W) ws m ws' m' :
  writer_reach callback write_timeout m0 AtLoopTop ws m ->
  writer_rounds n callback write_timeout ws m = Some (ws', m') ->
  writer_reach callback write_timeout m0 AtLoopTop ws' m'.
Proof.
  revert ws m. induction n as [|n IH]; intros ws m Hreach Hrun.
  - injection Hrun as <- <-. exact Hreach.
  - cbn [writer_rounds] in Hrun.
    destruct (writer_ack_phase ws m) as [[go1 ws1] m1] eqn:Hack.
    destruct go1; [|discriminate]. cbn [negb] in Hrun.
    destruct (writer_send_phase callback write_timeout ws1 m1)
      as [[go2 ws2] m2] eqn:Hsend.
    destruct go2; [|discriminate]. cbn [negb] in Hrun.
    apply (IH ws2 m2); [|exact Hrun].
    apply (reach_send _ _ _ _ _ true _ _ (reach_ack _ _ _ _ _ true _ _ Hreach Hack)
             Hsend).
Qed.

Lemma writer_after_rounds_reach {W : Type} `{Transport W} n
    (callback : W -> list Z * Z * W) write_timeout (m0 : machine W) ws m :
  writer_after_rounds n callback write_timeout m0 = Some (ws, m) ->
  writer_reach callback write_timeout m0 AtLoopTop ws m.
Proof.
  unfold writer_after_rounds.
  destruct (stream_writer_setup m0) as [[ws0|] m1] eqn:Hsetup; [|discriminate].
  apply writer_rounds_reach. now apply reach_setup.
Qed.

Lemma last_lfsr_seq s n :
  last (lfsr_seq s (S n)) = Some (Nat.iter n lfsr_next s).
Proof. rewrite lfsr_seq_snoc. apply last_snoc. Qed.

(** X9.  Once the stream writer has accepted an acknowledgement, receiving
    the same byte again as the next acknowledgement ends the stream. *)
Theorem stream_writer_rejects_a_repeated_acknowledgement
    {W : Type} `{Transport W} (callback : W -> list Z * Z * W)
    (write_timeout : Z) (m0 : machine W) (ws : writer_state) (m : machine W)
    (packet : list Z) (w1 : W) :
  writer_reach callback write_timeout m0 AtLoopTop ws m ->
  w_credits ws <= w_queue_depth ws / 2 ->
  get_bytes (self m) (w_packet ws) 1 1000 (world m) = (true, packet, w1) ->
  last (w_acks ws) = Some (byte_at packet 0) ->
  fst (fst (writer_ack_phase ws m)) = false.
Proof.
  intros Hreach Hcredits Hget Hlast.
  destruct (writer_reach_inv _ _ _ _ _ _ Hreach)
    as (_ & _ & _ & _ & _ & _ & Hacks & Hrx).
  destruct (length (w_acks ws)) as [|n] eqn:Hn.
  { rewrite Hacks in Hlast. discriminate. }
  rewrite Hacks, last_lfsr_seq in Hlast. injection Hlast as Hbyte.
  rewrite Nat.iter_succ in Hrx.
  pose proof (lfsr_next_moves _ (lfsr_iter_range n)) as (_ & Hmoves).
  run_writer.
  destruct (Z.leb_spec (w_credits ws) (w_queue_depth ws / 2)); [|lia].
  rewrite Hget. cbn.
  destruct (Z.eqb_spec (byte_at packet 0) (w_rx_lfsr ws)) as [Heq|Hne];
    [|reflexivity].
  congruence.
Qed.

Lemma stream_writer_rejects_a_repeated_acknowledgement_witness :
  fst (fst (writer_ack_phase repeated_ack_locals repeated_ack_machine)) = false.
Proof.
  apply (stream_writer_rejects_a_repeated_acknowledgement
           script_writer_callback 100 repeated_ack_start repeated_ack_locals
           repeated_ack_machine [255; 84; 1; 0; 0; 0; 59; 81]
           (mk_script 0 [] [[4]] [])).
  - apply (writer_after_rounds_reach 2). vm_compute. reflexivity.
  - vm_compute. discriminate.
  - vm_compute. reflexivity.
  - vm_compute. reflexivity.
Defined.

(** *** The bytes of a 32-bit value, and back *)

Lemma unpack_bytes_of_u32 x rest :
  unpack_unsigned_long (bytes_of_u32 x ++ rest) = u32 x.
Proof.
  unfold unpack_unsigned_long, bytes_of_u32, byte_at, u8. cbn.
  change 255 with (Z.ones 8).
  rewrite !Z.land_ones, !Z.shiftr_div_pow2 by lia.
  change (2 ^ 8) with 256. change (2 ^ 16) with (256 * 256).
  change (2 ^ 24) with (256 * 256 * 256).
  rewrite <- !Z.div_div by lia.
  set (q1 := x / 256). set (q2 := q1 / 256). set (q3 := q2 / 256).
  pose proof (Z.div_mod x 256 ltac:(lia)) as E0.
  pose proof (Z.div_mod q1 256 ltac:(lia)) as E1.
  pose proof (Z.div_mod q2 256 ltac:(lia)) as E2.
  pose proof (Z.div_mod q3 256 ltac:(lia)) as E3.
  pose proof (Z.mod_pos_bound x 256 ltac:(lia)) as B0.
  pose proof (Z.mod_pos_bound q1 256 ltac:(lia)) as B1.
  pose proof (Z.mod_pos_bound q2 256 ltac:(lia)) as B2.
  pose proof (Z.mod_pos_bound q3 256 ltac:(lia)) as B3.
  fold q1 in E0. fold q2 in E1. fold q3 in E2.
  unfold u32. change (2 ^ 32) with 4294967296.
  rewrite (Z.mod_small (_ + _)) by lia.
  apply (Z.mod_unique_pos _ _ (q3 / 256)); lia.
Qed.

Lemma bytes_of_u32_length x : length (bytes_of_u32 x) = 4%nat.
Proof. reflexivity. Qed.

Lemma frame_drop_2 magic_value payload :
  drop 2 (frame magic_value payload)
  = payload ++ drop (length payload + 2) (frame magic_value payload).
Proof.
  rewrite frame_parts. cbn [drop].
  replace (length payload + 2)%nat with (S (S (length payload))) by lia.
  cbn [drop]. rewrite drop_app_length. reflexivity.
Qed.

(** *** The frames of one side, decoded by the other *)

Lemma magic_ranges :
  0 <= _COMMAND_HEADER_PACKET_MAGIC < 65536
  /\ 0 <= _COMMAND_DATA_PACKET_MAGIC < 65536
  /\ 0 <= _RESULT_HEADER_PACKET_MAGIC < 65536
  /\ 0 <= _RESULT_DATA_PACKET_MAGIC < 65536.
Proof. cbv. repeat split; discriminate. Qed.

Lemma packet_ok_exact_frame magic_value payload size :
  0 <= magic_value < 65536 -> size = (length payload + 4)%nat ->
  packet_ok magic_value (frame magic_value payload) size = true.
Proof.
  intros Hm ->. rewrite <- (app_nil_r (frame magic_value payload)).
  now apply packet_ok_frame.
Qed.

Section Decoding.
Context {W : Type} `{Transport W} `{Arduino W}.

Lemma get_command_attempt_decodes (m : machine W)
    (command size : Z) (payload rest : list Z) (w1 w2 : W) :
  0 <= size -> size + 4 < 2 ^ 32 ->
  length payload = Z.to_nat size ->
  size + 4 <= _buff_len (self m) ->
  get_bytes (self m) (replicate 12 0) 12 (_get_short_timeout (self m))
    (_flush (self m) (world m))
  = (true, frame _COMMAND_HEADER_PACKET_MAGIC
             (bytes_of_u32 command ++ bytes_of_u32 size), w1) ->
  get_bytes (self m) (_buff (self m)) (size + 4) (_get_long_timeout (self m))
    (snd (put_bytes (self m) __out_command_header_ack 4
            (_put_short_timeout (self m)) w1))
  = (true, frame _COMMAND_DATA_PACKET_MAGIC payload ++ rest, w2) ->
  fst (get_command_attempt m) = Return (Some (u32 command, size))
  /\ _buff (self (snd (get_command_attempt m)))
     = frame _COMMAND_DATA_PACKET_MAGIC payload ++ rest
  /\ take (Z.to_nat size) (drop 2 (_buff (self (snd (get_command_attempt m)))))
     = payload.
Proof.
  intros Hsize Hsmall Hlen Hfit Hhdr Hdata.
  destruct magic_ranges as (Hm1 & Hm2 & _ & _).
  assert (Hrun : get_command_attempt m
                 = (Return (Some (u32 command, size)),
                    snd (get_command_attempt m))
                   /\ _buff (self (snd (get_command_attempt m)))
                      = frame _COMMAND_DATA_PACKET_MAGIC payload ++ rest).
  { unfold get_command_attempt, _get_packet, io_get, io_put, io_flush, bind,
      ret, get_self, modify_self.
    cbn [self world trace].
    change (_zero (replicate sizeof_command_header 0) sizeof_command_header)
      with (replicate 12 0).
    rewrite Hhdr. cbn [negb self world trace].
    rewrite packet_ok_exact_frame by (exact Hm1 || reflexivity).
    rewrite frame_drop_2, <- app_assoc, unpack_bytes_of_u32.
    replace (drop 6 (frame _COMMAND_HEADER_PACKET_MAGIC
                       (bytes_of_u32 command ++ bytes_of_u32 size)))
      with (bytes_of_u32 size
            ++ drop 10 (frame _COMMAND_HEADER_PACKET_MAGIC
                          (bytes_of_u32 command ++ bytes_of_u32 size)))
      by reflexivity.
    rewrite unpack_bytes_of_u32, (u32_small size) by lia.
    rewrite (u32_small (size + 4)) by lia.
    destruct (Z.ltb_spec (_buff_len (self m)) (size + 4)) as [|_]; [lia|].
    cbn [self world trace].
    destruct (put_bytes (self m) __out_command_header_ack 4
                (_put_short_timeout (self m)) w1) as [okp w3].
    cbn [snd] in Hdata. cbn [self world trace]. rewrite Hdata.
    cbn [negb self world trace].
    replace (Z.to_nat (size + 4)) with (length payload + 4)%nat by lia.
    rewrite packet_ok_frame by exact Hm2. cbn [self world trace].
    destruct (put_bytes _ _ _ _ _) as [okp2 w4]. cbn [snd self].
    rewrite (size_t_small (size + 4 - 4)) by lia.
    replace (size + 4 - 4) with size by lia. split; reflexivity. }
  destruct Hrun as (Hrun & Hbuff). rewrite Hrun at 1. cbn [fst].
  repeat split; [exact Hbuff|].
  rewrite Hbuff, frame_parts. cbn [app drop]. rewrite <- Hlen.
  rewrite <- app_assoc. apply take_app_length.
Qed.

Lemma get_result_attempt_decodes (m : machine W)
    (size : Z) (payload rest : list Z) (w1 w2 : W) :
  0 <= size -> size + 4 < 2 ^ 32 ->
  length payload = Z.to_nat size ->
  size + 4 <= _buff_len (self m) ->
  get_bytes (self m) (replicate 8 0) 8 (_get_short_timeout (self m))
    (snd (put_bytes (self m) __out_result_header_ack 4
            (_put_short_timeout (self m)) (_flush (self m) (world m))))
  = (true, frame _RESULT_HEADER_PACKET_MAGIC (bytes_of_u32 size), w1) ->
  get_bytes (self m) (_buff (self m)) (size + 4) (_get_long_timeout (self m))
    (snd (put_bytes (self m) __out_result_data_ack 4
            (_put_short_timeout (self m)) w1))
  = (true, frame _RESULT_DATA_PACKET_MAGIC payload ++ rest, w2) ->
  fst (get_result_attempt m) = Return (Some size)
  /\ _buff (self (snd (get_result_attempt m)))
     = frame _RESULT_DATA_PACKET_MAGIC payload ++ rest
  /\ take (Z.to_nat size) (drop 2 (_buff (self (snd (get_result_attempt m)))))
     = payload.
Proof.
  intros Hsize Hsmall Hlen Hfit Hhdr Hdata.
  destruct magic_ranges as (_ & _ & Hm1 & Hm2).
  assert (Hrun : get_result_attempt m
                 = (Return (Some size), snd (get_result_attempt m))
                   /\ _buff (self (snd (get_result_attempt m)))
                      = frame _RESULT_DATA_PACKET_MAGIC payload ++ rest).
  { unfold get_result_attempt, _get_packet, io_get, io_put, io_flush, bind,
      ret, get_self, modify_self.
    cbn [self world trace].
    change (_zero (replicate sizeof_result_header 0) sizeof_result_header)
      with (replicate 8 0).
    destruct (put_bytes (self m) __out_result_header_ack 4
                (_put_short_timeout (self m)) (_flush (self m) (world m)))
      as [okp w0].
    cbn [snd] in Hhdr. cbn [self world trace]. rewrite Hhdr.
    cbn [negb self world trace].
    rewrite packet_ok_exact_frame by (exact Hm1 || reflexivity).
    rewrite frame_drop_2, unpack_bytes_of_u32, (u32_small size) by lia.
    rewrite (u32_small (size + 4)) by lia.
    destruct (Z.ltb_spec (_buff_len (self m)) (size + 4)) as [|_]; [lia|].
    cbn [self world trace].
    destruct (put_bytes (self m) __out_result_data_ack 4
                (_put_short_timeout (self m)) w1) as [okp2 w3].
    cbn [snd] in Hdata. cbn [self world trace]. rewrite Hdata.
    cbn [negb self world trace].
    replace (Z.to_nat (size + 4)) with (length payload + 4)%nat by lia.
    rewrite packet_ok_frame by exact Hm2. cbn [snd self].
    rewrite (size_t_small (size + 4 - 4)) by lia.
    replace (size + 4 - 4) with size by lia. split; reflexivity. }
  destruct Hrun as (Hrun & Hbuff). rewrite Hrun at 1. cbn [fst].
  repeat split; [exact Hbuff|].
  rewrite Hbuff, frame_parts. cbn [app drop]. rewrite <- Hlen.
  rewrite <- app_assoc. apply take_app_length.
Qed.

(** What [_set_packet] leaves in a buffer of exactly the frame's size. *)
Lemma set_packet_exact magic_value data size :
  (size <= length data)%nat ->
  _set_packet (replicate (size + 4) 0) magic_value data size
  = frame magic_value (take size data).
Proof.
  intros Hdata. rewrite set_packet_frame by (rewrite ?length_replicate; lia).
  rewrite drop_ge by (rewrite length_replicate; lia). apply app_nil_r.
Qed.

(** X10.  A slave that receives the twelve-byte header and the payload frame
    that [__put_command] builds for [command] and the first [size] bytes of
    [data] returns this command and this size, with these bytes at
    [_buff + 2]. *)
Theorem slave_decodes_the_command_frames (m : machine W)
    (command size : Z) (data master_buff rest : list Z) (w1 w2 : W) :
  0 <= size -> size + 4 < 2 ^ 32 ->
  (Z.to_nat size <= length data)%nat ->
  (Z.to_nat size + 4 <= length master_buff)%nat ->
  size + 4 <= _buff_len (self m) ->
  get_bytes (self m) (replicate 12 0) 12 (_get_short_timeout (self m))
    (_flush (self m) (world m))
  = (true, _set_packet (replicate 12 0) _COMMAND_HEADER_PACKET_MAGIC
             (bytes_of_u32 command ++ bytes_of_u32 size) 8, w1) ->
  get_bytes (self m) (_buff (self m)) (size + 4) (_get_long_timeout (self m))
    (snd (put_bytes (self m) __out_command_header_ack 4
            (_put_short_timeout (self m)) w1))
  = (true, take (Z.to_nat size + 4)
             (_set_packet master_buff _COMMAND_DATA_PACKET_MAGIC data
                (Z.to_nat size)) ++ rest, w2) ->
  fst (get_command_attempt m) = Return (Some (u32 command, size))
  /\ take (Z.to_nat size) (drop 2 (_buff (self (snd (get_command_attempt m)))))
     = take (Z.to_nat size) data.
Proof.
  intros Hsize Hsmall Hdata Hbuff Hfit Hhdr Hpay.
  rewrite (set_packet_exact _ _ 8) in Hhdr by (cbn; lia).
  rewrite sent_frame in Hpay by lia.
  destruct (get_command_attempt_decodes m command size
              (take (Z.to_nat size) data) rest w1 w2) as (Hret & _ & Hgot);
    try assumption; [|now split].
  rewrite length_take. lia.
Qed.

(** X11.  A master that receives the eight-byte header and the payload frame
    that [__put_result] builds for the first [size] bytes of [data] returns
    this size, with these bytes at [_buff + 2]. *)
Theorem master_decodes_the_result_frames (m : machine W)
    (size : Z) (data slave_buff rest : list Z) (w1 w2 : W) :
  0 <= size -> size + 4 < 2 ^ 32 ->
  (Z.to_nat size <= length data)%nat ->
  (Z.to_nat size + 4 <= length slave_buff)%nat ->
  size + 4 <= _buff_len (self m) ->
  get_bytes (self m) (replicate 8 0) 8 (_get_short_timeout (self m))
    (snd (put_bytes (self m) __out_result_header_ack 4
            (_put_short_timeout (self m)) (_flush (self m) (world m))))
  = (true, _set_packet (replicate 8 0) _RESULT_HEADER_PACKET_MAGIC
             (bytes_of_u32 size) 4, w1) ->
  get_bytes (self m) (_buff (self m)) (size + 4) (_get_long_timeout (self m))
    (snd (put_bytes (self m) __out_result_data_ack 4
            (_put_short_timeout (self m)) w1))
  = (true, take (Z.to_nat size + 4)
             (_set_packet slave_buff _RESULT_DATA_PACKET_MAGIC data
                (Z.to_nat size)) ++ rest, w2) ->
  fst (get_result_attempt m) = Return (Some size)
  /\ take (Z.to_nat size) (drop 2 (_buff (self (snd (get_result_attempt m)))))
     = take (Z.to_nat size) data.
Proof.
  intros Hsize Hsmall Hdata Hbuff Hfit Hhdr Hpay.
  rewrite (set_packet_exact _ _ 4) in Hhdr by (cbn; lia).
  rewrite sent_frame in Hpay by lia.
  destruct (get_result_attempt_decodes m size
              (take (Z.to_nat size) data) rest w1 w2) as (Hret & _ & Hgot);
    try assumption; [|now split].
  rewrite length_take. lia.
Qed.

End Decoding.

Lemma slave_decodes_the_command_frames_witness :
  fst (get_command_attempt command_start) = Return (Some (u32 5, 2))
  /\ take (Z.to_nat 2)
       (drop 2 (_buff (self (snd (get_command_attempt command_start)))))
     = take (Z.to_nat 2) [1; 2].
Proof.
  apply (slave_decodes_the_command_frames command_start 5 2 [1; 2]
           (replicate 16 0) (replicate 10 0)
           (mk_script 0 [frame 0x8ADE [1; 2]] [] [])
           (mk_script 0 [] [] []));
    try (vm_compute; reflexivity); try (cbn; lia); vm_compute; discriminate.
Defined.

Lemma master_decodes_the_result_frames_witness :
  fst (get_result_attempt result_start) = Return (Some 2)
  /\ take (Z.to_nat 2)
       (drop 2 (_buff (self (snd (get_result_attempt result_start)))))
     = take (Z.to_nat 2) [7; 8].
Proof.
  apply (master_decodes_the_result_frames result_start 2 [7; 8]
           (replicate 16 0) (replicate 10 0)
           (mk_script 0 [frame 0xF1A5 [7; 8]] [] [])
           (mk_script 0 [] [] []));
    try (vm_compute; reflexivity); try (cbn; lia); vm_compute; discriminate.
Defined.

(** *** The stream headers *)

Lemma stream_packet_accepted magic_value packet :
  packet_ok magic_value packet 8 = true ->
  stream_packet_rejected magic_value packet = false.
Proof.
  unfold packet_ok, stream_packet_rejected. cbn [Nat.sub].
  intros (-> & ->)%andb_true_iff. reflexivity.
Qed.

Lemma stream_header magic_value packet x :
  0 <= magic_value < 65536 -> length packet = 8%nat ->
  stream_packet_rejected magic_value
    (_set_packet packet magic_value (bytes_of_u32 x) 4) = false
  /\ unpack_unsigned_long
       (drop 2 (_set_packet packet magic_value (bytes_of_u32 x) 4)) = u32 x.
Proof.
  intros Hm Hlen.
  rewrite set_packet_frame by (rewrite ?Hlen; cbn; lia).
  rewrite (drop_ge packet) by lia. rewrite app_nil_r.
  change (take 4 (bytes_of_u32 x)) with (bytes_of_u32 x). split.
  - apply stream_packet_accepted. now apply packet_ok_exact_frame.
  - rewrite frame_drop_2. apply unpack_bytes_of_u32.
Qed.

Section StreamHeaders.
Context {W : Type} `{Transport W}.

(** X12.  A stream writer that receives the setup packet [stream_reader]
    builds for [queue_depth] starts with that depth, cut to 32 bits, held
    between 1 and [_stream_writer_queue_depth_max], as its credits. *)
Theorem stream_writer_takes_the_depth_of_the_reader (m : machine W)
    (queue_depth : Z) (w1 : W) :
  get_bytes (self m) (replicate 8 0) 8 1000 (world m)
  = (true, _set_packet (replicate 8 0) 0xEDF6 (bytes_of_u32 queue_depth) 4,
     w1) ->
  fst (stream_writer_setup m)
  = Some (mk_writer
            (_set_packet (replicate 8 0) 0xEDF6 (bytes_of_u32 queue_depth) 4)
            (Z.max (Z.min (u32 queue_depth)
                          (_stream_writer_queue_depth_max (self m))) 1)
            255
            (Z.max (Z.min (u32 queue_depth)
                          (_stream_writer_queue_depth_max (self m))) 1)
            0 []).
Proof.
  intros Hget.
  destruct (stream_header 0xEDF6 (replicate 8 0) queue_depth)
    as (Hpass & Hdepth); [lia | reflexivity |].
  unfold stream_writer_setup, _stream_get_bytes, io_get, bind, ret, get_self.
  rewrite Hget. cbn [negb]. rewrite Hpass. cbn [fst self].
  rewrite Hdepth. reflexivity.
Qed.

(** X13.  A stream reader that receives the header [stream_writer] builds for
    a payload of [out_data_len] bytes asks for that many bytes, cut to 32
    bits, when its buffer can take them; once it has them it hands them
    to the callback and sends the acknowledgement [tx_lfsr]. *)
Theorem stream_reader_takes_the_length_of_the_writer
    (callback : option (list Z -> Z -> W -> W)) (read_timeout : Z)
    (packet writer_packet : list Z) (tx_lfsr out_data_len : Z)
    (m : machine W) (w1 w2 : W) (buff : list Z) :
  length writer_packet = 8%nat ->
  u32 out_data_len <= _buff_len (self m) ->
  get_bytes (self m) packet 8 1000 (world m)
  = (true, _set_packet writer_packet 0x542E (bytes_of_u32 out_data_len) 4,
     w1) ->
  get_bytes (self m) (_buff (self m)) (u32 out_data_len) read_timeout w1
  = (true, buff, w2) ->
  exists (ok : bool) (w3 : W),
    stream_reader_iter callback read_timeout packet tx_lfsr m
    = (if ok
       then Some (_set_packet writer_packet 0x542E
                    (bytes_of_u32 out_data_len) 4, lfsr_next tx_lfsr)
       else None,
       mk_machine (set_buff buff (self m)) w3
         (EvPut BufLfsr [tx_lfsr] 1000 ok
          :: match callback with
             | Some _ => [EvReaderCallback buff (u32 out_data_len)]
             | None => []
             end
          ++ EvGet BufScratch (u32 out_data_len) read_timeout true
          :: EvGet BufPacket 8 1000 true :: trace m)).
Proof.
  intros Hlen Hfit Hhdr Hpay.
  destruct (stream_header 0x542E writer_packet out_data_len)
    as (Hpass & Hsize); [lia | exact Hlen |].
  unfold stream_reader_iter, _stream_get_bytes, _stream_put_bytes, io_get,
    io_put, bind, ret, get_self, modify_self, log, lift_world.
  rewrite Hhdr. cbn [negb]. rewrite Hpass, Hsize. cbn [self world trace].
  destruct (Z.ltb_spec (_buff_len (self m)) (u32 out_data_len)) as [|_]; [lia|].
  cbn [self world trace]. rewrite Hpay. cbn [negb self world trace].
  destruct callback as [cb|]; cbn [negb self world trace app];
    match goal with
    | |- context [put_bytes ?a ?b ?c ?d ?e] =>
        destruct (put_bytes a b c d e) as [ok w3]
    end; exists ok, w3; destruct ok; reflexivity.
Qed.

End StreamHeaders.

Lemma stream_writer_takes_the_depth_of_the_reader_witness :
  fst (stream_writer_setup half_duplex_start)
  = Some (mk_writer (_set_packet (replicate 8 0) 0xEDF6 (bytes_of_u32 8) 4)
            (Z.max (Z.min (u32 8)
                      (_stream_writer_queue_depth_max (self half_duplex_start)))
               1)
            255
            (Z.max (Z.min (u32 8)
                      (_stream_writer_queue_depth_max (self half_duplex_start)))
               1)
            0 []).
Proof.
  apply (stream_writer_takes_the_depth_of_the_reader half_duplex_start 8
           (mk_script 0 [[255]; [0]] [[1; 2]; [3]; [4]] [])).
  vm_compute. reflexivity.
Defined.

Lemma stream_reader_takes_the_length_of_the_writer_witness :
  exists (ok : bool) (w3 : script),
    stream_reader_iter None 100 (replicate 8 0) 255 one_frame_start
    = (if ok
       then Some (_set_packet (replicate 8 0) 0x542E (bytes_of_u32 2) 4,
                  lfsr_next 255)
       else None,
       mk_machine (set_buff ([7; 8] ++ replicate 14 0) (self one_frame_start))
         w3
         (EvPut BufLfsr [255] 1000 ok
          :: [] ++ EvGet BufScratch (u32 2) 100 true
          :: EvGet BufPacket 8 1000 true :: trace one_frame_start)).
Proof.
  apply (stream_reader_takes_the_length_of_the_writer None 100
           (replicate 8 0) (replicate 8 0) 255 2 one_frame_start
           (mk_script 0 [[7; 8]] [] []) (mk_script 0 [] [] [])
           ([7; 8] ++ replicate 14 0));
    try (vm_compute; reflexivity); vm_compute; discriminate.
Defined.

(** *** An announced length that the buffer cannot take *)

Section Oversized.
Context {W : Type} `{Transport W} `{Arduino W}.

(** X14.  An attempt of [__get_result] that has received a valid result
    header ends the loop with [false] at once, having flushed, asked for
    the header and received it and nothing else, exactly when the guard
    [_buff_len < size + 4] holds for the announced [size], the sum taken
    in 32 bits as the code does.  An announced size of [2^32 - 4] or more
    wraps the sum to 0..3 and passes the guard of any buffer that long. *)
Theorem get_result_gives_up_on_an_oversized_result (m : machine W)
    (hdr : list Z) (w1 : W) :
  get_bytes (self m) (replicate 8 0) 8 (_get_short_timeout (self m))
    (snd (put_bytes (self m) __out_result_header_ack 4
            (_put_short_timeout (self m)) (_flush (self m) (world m))))
  = (true, hdr, w1) ->
  packet_ok _RESULT_HEADER_PACKET_MAGIC hdr 8 = true ->
  _buff_len (self m) < u32 (unpack_unsigned_long (drop 2 hdr) + 4)
  <-> get_result_attempt m
      = (Return None,
         mk_machine (self m) w1
           (EvGet BufInResultHeader 8 (_get_short_timeout (self m)) true
            :: EvPut BufOutResultHeaderAck __out_result_header_ack
                 (_put_short_timeout (self m))
                 (fst (put_bytes (self m) __out_result_header_ack 4
                         (_put_short_timeout (self m))
                         (_flush (self m) (world m))))
            :: EvFlush :: trace m)).
Proof.
  intros Hget Hok.
  unfold get_result_attempt, _get_packet, io_get, io_put, io_flush, bind,
    ret, get_self, modify_self.
  cbn [self world trace].
  change (_zero (replicate sizeof_result_header 0) sizeof_result_header)
    with (replicate 8 0).
  destruct (put_bytes (self m) __out_result_header_ack 4
              (_put_short_timeout (self m)) (_flush (self m) (world m)))
    as [okp w0].
  cbn [fst snd] in Hget |- *. cbn [self world trace]. rewrite Hget.
  cbn [negb self world trace]. change (Z.to_nat 8) with 8%nat. rewrite Hok.
  destruct (Z.ltb_spec (_buff_len (self m))
              (u32 (unpack_unsigned_long (drop 2 hdr) + 4))) as [Hlong|Hfits].
  - split; [reflexivity|]. intros _. exact Hlong.
  - split; [lia|]. intros Heq. exfalso. revert Heq. cbn [self world trace].
    destruct (put_bytes _ _ _ _ w1) as [okd wd].
    cbn [negb self world trace fst snd].
    destruct (get_bytes _ _ _ _ wd) as [[okg buffg] wg].
    cbn [negb self world trace fst snd].
    destruct okg; cbn [negb self world trace fst snd];
      [destruct (packet_ok _RESULT_DATA_PACKET_MAGIC _ _)|];
      intros Heq;
      apply (f_equal (fun p => length (trace (snd p)))) in Heq;
      cbn [length trace snd] in Heq; lia.
Qed.

(** X15.  An attempt of [__get_command] that has received a valid command
    header ends the loop with [false] at once, having flushed and received
    the header and sent no acknowledgement, exactly when the guard
    [_buff_len < size + 4] holds for the announced [size], the sum taken
    in 32 bits as the code does.  An announced size of [2^32 - 4] or more
    wraps the sum to 0..3 and passes the guard of any buffer that long. *)
Theorem get_command_gives_up_on_an_oversized_command (m : machine W)
    (hdr : list Z) (w1 : W) :
  get_bytes (self m) (replicate 12 0) 12 (_get_short_timeout (self m))
    (_flush (self m) (world m))
  = (true, hdr, w1) ->
  packet_ok _COMMAND_HEADER_PACKET_MAGIC hdr 12 = true ->
  _buff_len (self m) < u32 (unpack_unsigned_long (drop 6 hdr) + 4)
  <-> get_command_attempt m
      = (Return None,
         mk_machine (self m) w1
           (EvGet BufInCommandHeader 12 (_get_short_timeout (self m)) true
            :: EvFlush :: trace m)).
Proof.
  intros Hget Hok.
  unfold get_command_attempt, _get_packet, io_get, io_put, io_flush, bind,
    ret, get_self, modify_self.
  cbn [self world trace].
  change (_zero (replicate sizeof_command_header 0) sizeof_command_header)
    with (replicate 12 0).
  rewrite Hget.
  cbn [negb self world trace]. change (Z.to_nat 12) with 12%nat. rewrite Hok.
  destruct (Z.ltb_spec (_buff_len (self m))
              (u32 (unpack_unsigned_long (drop 6 hdr) + 4))) as [Hlong|Hfits].
  - split; [reflexivity|]. intros _. exact Hlong.
  - split; [lia|]. intros Heq. exfalso. revert Heq. cbn [self world trace].
    destruct (put_bytes _ _ _ _ w1) as [okd wd].
    cbn [negb self world trace fst snd].
    destruct (get_bytes _ _ _ _ wd) as [[okg buffg] wg].
    cbn [negb self world trace fst snd].
    destruct okg; cbn [negb self world trace fst snd];
      [destruct (packet_ok _COMMAND_DATA_PACKET_MAGIC _ _);
       cbn [negb self world trace fst snd];
       [destruct (put_bytes _ _ _ _ wg) as [oka wa]|]|];
      intros Heq;
      apply (f_equal (fun p => length (trace (snd p)))) in Heq;
      cbn [length trace snd] in Heq; lia.
Qed.

End Oversized.

Lemma get_result_gives_up_on_an_oversized_result_witness :
  _buff_len (self oversized_result_start)
  < u32 (unpack_unsigned_long (drop 2 (frame 0x6CEB (bytes_of_u32 13))) + 4)
  <-> get_result_attempt oversized_result_start
      = (Return None,
         mk_machine (self oversized_result_start) (mk_script 0 [] [] [])
           (EvGet BufInResultHeader 8
              (_get_short_timeout (self oversized_result_start)) true
            :: EvPut BufOutResultHeaderAck __out_result_header_ack
                 (_put_short_timeout (self oversized_result_start))
                 (fst (put_bytes (self oversized_result_start)
                         __out_result_header_ack 4
                         (_put_short_timeout (self oversized_result_start))
                         (_flush (self oversized_result_start)
                            (world oversized_result_start))))
            :: EvFlush :: trace oversized_result_start)).
Proof.
  apply (get_result_gives_up_on_an_oversized_result oversized_result_start
           (frame 0x6CEB (bytes_of_u32 13)) (mk_script 0 [] [] []));
    vm_compute; reflexivity.
Defined.

Lemma get_command_gives_up_on_an_oversized_command_witness :
  _buff_len (self oversized_command_start)
  < u32 (unpack_unsigned_long
           (drop 6 (frame 0x1209 (bytes_of_u32 5 ++ bytes_of_u32 13))) + 4)
  <-> get_command_attempt oversized_command_start
      = (Return None,
         mk_machine (self oversized_command_start) (mk_script 0 [] [] [])
           (EvGet BufInCommandHeader 12
              (_get_short_timeout (self oversized_command_start)) true
            :: EvFlush :: trace oversized_command_start)).
Proof.
  apply (get_command_gives_up_on_an_oversized_command oversized_command_start
           (frame 0x1209 (bytes_of_u32 5 ++ bytes_of_u32 13))
           (mk_script 0 [] [] []));
    vm_compute; reflexivity.
Defined.

(** *** What a successful send has put on the wire *)

Section SuccessfulSends.
Context {W : Type} `{Transport W} `{Arduino W}.

(** [handshake_loop_result] with a property [Inv] of the machine that the
    clock readings and the retries keep. *)
Lemma handshake_loop_result_inv {R : Type} (Inv : machine W -> Prop)
    (Q : R -> machine W -> Prop) fuel next (body : M W (attempt R)) timed_out
    timeout start (m m' : machine W) r :
  (forall m1 a m2, Inv m1 -> body m1 = (Return a, m2) -> Q a m2) ->
  (forall m1 m2, Inv m1 -> body m1 = (Retry, m2) ->
     Inv (mk_machine (back_off next timeout (self m2)) (world m2) (trace m2))) ->
  (forall m1 w, Inv m1 -> Inv (mk_machine (self m1) w (trace m1))) ->
  Inv m ->
  handshake_loop fuel next body timed_out timeout start m = (Some r, m') ->
  r = timed_out \/ Q r m'.
Proof.
  intros Hreturn Hretry Hclock. revert m.
  induction fuel as [|fuel IH]; intros m Hinv Hrun.
  - discriminate.
  - cbn [handshake_loop] in Hrun. unfold bind at 1 in Hrun.
    unfold lift_world in Hrun.
    destruct (millis (world m)) as [now w1].
    specialize (Hclock m w1 Hinv).
    destruct (u32 (now - start) <? timeout); cbn [negb] in Hrun.
    + unfold bind at 1 in Hrun.
      destruct (body (mk_machine (self m) w1 (trace m))) as [[a|] m2] eqn:Hb.
      * unfold ret in Hrun. injection Hrun as <- <-. right.
        exact (Hreturn _ _ _ Hclock Hb).
      * unfold bind at 1, modify_self in Hrun.
        exact (IH _ (Hretry _ _ Hclock Hb) Hrun).
    + unfold ret in Hrun. injection Hrun as <- _. now left.
Qed.

(** X16.  When [__put_command] returns [true], its last attempt has flushed,
    sent the header frame that carries [command] and [size], received
    four bytes, sent the frame that carries the first [size] bytes of
    [data], and received four bytes, in this order and whatever
    [put_bytes] returned. *)
Theorem put_command_success_trace (fuel : nat) (command : Z) (data : list Z)
    (size timeout : Z) (m m' : machine W) :
  0 <= size -> size + 4 < 2 ^ 32 ->
  (Z.to_nat size <= length data)%nat ->
  (Z.to_nat size + 4 <= length (_buff (self m)))%nat ->
  __put_command fuel command data size timeout m = (Some true, m') ->
  exists t_put t_get ok1 ok2 earlier,
    trace m'
    = EvGet BufInCommandData 4 t_get true
      :: EvPut BufScratch
           (frame _COMMAND_DATA_PACKET_MAGIC (take (Z.to_nat size) data))
           (_put_long_timeout (self m)) ok2
      :: EvGet BufInCommandHeader 4 t_get true
      :: EvPut BufOutHeader
           (frame _COMMAND_HEADER_PACKET_MAGIC
              (bytes_of_u32 command ++ bytes_of_u32 size)) t_put ok1
      :: EvFlush :: earlier.
Proof.
  intros Hsize Hsmall Hdata Hbuff.
  unfold __put_command, put_command_loop, bind, get_self, modify_self,
    lift_world.
  cbn [self world trace].
  destruct (_buff_len (self m) <? size_t (size + 4)); [discriminate|].
  destruct (millis (world m)) as [start w1]. cbn [self world trace].
  intros Hrun.
  pose (sent := _set_packet (_buff (self m)) _COMMAND_DATA_PACKET_MAGIC data
                  (Z.to_nat size)).
  pose (out_header := _set_packet (replicate 12 0)
                        _COMMAND_HEADER_PACKET_MAGIC
                        (bytes_of_u32 command ++ bytes_of_u32 size) 8).
  assert (Hres : true = false \/
    exists t_put t_get ok1 ok2 earlier,
      trace m'
      = EvGet BufInCommandData 4 t_get true
        :: EvPut BufScratch (take (Z.to_nat (size_t (size + 4))) sent)
             (_put_long_timeout (self m)) ok2
        :: EvGet BufInCommandHeader 4 t_get true
        :: EvPut BufOutHeader (take 12 out_header) t_put ok1
        :: EvFlush :: earlier);
    [eapply (handshake_loop_result_inv
              (fun m1 => _buff (self m1) = sent
                         /\ _put_long_timeout (self m1)
                            = _put_long_timeout (self m))
              (fun (a : bool) m2 =>
                 exists t_put t_get ok1 ok2 earlier,
                   trace m2
                   = EvGet BufInCommandData 4 t_get true
                     :: EvPut BufScratch
                          (take (Z.to_nat (size_t (size + 4))) sent)
                          (_put_long_timeout (self m)) ok2
                     :: EvGet BufInCommandHeader 4 t_get true
                     :: EvPut BufOutHeader (take 12 out_header) t_put ok1
                     :: EvFlush :: earlier));
       [| | | |exact Hrun]
    |destruct Hres as [Hfalse|Htrace]].
  - intros m1 a m2 (Hb & Hl).
    unfold put_command_attempt, _get_packet, io_get, io_put, io_flush, bind,
      ret, get_self, modify_self.
    cbn [self world trace].
    destruct (put_bytes _ _ _ _ _) as [ok1 w2].
    destruct (get_bytes _ _ _ _ _) as [[g1 rx1] w3]. cbn [self world trace].
    destruct g1; cbn [negb]; [|discriminate].
    destruct (packet_ok _ rx1 _); [|discriminate]. cbn [self world trace].
    destruct (put_bytes _ _ _ _ _) as [ok2 w4].
    destruct (get_bytes _ _ _ _ _) as [[g2 rx2] w5]. cbn [self world trace].
    destruct g2; cbn [negb]; [|discriminate].
    destruct (packet_ok _ rx2 _); [|discriminate].
    intros Heq. injection Heq as _ <-. cbn [trace].
    rewrite Hb, Hl. now exists (_put_short_timeout (self m1)),
      (_get_short_timeout (self m1)), ok1, ok2, (trace m1).
  - intros m1 m2 (Hb & Hl).
    unfold put_command_attempt, _get_packet, io_get, io_put, io_flush, bind,
      ret, get_self, modify_self.
    cbn [self world trace].
    destruct (put_bytes _ _ _ _ _) as [ok1 w2].
    destruct (get_bytes _ _ _ _ _) as [[g1 rx1] w3]. cbn [self world trace].
    destruct g1; cbn [negb];
      [|intros Heq; injection Heq as <-; now split].
    destruct (packet_ok _ rx1 _);
      [|intros Heq; injection Heq as <-; now split].
    cbn [self world trace].
    destruct (put_bytes _ _ _ _ _) as [ok2 w4].
    destruct (get_bytes _ _ _ _ _) as [[g2 rx2] w5]. cbn [self world trace].
    destruct g2; cbn [negb];
      [|intros Heq; injection Heq as <-; now split].
    destruct (packet_ok _ rx2 _); [discriminate|].
    intros Heq; injection Heq as <-; now split.
  - intros m1 w Hinv. exact Hinv.
  - now split.
  - discriminate.
  - destruct Htrace as (t_put & t_get & ok1 & ok2 & earlier & Htrace).
    exists t_put, t_get, ok1, ok2, earlier. rewrite Htrace.
    rewrite size_t_small by lia.
    replace (Z.to_nat (size + 4)) with (Z.to_nat size + 4)%nat by lia.
    unfold sent, out_header. rewrite sent_frame by assumption.
    rewrite (set_packet_exact _ _ 8) by (cbn; lia). reflexivity.
Qed.

(** X17.  When [__put_result] returns [true], its last attempt has flushed,
    received four bytes, sent the header frame that carries [size],
    received four bytes, and sent the frame that carries the first [size]
    bytes of [data], in this order and whatever [put_bytes] returned. *)
Theorem put_result_success_trace (fuel : nat) (data : list Z)
    (size timeout : Z) (m m' : machine W) :
  0 <= size -> size + 4 < 2 ^ 32 ->
  (Z.to_nat size <= length data)%nat ->
  (Z.to_nat size + 4 <= length (_buff (self m)))%nat ->
  __put_result fuel data size timeout m = (Some true, m') ->
  exists t_put t_get ok1 ok2 earlier,
    trace m'
    = EvPut BufScratch
        (frame _RESULT_DATA_PACKET_MAGIC (take (Z.to_nat size) data))
        (_put_long_timeout (self m)) ok2
      :: EvGet BufInResponseData 4 t_get true
      :: EvPut BufOutHeader
           (frame _RESULT_HEADER_PACKET_MAGIC (bytes_of_u32 size)) t_put ok1
      :: EvGet BufInResponseHeader 4 t_get true
      :: EvFlush :: earlier.
Proof.
  intros Hsize Hsmall Hdata Hbuff.
  unfold __put_result, put_result_loop, bind, get_self, modify_self,
    lift_world.
  cbn [self world trace].
  destruct (_buff_len (self m) <? size_t (size + 4)); [discriminate|].
  destruct (millis (world m)) as [start w1]. cbn [self world trace].
  intros Hrun.
  pose (sent := _set_packet (_buff (self m)) _RESULT_DATA_PACKET_MAGIC data
                  (Z.to_nat size)).
  pose (out_header := _set_packet (replicate 8 0) _RESULT_HEADER_PACKET_MAGIC
                        (bytes_of_u32 size) 4).
  assert (Hres : true = false \/
    exists t_put t_get ok1 ok2 earlier,
      trace m'
      = EvPut BufScratch (take (Z.to_nat (size_t (size + 4))) sent)
          (_put_long_timeout (self m)) ok2
        :: EvGet BufInResponseData 4 t_get true
        :: EvPut BufOutHeader (take 8 out_header) t_put ok1
        :: EvGet BufInResponseHeader 4 t_get true
        :: EvFlush :: earlier);
    [eapply (handshake_loop_result_inv
              (fun m1 => _buff (self m1) = sent
                         /\ _put_long_timeout (self m1)
                            = _put_long_timeout (self m))
              (fun (a : bool) m2 =>
                 exists t_put t_get ok1 ok2 earlier,
                   trace m2
                   = EvPut BufScratch
                       (take (Z.to_nat (size_t (size + 4))) sent)
                       (_put_long_timeout (self m)) ok2
                     :: EvGet BufInResponseData 4 t_get true
                     :: EvPut BufOutHeader (take 8 out_header) t_put ok1
                     :: EvGet BufInResponseHeader 4 t_get true
                     :: EvFlush :: earlier));
       [| | | |exact Hrun]
    |destruct Hres as [Hfalse|Htrace]].
  - intros m1 a m2 (Hb & Hl).
    unfold put_result_attempt, _get_packet, io_get, io_put, io_flush, bind,
      ret, get_self, modify_self.
    cbn [self world trace].
    destruct (get_bytes _ _ _ _ _) as [[g1 rx1] w3]. cbn [self world trace].
    destruct g1; cbn [negb]; [|discriminate].
    destruct (packet_ok _ rx1 _); [|discriminate]. cbn [self world trace].
    destruct (put_bytes _ _ _ _ _) as [ok1 w2].
    destruct (get_bytes _ _ _ _ _) as [[g2 rx2] w5]. cbn [self world trace].
    destruct g2; cbn [negb]; [|discriminate].
    destruct (packet_ok _ rx2 _); [|discriminate]. cbn [self world trace].
    destruct (put_bytes _ _ _ _ _) as [ok2 w4].
    intros Heq. injection Heq as _ <-. cbn [trace].
    rewrite Hb, Hl. now exists (_put_short_timeout (self m1)),
      (_get_short_timeout (self m1)), ok1, ok2, (trace m1).
  - intros m1 m2 (Hb & Hl).
    unfold put_result_attempt, _get_packet, io_get, io_put, io_flush, bind,
      ret, get_self, modify_self.
    cbn [self world trace].
    destruct (get_bytes _ _ _ _ _) as [[g1 rx1] w3]. cbn [self world trace].
    destruct g1; cbn [negb];
      [|intros Heq; injection Heq as <-; now split].
    destruct (packet_ok _ rx1 _);
      [|intros Heq; injection Heq as <-; now split].
    cbn [self world trace].
    destruct (put_bytes _ _ _ _ _) as [ok1 w2].
    destruct (get_bytes _ _ _ _ _) as [[g2 rx2] w5]. cbn [self world trace].
    destruct g2; cbn [negb];
      [|intros Heq; injection Heq as <-; now split].
    destruct (packet_ok _ rx2 _);
      [|intros Heq; injection Heq as <-; now split].
    cbn [self world trace].
    destruct (put_bytes _ _ _ _ _) as [ok2 w4]. discriminate.
  - intros m1 w Hinv. exact Hinv.
  - now split.
  - discriminate.
  - destruct Htrace as (t_put & t_get & ok1 & ok2 & earlier & Htrace).
    exists t_put, t_get, ok1, ok2, earlier. rewrite Htrace.
    rewrite size_t_small by lia.
    replace (Z.to_nat (size + 4)) with (Z.to_nat size + 4)%nat by lia.
    unfold sent, out_header. rewrite sent_frame by assumption.
    rewrite (set_packet_exact _ _ 4) by (cbn; lia). reflexivity.
Qed.

End SuccessfulSends.

Lemma put_command_success_trace_witness :
  exists t_put t_get ok1 ok2 earlier,
    trace (snd (__put_command 10 177604 [1; 2; 3] 3 100 empty_result_start))
    = EvGet BufInCommandData 4 t_get true
      :: EvPut BufScratch
           (frame _COMMAND_DATA_PACKET_MAGIC (take (Z.to_nat 3) [1; 2; 3]))
           (_put_long_timeout (self empty_result_start)) ok2
      :: EvGet BufInCommandHeader 4 t_get true
      :: EvPut BufOutHeader
           (frame _COMMAND_HEADER_PACKET_MAGIC
              (bytes_of_u32 177604 ++ bytes_of_u32 3)) t_put ok1
      :: EvFlush :: earlier.
Proof.
  apply (put_command_success_trace 10 177604 [1; 2; 3] 3 100
           empty_result_start);
    try (vm_compute; reflexivity); try (cbn; lia); vm_compute; discriminate.
Defined.

Lemma put_result_success_trace_witness :
  exists t_put t_get ok1 ok2 earlier,
    trace (snd (__put_result 10 [7; 8] 2 100 result_request_start))
    = EvPut BufScratch
        (frame _RESULT_DATA_PACKET_MAGIC (take (Z.to_nat 2) [7; 8]))
        (_put_long_timeout (self result_request_start)) ok2
      :: EvGet BufInResponseData 4 t_get true
      :: EvPut BufOutHeader
           (frame _RESULT_HEADER_PACKET_MAGIC (bytes_of_u32 2)) t_put ok1
      :: EvGet BufInResponseHeader 4 t_get true
      :: EvFlush :: earlier.
Proof.
  apply (put_result_success_trace 10 [7; 8] 2 100 result_request_start);
    try (vm_compute; reflexivity); try (cbn; lia); vm_compute; discriminate.
Defined.

(** *** The handshake functions return *)

Section Budget.
Context {W : Type} `{Transport W} `{Arduino W}.
Variable clock : W -> Z.
Variable slowest : Z.
Hypothesis millis_reads : forall w, u32 (fst (millis w)) = u32 (clock w).
Hypothesis millis_ticks : forall w, clock (snd (millis w)) = clock w + 1.
Hypothesis get_takes : forall this buff size timeout w,
  clock w <= clock (snd (get_bytes this buff size timeout w))
  <= clock w + slowest.
Hypothesis put_takes : forall this data size timeout w,
  clock w <= clock (snd (put_bytes this data size timeout w))
  <= clock w + slowest.
Hypothesis flush_takes : forall this w,
  clock w <= clock (_flush this w) <= clock w + slowest.

Lemma u32_difference a b a' b' :
  u32 a = u32 a' -> u32 b = u32 b' -> u32 (a - b) = u32 (a' - b').
Proof.
  unfold u32. intros Ha Hb.
  rewrite (Zminus_mod a b), (Zminus_mod a' b'). now rewrite Ha, Hb.
Qed.

(** With a loop body that takes between 0 and [longest] milliseconds, the
    loop returns as soon as the fuel exceeds what is left of the budget;
    [since] is the clock when [start] was read. *)
Lemma handshake_loop_in_budget {R : Type} next (body : M W (attempt R))
    timed_out timeout start since longest :
  u32 start = u32 since ->
  (forall m, clock (world m) <= clock (world (snd (body m)))
             <= clock (world m) + longest) ->
  timeout + longest < 2 ^ 32 ->
  forall fuel m,
    0 <= clock (world m) - since < 2 ^ 32 ->
    Z.max 0 (timeout - (clock (world m) - since)) < Z.of_nat fuel ->
    exists r m',
      handshake_loop fuel next body timed_out timeout start m = (Some r, m').
Proof.
  intros Hstart Hbody Hlongest fuel.
  induction fuel as [|fuel IH]; intros m Hrange Hfuel; [lia|].
  cbn [handshake_loop]. unfold bind at 1. unfold lift_world.
  pose proof (millis_reads (world m)) as Hnow.
  pose proof (millis_ticks (world m)) as Htick.
  destruct (millis (world m)) as [now w1]. cbn [fst snd] in Hnow, Htick.
  rewrite (u32_difference _ _ _ _ Hnow Hstart), u32_small by lia.
  destruct (Z.ltb_spec (clock (world m) - since) timeout) as [Hin|Hout];
    cbn [negb]; [|unfold ret; eauto].
  unfold bind at 1.
  specialize (Hbody (mk_machine (self m) w1 (trace m))).
  destruct (body (mk_machine (self m) w1 (trace m))) as [[r|] m2];
    cbn [snd world] in Hbody; [unfold ret; eauto|].
  unfold bind at 1. unfold modify_self. apply IH; cbn [world]; lia.
Qed.

Lemma attempts_take_five_transfers out_header size (m : machine W) :
  0 <= slowest ->
  (clock (world m)
   <= clock (world (snd (put_command_attempt out_header size m)))
   <= clock (world m) + 5 * slowest)
  /\ (clock (world m) <= clock (world (snd (get_result_attempt m)))
      <= clock (world m) + 5 * slowest)
  /\ (clock (world m) <= clock (world (snd (get_command_attempt m)))
      <= clock (world m) + 5 * slowest)
  /\ (clock (world m)
      <= clock (world (snd (put_result_attempt out_header size m)))
      <= clock (world m) + 5 * slowest).
Proof.
  intros Hslow. pose proof (flush_takes (self m) (world m)) as Hflush.
  unfold put_command_attempt, get_result_attempt, get_command_attempt,
    put_result_attempt, _get_packet, io_get, io_put, io_flush, bind, ret,
    get_self, modify_self.
  cbn [self world trace fst snd].
  repeat split; transfers put_takes get_takes; lia.
Qed.

(** The frame length the code computes from an announced [size] is below
    2 for just two values of [size]. *)
Lemma frame_length_below_two size :
  0 <= size < 2 ^ 32 ->
  u32 (size + 4) < 2 <-> size = 2 ^ 32 - 4 \/ size = 2 ^ 32 - 3.
Proof.
  intros Hsize. unfold u32.
  destruct (Z.lt_ge_cases (size + 4) (2 ^ 32)) as [Hfit|Hwrap].
  - rewrite Z.mod_small by lia. lia.
  - replace (size + 4) with (size + 4 - 2 ^ 32 + 1 * 2 ^ 32) by lia.
    rewrite Z.mod_add by lia. rewrite Z.mod_small by lia. lia.
Qed.

(** X18.  With a clock that [millis] reads and moves on, and transfers that
    take between 0 and [slowest] milliseconds, each of the four handshake
    functions returns: fuel beyond the budget is never used up.  This is
    for calls the C code defines: a [size] whose frame fits 32 bits and
    the bytes of [data], a scratch buffer of [_buff_len] bytes, and runs
    of [__get_result] and [__get_command] in which every receive that
    succeeds has the two bytes [_get_packet] reads at its end. *)
Theorem handshake_functions_return_within_the_budget (fuel : nat)
    (command : Z) (data : list Z) (size timeout : Z) (m : machine W) :
  0 <= slowest ->
  timeout + 5 * slowest < 2 ^ 32 ->
  Z.max 0 timeout < Z.of_nat fuel ->
  0 <= size -> size + 4 < 2 ^ 32 ->
  (Z.to_nat size <= length data)%nat ->
  _buff_len (self m) <= Z.of_nat (length (_buff (self m))) ->
  forallb get_packet_in_bounds (trace (snd (__get_result fuel timeout m)))
  = true ->
  forallb get_packet_in_bounds (trace (snd (__get_command fuel timeout m)))
  = true ->
  (exists r m', __put_command fuel command data size timeout m = (Some r, m'))
  /\ (exists r m', __get_result fuel timeout m = (Some r, m'))
  /\ (exists r m', __get_command fuel timeout m = (Some r, m'))
  /\ (exists r m', __put_result fuel data size timeout m = (Some r, m')).
Proof.
  intros Hslow Hbudget Hfuel _ _ _ _ _ _.
  unfold __put_command, __get_result, __get_command, __put_result,
    put_command_loop, get_result_loop, get_command_loop, put_result_loop,
    bind, ret, get_self, modify_self, lift_world.
  repeat apply conj;
    try (destruct (_buff_len (self m) <? size_t (size + 4)); [now eauto|]);
    cbn [self world trace];
    pose proof (millis_reads (world m)) as Hstart;
    pose proof (millis_ticks (world m)) as Htick;
    destruct (millis (world m)) as [start w1]; cbn [fst snd] in Hstart, Htick;
    apply (handshake_loop_in_budget _ _ _ _ _ (clock (world m)) (5 * slowest));
    try assumption; cbn [world]; try lia;
    intros m1; now apply attempts_take_five_transfers.
Qed.

End Budget.

Lemma handshake_functions_return_within_the_budget_witness :
  (exists r m',
      __put_command 101 5 [1; 2] 2 100 silent_start = (Some r, m'))
  /\ (exists r m', __get_result 101 100 silent_start = (Some r, m'))
  /\ (exists r m', __get_command 101 100 silent_start = (Some r, m'))
  /\ (exists r m', __put_result 101 [1; 2] 2 100 silent_start = (Some r, m')).
Proof.
  apply (handshake_functions_return_within_the_budget clock 0).
  - reflexivity.
  - reflexivity.
  - intros this buff size timeout w. cbn [get_bytes script_transport].
    rewrite script_get_clock. lia.
  - intros this data size timeout w. cbn. lia.
  - intros this w. cbn. lia.
  - lia.
  - cbn. lia.
  - cbn. lia.
  - lia.
  - lia.
  - cbn. lia.
  - cbn. lia.
  - vm_compute. reflexivity.
  - vm_compute. reflexivity.
Defined.

(** *** The layout of a frame *)

(** X19.  [_set_packet] keeps the length of the buffer, writes the magic
    value, low byte first, then the payload, then the CRC of these
    [size + 2] bytes, low byte first, and leaves the bytes after that as
    they were. *)
Theorem set_packet_layout (buff : list Z) (magic_value : Z) (data : list Z)
    (size : nat) :
  (size + 4 <= length buff)%nat ->
  (size <= length data)%nat ->
  length (_set_packet buff magic_value data size) = length buff
  /\ byte_at (_set_packet buff magic_value data size) 0 = u8 magic_value
  /\ byte_at (_set_packet buff magic_value data size) 1
     = u8 (Z.shiftr magic_value 8)
  /\ take size (drop 2 (_set_packet buff magic_value data size))
     = take size data
  /\ byte_at (_set_packet buff magic_value data size) (size + 2)
     = u8 (__crc_16 (_set_packet buff magic_value data size) (size + 2))
  /\ byte_at (_set_packet buff magic_value data size) (size + 3)
     = u8 (Z.shiftr
             (__crc_16 (_set_packet buff magic_value data size) (size + 2)) 8)
  /\ drop (size + 4) (_set_packet buff magic_value data size)
     = drop (size + 4) buff.
Proof.
  intros Hbuff Hdata.
  assert (Hlen : length (take size data) = size) by (rewrite length_take; lia).
  rewrite set_packet_frame by assumption.
  set (payload := take size data) in *.
  set (rest := drop (size + 4) buff).
  set (head := u8 magic_value :: u8 (Z.shiftr magic_value 8) :: payload).
  set (crc := fold_left crc_step head 65535).
  assert (Hframe : frame magic_value payload ++ rest
                   = head ++ u8 crc :: u8 (Z.shiftr crc 8) :: rest).
  { rewrite frame_parts. subst head crc. cbn [app].
    rewrite <- app_assoc. reflexivity. }
  assert (Hhead : length head = (size + 2)%nat) by (cbn; lia).
  assert (Hcrc : __crc_16 (frame magic_value payload ++ rest) (size + 2) = crc).
  { rewrite Hframe, <- Hhead. apply crc_16_prefix. }
  rewrite Hcrc. repeat apply conj.
  - rewrite length_app, frame_length, Hlen. unfold rest.
    rewrite length_drop. lia.
  - rewrite frame_parts. reflexivity.
  - rewrite frame_parts. reflexivity.
  - rewrite frame_parts. cbn [app drop]. rewrite <- app_assoc, <- Hlen.
    apply take_app_length.
  - rewrite Hframe, <- Hhead. apply byte_at_middle.
  - rewrite Hframe.
    replace (size + 3)%nat with (length (head ++ [u8 crc]))
      by (rewrite length_app; cbn; lia).
    rewrite (cons_middle (u8 crc)), app_assoc. apply byte_at_middle.
  - replace (size + 4)%nat with (length (frame magic_value payload))
      by (rewrite frame_length; lia).
    apply drop_app_length.
Qed.

Lemma set_packet_layout_witness :
  length (_set_packet (replicate 8 9) 0x1209 [1; 2; 3] 3) = length (replicate 8 9)
  /\ byte_at (_set_packet (replicate 8 9) 0x1209 [1; 2; 3] 3) 0 = u8 0x1209
  /\ byte_at (_set_packet (replicate 8 9) 0x1209 [1; 2; 3] 3) 1
     = u8 (Z.shiftr 0x1209 8)
  /\ take 3 (drop 2 (_set_packet (replicate 8 9) 0x1209 [1; 2; 3] 3))
     = take 3 [1; 2; 3]
  /\ byte_at (_set_packet (replicate 8 9) 0x1209 [1; 2; 3] 3) (3 + 2)
     = u8 (__crc_16 (_set_packet (replicate 8 9) 0x1209 [1; 2; 3] 3) (3 + 2))
  /\ byte_at (_set_packet (replicate 8 9) 0x1209 [1; 2; 3] 3) (3 + 3)
     = u8 (Z.shiftr
             (__crc_16 (_set_packet (replicate 8 9) 0x1209 [1; 2; 3] 3)
                (3 + 2)) 8)
  /\ drop (3 + 4) (_set_packet (replicate 8 9) 0x1209 [1; 2; 3] 3)
     = drop (3 + 4) (replicate 8 9).
Proof. apply (set_packet_layout (replicate 8 9) 0x1209 [1; 2; 3] 3); cbn; lia. Defined.

(** *** A chunk written at the start of a buffer *)

Lemma inserts_at_start (chunk buff : list Z) :
  (length chunk <= length buff)%nat ->
  list_inserts 0 chunk buff = chunk ++ drop (length chunk) buff.
Proof.
  intros Hfit. rewrite <- (take_drop (length chunk) buff) at 1.
  apply list_inserts_0_r. rewrite length_take. lia.
Qed.

(** *** What the I2C master writes into the buffer *)

Section WireReads.
Context {W : Type} `{Arduino W} `{TwoWire W}.

(** The inner loop stores what it reads, in the order it reads it; the
    record does not change what the bus does. *)
Lemma wire_read_into_recorded n slot buff (w : W) (l : list Z) :
  exists reads,
    wire_read_into (H1 := recording_wire) n slot buff (w, l)
    = (fst (wire_read_into n slot buff w),
       (snd (wire_read_into n slot buff w), l ++ reads))
    /\ length reads = n
    /\ fst (wire_read_into n slot buff w)
       = list_inserts slot (map u8 reads) buff.
Proof.
  revert slot buff w l. induction n as [|n IH]; intros slot buff w l.
  - exists []. cbn. now rewrite app_nil_r.
  - cbn [wire_read_into Wire_read recording_wire fst snd].
    destruct (Wire_read w) as [b w1].
    destruct (IH (S slot) (<[slot := u8 b]> buff) w1 (l ++ [b]))
      as (reads & Hrun & Hlen & Hbuff).
    exists (b :: reads). rewrite Hrun, <- app_assoc. split; [reflexivity|].
    split; [cbn; now rewrite Hlen|].
    rewrite Hbuff. cbn [map list_inserts].
    symmetry. apply list_insert_inserts_lt. lia.
Qed.

Lemma i2c_request_loop_recorded fuel __slave_addr i size buff (w : W)
    (l : list Z) :
  0 <= i ->
  exists reads,
    i2c_request_loop (H := recording_arduino) (H1 := recording_wire) fuel
      __slave_addr i size buff (w, l)
    = (fst (i2c_request_loop fuel __slave_addr i size buff w),
       (snd (i2c_request_loop fuel __slave_addr i size buff w), l ++ reads))
    /\ snd (fst (i2c_request_loop fuel __slave_addr i size buff w))
       = list_inserts (Z.to_nat i) (map u8 reads) buff
    /\ (size <= i -> reads = [])
    /\ (i < size -> (Z.to_nat i + length reads <= Z.to_nat size)%nat)
    /\ (i < size ->
        fst (fst (i2c_request_loop fuel __slave_addr i size buff w)) = true ->
        size - i <= 32 * Z.of_nat fuel ->
        (Z.to_nat i + length reads = Z.to_nat size)%nat).
Proof.
  revert i buff w l. induction fuel as [|fuel IH]; intros i buff w l Hi.
  - exists []. cbn. rewrite app_nil_r.
    repeat apply conj; intros; try reflexivity; cbn; lia.
  - cbn [i2c_request_loop].
    destruct (Z.ltb_spec i size) as [Hlt|Hge].
    2:{ exists []. cbn. rewrite app_nil_r.
        repeat apply conj; intros; try reflexivity; cbn; lia. }
    cbn [delayMicroseconds recording_arduino Wire_requestFrom recording_wire
           fst snd].
    destruct (Wire_requestFrom _ _ _ _) as [got w1].
    destruct (got =? Z.min (size - i) 32) eqn:Hgot; cbn [negb].
    2:{ exists []. cbn. rewrite app_nil_r.
        repeat apply conj; intros; try reflexivity; try discriminate;
          cbn; lia. }
    destruct (wire_read_into_recorded (Z.to_nat (Z.min (size - i) 32))
                (Z.to_nat i) buff w1 l) as (reads1 & Hrun1 & Hlen1 & Hbuff1).
    rewrite Hrun1.
    destruct (wire_read_into _ _ buff w1) as [buff1 w2]. cbn [fst snd] in *.
    destruct (IH (i + 32) buff1 w2 (l ++ reads1) ltac:(lia))
      as (reads2 & Hrun2 & Hbuff2 & Hnone & Hroom & Hall).
    rewrite Hrun2.
    destruct (i2c_request_loop fuel __slave_addr (i + 32) size buff1 w2)
      as [[ok buff2] w3]. cbn [fst snd] in *.
    exists (reads1 ++ reads2). rewrite <- app_assoc.
    split; [reflexivity|].
    destruct (Z.le_gt_cases size (i + 32)) as [Hlast|Hmore].
    + rewrite (Hnone Hlast) in *. rewrite app_nil_r.
      cbn [map list_inserts] in Hbuff2.
      split; [congruence|]. split; [lia|]. split; lia.
    + specialize (Hroom Hmore). specialize (Hall Hmore).
      assert (Hfull : length reads1 = 32%nat) by lia.
      split.
      * rewrite Hbuff2, Hbuff1, map_app, list_inserts_app_l, length_map.
        f_equal. lia.
      * rewrite length_app. split; [lia|]. split; [lia|].
        intros _ Hok Hleft. specialize (Hall Hok). lia.
Qed.

(** X20.  Of a buffer that has room for [size] bytes,
    [rpc_i2c_master::get_bytes] overwrites the first bytes with what
    [Wire.read()] returned, converted to [uint8_t], in the order of the
    reads, and leaves the rest as it was; it reads at most [size] times,
    and when it returns [true] it has read [size] times and the [size]
    bytes are not all the same.  Recording the reads does not change the
    run. *)
Theorem i2c_master_get_bytes_footprint (__slave_addr __rate : Z) (this : rpc)
    (buff : list Z) (size timeout : Z) (w : W) :
  (Z.to_nat size <= length buff)%nat ->
  exists (ok : bool) (buff' : list Z) (w' : W) (reads : list Z),
    rpc_i2c_master_get_bytes (H := recording_arduino) (H1 := recording_wire)
      __slave_addr __rate this buff size timeout (w, [])
    = (ok, buff', (w', reads))
    /\ rpc_i2c_master_get_bytes __slave_addr __rate this buff size timeout w
       = (ok, buff', w')
    /\ buff' = map u8 reads ++ drop (length reads) buff
    /\ (length reads <= Z.to_nat size)%nat
    /\ (ok = true ->
        length reads = Z.to_nat size
        /\ _same buff' (Z.to_nat size) = false).
Proof.
  intros Hroom. unfold rpc_i2c_master_get_bytes.
  cbn [Wire_begin Wire_setClock Wire_end recording_wire delay
         recording_arduino fst snd].
  destruct (i2c_request_loop_recorded (Z.to_nat size) __slave_addr 0 size buff
              (Wire_setClock __rate (Wire_begin w)) [] ltac:(lia))
    as (reads & Hrun & Hbuff & Hnone & Hfit & Hall).
  rewrite Hrun.
  destruct (i2c_request_loop (Z.to_nat size) __slave_addr 0 size buff
              (Wire_setClock __rate (Wire_begin w))) as [[ok buff'] w'].
  cbn [fst snd app] in *. change (Z.to_nat 0) with 0%nat in *.
  assert (Hlen : (length reads <= Z.to_nat size)%nat).
  { destruct (Z.le_gt_cases size 0) as [Hz|Hpos];
      [rewrite (Hnone Hz); cbn; lia | specialize (Hfit Hpos); lia]. }
  assert (Hplain : buff' = map u8 reads ++ drop (length reads) buff).
  { rewrite Hbuff, inserts_at_start by (rewrite length_map; lia).
    now rewrite length_map. }
  set (ok2 := if ok then ok && negb (_same buff' (Z.to_nat size)) else ok).
  exists ok2, buff',
    (if negb ok2 then delay (_get_short_timeout this) (Wire_end w')
     else Wire_end w'), reads.
  split; [|split; [|split; [exact Hplain|split; [exact Hlen|]]]].
  - destruct ok2; reflexivity.
  - reflexivity.
  - subst ok2. destruct ok; [|discriminate]. cbn [andb].
    destruct (_same buff' (Z.to_nat size)); [discriminate|]. intros _.
    split; [|reflexivity].
    destruct (Z.le_gt_cases size 0) as [Hz|Hpos]; [lia|].
    specialize (Hall Hpos eq_refl). lia.
Qed.

End WireReads.

Lemma i2c_master_get_bytes_footprint_witness :
  exists (ok : bool) (buff' : list Z) (w' : script) (reads : list Z),
    rpc_i2c_master_get_bytes (H := recording_arduino) (H1 := recording_wire)
      9 100000 (default_rpc 16 255) [9; 9; 9; 9; 9; 9] 4 100 (four_bytes, [])
    = (ok, buff', (w', reads))
    /\ rpc_i2c_master_get_bytes 9 100000 (default_rpc 16 255)
         [9; 9; 9; 9; 9; 9] 4 100 four_bytes
       = (ok, buff', w')
    /\ buff' = map u8 reads ++ drop (length reads) [9; 9; 9; 9; 9; 9]
    /\ (length reads <= Z.to_nat 4)%nat
    /\ (ok = true ->
        length reads = Z.to_nat 4 /\ _same buff' (Z.to_nat 4) = false).
Proof.
  apply (i2c_master_get_bytes_footprint 9 100000 (default_rpc 16 255)
           [9; 9; 9; 9; 9; 9] 4 100 four_bytes).
  cbn. lia.
Defined.

(** *** What the CAN transports write into the buffer *)

Section CanReads.
Context {W : Type} `{Arduino W} `{CANClass W}.

(** The inner loop stores what it reads at the index it counts with, in
    the order it reads it; the record does not change what the bus
    does. *)
Lemma can_read_loop_recorded n i size buff (w : W) (l : list Z) :
  size < 2 ^ 32 -> 0 <= i < size ->
  exists reads,
    can_read_loop (H0 := recording_can) n i size buff (w, l)
    = (fst (can_read_loop n i size buff w),
       (snd (can_read_loop n i size buff w), l ++ reads))
    /\ fst (fst (can_read_loop n i size buff w))
       = i + Z.of_nat (length reads)
    /\ i + Z.of_nat (length reads) <= size
    /\ snd (fst (can_read_loop n i size buff w))
       = list_inserts (Z.to_nat i) (map u8 reads) buff.
Proof.
  intros Hsize. revert i buff w l.
  induction n as [|n IH]; intros i buff w l Hi.
  - exists []. cbn. rewrite app_nil_r.
    repeat apply conj; try reflexivity; lia.
  - cbn [can_read_loop CAN_read recording_can fst snd].
    destruct (CAN_read w) as [b w1]. rewrite size_t_small by lia.
    destruct (Z.eqb_spec (i + 1) size) as [Hend|Hmore].
    + exists [b]. cbn [fst snd length map list_inserts].
      repeat apply conj; try reflexivity; lia.
    + destruct (IH (i + 1) (<[Z.to_nat i := u8 b]> buff) w1 (l ++ [b])
                  ltac:(lia)) as (reads & Hrun & Hcount & Hfit & Hbuff).
      exists (b :: reads). rewrite Hrun, <- app_assoc.
      split; [reflexivity|]. cbn [length map list_inserts].
      split; [lia|]. split; [lia|].
      rewrite Hbuff. replace (Z.to_nat (i + 1)) with (S (Z.to_nat i)) by lia.
      symmetry. apply list_insert_inserts_lt. lia.
Qed.

Lemma can_get_loop_recorded fuel start timeout i size buff (w : W)
    (l : list Z) (r : Z * list Z * (W * list Z)) :
  size < 2 ^ 32 -> 0 <= i <= size ->
  can_get_loop (H := recording_arduino) (H0 := recording_can) fuel start
    timeout i size buff (w, l) = Some r ->
  exists reads,
    snd (snd r) = l ++ reads
    /\ can_get_loop fuel start timeout i size buff w
       = Some (fst r, fst (snd r))
    /\ fst (fst r) = i + Z.of_nat (length reads)
    /\ fst (fst r) <= size
    /\ snd (fst r) = list_inserts (Z.to_nat i) (map u8 reads) buff.
Proof.
  intros Hsize. revert i buff w l.
  induction fuel as [|fuel IH]; intros i buff w l Hi Hrun; [discriminate|].
  cbn [can_get_loop millis recording_arduino CAN_parsePacket recording_can
         fst snd] in Hrun |- *.
  destruct (millis w) as [now w1]. cbn [fst snd] in Hrun |- *.
  destruct (u32 (now - start) <? timeout); cbn [andb] in Hrun |- *.
  - destruct (Z.eqb_spec i size) as [Heq|Hne]; cbn [negb] in Hrun |- *.
    + injection Hrun as <-. exists []. cbn. rewrite app_nil_r.
      repeat apply conj; try reflexivity; lia.
    + destruct (CAN_parsePacket w1) as [jj w2]. cbn [fst snd] in Hrun |- *.
      destruct (can_read_loop_recorded (Z.to_nat jj) i size buff w2 l Hsize
                  ltac:(lia)) as (reads1 & Hrun1 & Hcount1 & Hfit1 & Hbuff1).
      rewrite Hrun1 in Hrun.
      destruct (can_read_loop (Z.to_nat jj) i size buff w2)
        as [[i1 buff1] w3]. cbn [fst snd] in *.
      destruct (IH i1 buff1 w3 (l ++ reads1) ltac:(lia) Hrun)
        as (reads2 & Hlog & Hplain & Hcount2 & Hfit2 & Hbuff2).
      exists (reads1 ++ reads2). rewrite app_assoc.
      split; [exact Hlog|]. split; [exact Hplain|].
      rewrite length_app. split; [lia|]. split; [lia|].
      rewrite Hbuff2, Hbuff1, map_app, list_inserts_app_l, length_map.
      f_equal. lia.
  - injection Hrun as <-. exists []. cbn. rewrite app_nil_r.
    repeat apply conj; try reflexivity; lia.
Qed.

(** X21.  Of a buffer that has room for [size] bytes, [get_bytes] of the CAN
    master and of the CAN slave overwrite the first bytes with what
    [CAN.read()] returned, converted to [uint8_t], in the order of the
    reads, and leave the rest as it was; they read at most [size] times,
    and return [true] exactly when they have read [size] times.
    Recording the reads does not change the run. *)
Theorem can_get_bytes_footprint (fuel : nat) (this : rpc) (buff : list Z)
    (size timeout : Z) (w : W) (ok : bool) (buff' : list Z) (w' : W)
    (reads : list Z) :
  0 <= size < 2 ^ 32 ->
  (Z.to_nat size <= length buff)%nat ->
  rpc_can_master_get_bytes (H := recording_arduino) (H0 := recording_can)
    fuel this buff size timeout (w, []) = Some (ok, buff', (w', reads))
  \/ rpc_can_slave_get_bytes (H := recording_arduino) (H0 := recording_can)
       fuel this buff size timeout (w, []) = Some (ok, buff', (w', reads)) ->
  (rpc_can_master_get_bytes (H := recording_arduino) (H0 := recording_can)
     fuel this buff size timeout (w, []) = Some (ok, buff', (w', reads)) ->
   rpc_can_master_get_bytes fuel this buff size timeout w
   = Some (ok, buff', w'))
  /\ (rpc_can_slave_get_bytes (H := recording_arduino) (H0 := recording_can)
        fuel this buff size timeout (w, []) = Some (ok, buff', (w', reads)) ->
      rpc_can_slave_get_bytes fuel this buff size timeout w
      = Some (ok, buff', w'))
  /\ buff' = map u8 reads ++ drop (length reads) buff
  /\ (length reads <= Z.to_nat size)%nat
  /\ (ok = true <-> length reads = Z.to_nat size).
Proof.
  intros Hsize Hroom Hrun.
  assert (Hmaster :
    rpc_can_master_get_bytes (H := recording_arduino) (H0 := recording_can)
      fuel this buff size timeout (w, []) = Some (ok, buff', (w', reads)) ->
    rpc_can_master_get_bytes fuel this buff size timeout w
    = Some (ok, buff', w')
    /\ buff' = list_inserts 0 (map u8 reads) buff
    /\ Z.of_nat (length reads) <= size
    /\ ok = (Z.of_nat (length reads) =? size)).
  { unfold rpc_can_master_get_bytes.
    cbn [millis delay recording_arduino fst snd].
    destruct (millis w) as [start w1]. cbn [fst snd].
    destruct (can_get_loop (H0 := recording_can) fuel start timeout 0 size
                buff (w1, [])) as [[[i1 buff1] [w2 l2]]|] eqn:Hloop;
      [|discriminate].
    destruct (can_get_loop_recorded fuel start timeout 0 size buff w1 []
                (i1, buff1, (w2, l2)) ltac:(lia) ltac:(lia) Hloop)
      as (rd & Hlog & Hplain & Hcount & Hfit & Hbuff).
    cbn [fst snd app] in *. subst l2. rewrite Hplain.
    assert (Hok : (i1 =? size) = (Z.of_nat (length rd) =? size))
      by (f_equal; lia).
    intros Heq. destruct (i1 =? size); cbn [negb] in Heq |- *;
      injection Heq as <- <- <- <-;
      (split; [reflexivity|split; [exact Hbuff|split; [lia|exact Hok]]]). }
  assert (Hslave :
    rpc_can_slave_get_bytes (H := recording_arduino) (H0 := recording_can)
      fuel this buff size timeout (w, []) = Some (ok, buff', (w', reads)) ->
    rpc_can_slave_get_bytes fuel this buff size timeout w
    = Some (ok, buff', w')
    /\ buff' = list_inserts 0 (map u8 reads) buff
    /\ Z.of_nat (length reads) <= size
    /\ ok = (Z.of_nat (length reads) =? size)).
  { unfold rpc_can_slave_get_bytes.
    cbn [millis delay recording_arduino fst snd].
    destruct (millis w) as [start w1]. cbn [fst snd].
    destruct (can_get_loop (H0 := recording_can) fuel start timeout 0 size
                buff (w1, [])) as [[[i1 buff1] [w2 l2]]|] eqn:Hloop;
      [|discriminate].
    destruct (can_get_loop_recorded fuel start timeout 0 size buff w1 []
                (i1, buff1, (w2, l2)) ltac:(lia) ltac:(lia) Hloop)
      as (rd & Hlog & Hplain & Hcount & Hfit & Hbuff).
    cbn [fst snd app] in *. subst l2. rewrite Hplain.
    assert (Hok : (i1 =? size) = (Z.of_nat (length rd) =? size))
      by (f_equal; lia).
    intros Heq. injection Heq as <- <- <- <-.
    split; [reflexivity|split; [exact Hbuff|split; [lia|exact Hok]]]. }
  assert (Hfacts : buff' = list_inserts 0 (map u8 reads) buff
                   /\ Z.of_nat (length reads) <= size
                   /\ ok = (Z.of_nat (length reads) =? size)).
  { destruct Hrun as [Hrun|Hrun];
      [apply Hmaster in Hrun|apply Hslave in Hrun]; tauto. }
  destruct Hfacts as (Hbuff & Hfit & Hok).
  split; [intros Hm; now apply Hmaster|].
  split; [intros Hs; now apply Hslave|].
  split; [|split; [lia|]].
  - rewrite Hbuff, inserts_at_start by (rewrite length_map; lia).
    now rewrite length_map.
  - rewrite Hok. rewrite Z.eqb_eq. lia.
Qed.

End CanReads.

Lemma can_get_bytes_footprint_witness :
  (rpc_can_master_get_bytes (H := recording_arduino) (H0 := recording_can)
     10 (default_rpc 16 255) [9; 9; 9; 9; 9; 9] 4 100 (two_packets, [])
   = Some (true, [1; 2; 3; 4; 9; 9],
           (mk_script 4 [[5]] [] [], [1; 2; 3; 4])) ->
   rpc_can_master_get_bytes 10 (default_rpc 16 255) [9; 9; 9; 9; 9; 9] 4 100
     two_packets
   = Some (true, [1; 2; 3; 4; 9; 9], mk_script 4 [[5]] [] []))
  /\ (rpc_can_slave_get_bytes (H := recording_arduino) (H0 := recording_can)
        10 (default_rpc 16 255) [9; 9; 9; 9; 9; 9] 4 100 (two_packets, [])
      = Some (true, [1; 2; 3; 4; 9; 9],
              (mk_script 4 [[5]] [] [], [1; 2; 3; 4])) ->
      rpc_can_slave_get_bytes 10 (default_rpc 16 255) [9; 9; 9; 9; 9; 9] 4 100
        two_packets
      = Some (true, [1; 2; 3; 4; 9; 9], mk_script 4 [[5]] [] []))
  /\ [1; 2; 3; 4; 9; 9]
     = map u8 [1; 2; 3; 4] ++ drop (length [1; 2; 3; 4]) [9; 9; 9; 9; 9; 9]
  /\ (length [1; 2; 3; 4] <= Z.to_nat 4)%nat
  /\ (true = true <-> length [1; 2; 3; 4] = Z.to_nat 4).
Proof.
  apply (can_get_bytes_footprint 10 (default_rpc 16 255) [9; 9; 9; 9; 9; 9] 4
           100 two_packets true [1; 2; 3; 4; 9; 9]
           (mk_script 4 [[5]] [] []) [1; 2; 3; 4]).
  - lia.
  - cbn. lia.
  - left. vm_compute. reflexivity.
Defined.


Section CanBudget.
Context {W : Type} `{Arduino W} `{CANClass W}.
Variable clock : W -> Z.
Hypothesis millis_reads : forall w, u32 (fst (millis w)) = u32 (clock w).
Hypothesis millis_ticks : forall w, clock (snd (millis w)) = clock w + 1.
Hypothesis parse_takes_no_time :
  forall w, clock (snd (CAN_parsePacket w)) = clock w.
Hypothesis read_takes_no_time : forall w, clock (snd (CAN_read w)) = clock w.

Lemma can_read_loop_clock n i size buff (w : W) :
  clock (snd (can_read_loop n i size buff w)) = clock w.
Proof.
  revert i buff w. induction n as [|n IH]; intros i buff w; [reflexivity|].
  cbn [can_read_loop]. pose proof (read_takes_no_time w) as Hread.
  destruct (CAN_read w) as [b w1]. cbn [snd] in Hread.
  destruct (size_t (i + 1) =? size); [exact Hread|].
  now rewrite IH.
Qed.

Lemma can_get_loop_in_budget start since timeout size :
  u32 start = u32 since -> timeout < 2 ^ 32 ->
  forall fuel i buff (w : W),
    0 <= clock w - since < 2 ^ 32 ->
    Z.max 0 (timeout - (clock w - since)) < Z.of_nat fuel ->
    exists r, can_get_loop fuel start timeout i size buff w = Some r.
Proof.
  intros Hstart Htimeout fuel.
  induction fuel as [|fuel IH]; intros i buff w Hrange Hfuel; [lia|].
  cbn [can_get_loop].
  pose proof (millis_reads w) as Hnow. pose proof (millis_ticks w) as Htick.
  destruct (millis w) as [now w1]. cbn [fst snd] in Hnow, Htick.
  rewrite (u32_difference _ _ _ _ Hnow Hstart), u32_small by lia.
  destruct (Z.ltb_spec (clock w - since) timeout) as [Hin|Hout];
    cbn [andb]; [|eauto].
  destruct (negb (i =? size)); [|eauto].
  pose proof (parse_takes_no_time w1) as Hparse.
  destruct (CAN_parsePacket w1) as [jj w2]. cbn [snd] in Hparse.
  pose proof (can_read_loop_clock (Z.to_nat jj) i size buff w2) as Hread.
  destruct (can_read_loop (Z.to_nat jj) i size buff w2) as [[i' buff'] w3].
  cbn [snd] in Hread. apply IH; lia.
Qed.

(** X22.  With a clock that [millis] reads and moves on, and a CAN driver
    whose calls take no time, [get_bytes] of the CAN master and of the
    CAN slave returns: fuel beyond the timeout is never used up. *)
Theorem can_get_bytes_returns_within_the_timeout (fuel : nat) (this : rpc)
    (buff : list Z) (size timeout : Z) (w : W) :
  timeout < 2 ^ 32 ->
  Z.max 0 timeout < Z.of_nat fuel ->
  (exists r, rpc_can_master_get_bytes fuel this buff size timeout w = Some r)
  /\ (exists r, rpc_can_slave_get_bytes fuel this buff size timeout w = Some r).
Proof.
  intros Htimeout Hfuel.
  unfold rpc_can_master_get_bytes, rpc_can_slave_get_bytes.
  pose proof (millis_reads w) as Hstart. pose proof (millis_ticks w) as Htick.
  destruct (millis w) as [start w1]. cbn [fst snd] in Hstart, Htick.
  destruct (can_get_loop_in_budget start (clock w) timeout size Hstart
              Htimeout fuel 0 buff w1 ltac:(lia) ltac:(lia))
    as ([[i buff'] w2] & ->).
  split; eauto.
Qed.

End CanBudget.

Lemma can_get_bytes_returns_within_the_timeout_witness :
  (exists r, rpc_can_master_get_bytes 101 (default_rpc 16 255)
               [9; 9; 9; 9; 9; 9] 4 100 two_packets = Some r)
  /\ (exists r, rpc_can_slave_get_bytes 101 (default_rpc 16 255)
                  [9; 9; 9; 9; 9; 9] 4 100 two_packets = Some r).
Proof.
  apply (can_get_bytes_returns_within_the_timeout clock).
  - reflexivity.
  - reflexivity.
  - reflexivity.
  - intros w. cbn. destruct (incoming w) as [|[|b chunk] rest]; reflexivity.
  - lia.
  - cbn. lia.
Defined.

(** *** What the I2C master sends *)

Section I2cRequests.
Context {W : Type} `{Arduino W} `{TwoWire W} `{TwoWireTx W}.
Hypothesis write_takes_all : forall data n w, fst (Wire_write data n w) = n.
Hypothesis transmission_ends :
  forall stop w, fst (Wire_endTransmission stop w) = 0.

Lemma i2c_transmit_loop_requests __slave_addr size data :
  forall fuel i (w : W) sent,
    0 <= i -> size - i <= 32 * Z.of_nat fuel ->
    exists new w',
      i2c_transmit_loop fuel __slave_addr i size true data w sent
      = (true, w', sent ++ new)
      /\ concat (map fst new)
         = take (Z.to_nat (size - i)) (drop (Z.to_nat i) data)
      /\ Forall (fun request => (length (fst request) <= 32)%nat) new
      /\ map snd new
         = replicate (pred (length new)) false
           ++ (if i <? size then [true] else [])
      /\ Z.of_nat (length new) = (Z.max 0 (size - i) + 31) / 32.
Proof.
  induction fuel as [|fuel IH]; intros i w sent Hi Hfuel.
  - exists [], w. cbn [i2c_transmit_loop].
    destruct (Z.ltb_spec i size); [lia|].
    replace (Z.to_nat (size - i)) with 0%nat by lia.
    rewrite app_nil_r, Z.max_l by lia. repeat split. constructor.
  - cbn [i2c_transmit_loop].
    destruct (Z.ltb_spec i size) as [Hlt|Hge]; cbn [andb].
    2:{ exists [], w. replace (Z.to_nat (size - i)) with 0%nat by lia.
        rewrite app_nil_r, Z.max_l by lia. repeat split. constructor. }
    set (request := take (Z.to_nat (Z.min (size - i) 32))
                      (drop (Z.to_nat i) data)).
    set (w1 := Wire_beginTransmission __slave_addr (delayMicroseconds 100 w)).
    pose proof (write_takes_all (drop (Z.to_nat i) data)
                  (Z.min (size - i) 32) w1) as Hwrite.
    destruct (Wire_write _ _ w1) as [written w2]. cbn [fst] in Hwrite.
    subst written. rewrite Z.eqb_refl.
    pose proof (transmission_ends (size - i <=? 32) w2) as Hend.
    destruct (Wire_endTransmission _ w2) as [error w3]. cbn [fst] in Hend.
    subst error. cbn [Z.eqb].
    destruct (IH (i + 32) w3 (sent ++ [(request, size - i <=? 32)])
                ltac:(lia) ltac:(lia))
      as (new & w' & Hrun & Hbytes & Hsizes & Hstops & Hcount).
    exists ((request, size - i <=? 32) :: new), w'.
    rewrite Hrun, <- app_assoc. split; [reflexivity|].
    assert (Hrequest : (length request <= 32)%nat).
    { unfold request. rewrite length_take. lia. }
    destruct (Z.leb_spec (size - i) 32) as [Hlast|Hmore].
    + (* the last request *)
      assert (Hnone : new = []).
      { apply length_zero_iff_nil. rewrite Z.max_l in Hcount by lia.
        change ((0 + 31) / 32) with 0 in Hcount. lia. }
      subst new. cbn [map fst snd concat length pred replicate app].
      rewrite Z.max_r by lia.
      repeat apply conj.
      * unfold request. rewrite Z.min_l by lia. apply app_nil_r.
      * constructor; [exact Hrequest | constructor].
      * reflexivity.
      * Z.div_mod_to_equations. lia.
    + (* more requests follow *)
      destruct (Z.ltb_spec (i + 32) size) as [_|]; [|lia].
      rewrite Z.max_r in Hcount by lia.
      assert (Hsome : (0 < length new)%nat).
      { assert (1 <= (size - (i + 32) + 31) / 32)
          by (Z.div_mod_to_equations; lia). lia. }
      repeat apply conj.
      * cbn [map fst concat]. rewrite Hbytes. unfold request.
        rewrite Z.min_r by lia.
        replace (Z.to_nat (i + 32)) with (Z.to_nat i + Z.to_nat 32)%nat by lia.
        rewrite <- drop_drop, take_take_drop. f_equal. lia.
      * constructor; [exact Hrequest | exact Hsizes].
      * cbn [map snd length pred]. rewrite Hstops.
        replace (length new) with (S (pred (length new))) at 2 by lia.
        reflexivity.
      * rewrite Z.max_r by lia. cbn [length]. rewrite Nat2Z.inj_succ, Hcount.
        Z.div_mod_to_equations. lia.
Qed.

(** X23.  When the I2C slave takes every transmission, [put_bytes] of the I2C
    master returns [true] having sent the first [size] bytes of [data] in
    order, in transmissions of at most 32 bytes, [size] divided by 32 and
    rounded up in number, of which only the last ends with a stop. *)
Theorem i2c_master_put_bytes_requests (__slave_addr __rate : Z) (this : rpc)
    (data : list Z) (size timeout : Z) (w : W) :
  0 <= size ->
  exists w' sent,
    rpc_i2c_master_put_bytes __slave_addr __rate this data size timeout w
    = (true, w', sent)
    /\ concat (map fst sent) = take (Z.to_nat size) data
    /\ Forall (fun request => (length (fst request) <= 32)%nat) sent
    /\ map snd sent
       = replicate (pred (length sent)) false
         ++ (if 0 <? size then [true] else [])
    /\ Z.of_nat (length sent) = (size + 31) / 32.
Proof.
  intros Hsize. unfold rpc_i2c_master_put_bytes.
  destruct (i2c_transmit_loop_requests __slave_addr size data (Z.to_nat size)
              0 (Wire_setClock __rate (Wire_begin w)) [] ltac:(lia)
              ltac:(lia))
    as (new & w' & Hrun & Hbytes & Hsizes & Hstops & Hcount).
  rewrite Hrun. exists (Wire_end w'), new. cbn [app].
  rewrite Z.sub_0_r in *. rewrite Z.max_r in Hcount by lia.
  now repeat split.
Qed.

End I2cRequests.

Lemma i2c_master_put_bytes_requests_witness :
  exists w' sent,
    rpc_i2c_master_put_bytes 18 100000 (default_rpc 16 1)
      (replicate 40 7) 40 100 stuck_bus
    = (true, w', sent)
    /\ concat (map fst sent) = take (Z.to_nat 40) (replicate 40 7)
    /\ Forall (fun request => (length (fst request) <= 32)%nat) sent
    /\ map snd sent
       = replicate (pred (length sent)) false
         ++ (if 0 <? 40 then [true] else [])
    /\ Z.of_nat (length sent) = (40 + 31) / 32.
Proof.
  apply (i2c_master_put_bytes_requests (W := script)).
  - intros data n w. reflexivity.
  - intros stop w. reflexivity.
  - lia.
Defined.

(** *** The scheduled callback *)

(** X24.  A round of [loop] is its serving part followed by the loop
    callback, when one is set up.  When [__get_command] has returned
    [false] the loop callback is called, or the round ends, with the slave
    and the machine as [__get_command] left them; when it has returned
    [true] the loop callback is called, or the round ends, with no callback
    scheduled, whatever the response came to.  What the loop callback then
    does to the slave is its own. *)
Theorem loop_round_forgets_the_scheduled_callback
    {W : Type} `{Transport W} `{Arduino W}
    (call_rpc_callback :
       Z -> list Z -> Z -> rpc_slave -> M W (list Z * Z * rpc_slave))
    (call_plain_callback : Z -> rpc_slave -> M W rpc_slave)
    (fuel : nat) (send_timeout recv_timeout : Z) (sl sl' : rpc_slave)
    (m m1 m' : machine W) (got : option (Z * Z)) :
  __get_command fuel recv_timeout m = (Some got, m1) ->
  loop_round call_rpc_callback call_plain_callback fuel send_timeout
    recv_timeout sl m = (Some sl', m') ->
  exists (served : rpc_slave) (m2 : machine W),
    match got with
    | Some _ => __schedule_cb served = 0
    | None => served = sl /\ m2 = m1
    end
    /\ (sl', m')
       = (if __loop_cb served =? 0 then (served, m2)
          else call_plain_callback (__loop_cb served) served m2)
    /\ (__loop_cb served = 0 ->
        match got with
        | Some _ => __schedule_cb sl' = 0
        | None => sl' = sl /\ m' = m1
        end).
Proof.
  intros Hget. unfold loop_round, loop_serve. unfold bind at 1.
  unfold bind at 1. rewrite Hget.
  assert (Hround : forall (served : rpc_slave) (m2 : machine W),
             match got with
             | Some _ => __schedule_cb served = 0
             | None => served = sl /\ m2 = m1
             end ->
             (if negb (__loop_cb served =? 0)
              then bind (call_plain_callback (__loop_cb served) served)
                     (fun sl0 => ret (Some sl0))
              else ret (Some served)) m2 = (Some sl', m') ->
             exists (served0 : rpc_slave) (m3 : machine W),
               match got with
               | Some _ => __schedule_cb served0 = 0
               | None => served0 = sl /\ m3 = m1
               end
               /\ (sl', m')
                  = (if __loop_cb served0 =? 0 then (served0, m3)
                     else call_plain_callback (__loop_cb served0) served0 m3)
               /\ (__loop_cb served0 = 0 ->
                   match got with
                   | Some _ => __schedule_cb sl' = 0
                   | None => sl' = sl /\ m' = m1
                   end)).
  { intros served m2 Hserved Hrun. exists served, m2.
    split; [exact Hserved|].
    destruct (Z.eqb_spec (__loop_cb served) 0) as [Hnone|Hset];
      cbn [negb] in Hrun.
    - unfold ret in Hrun. injection Hrun as <- <-.
      split; [reflexivity|]. intros _. exact Hserved.
    - unfold bind, ret in Hrun.
      destruct (call_plain_callback (__loop_cb served) served m2)
        as [sl2 m3].
      injection Hrun as <- <-. split; [reflexivity|]. intros Hc.
      contradiction. }
  destruct got as [[command size]|].
  - unfold bind, ret, get_self.
    destruct (dispatch _ _ _ _ _ _) as [[[out_data out_data_len] sl1] m2].
    destruct (__put_result _ _ _ _ _) as [[ok|] m3]; [|discriminate].
    destruct (ok && negb (__schedule_cb sl1 =? 0)).
    + destruct (call_plain_callback (__schedule_cb sl1) sl1 m3) as [sl2 m4].
      apply Hround. reflexivity.
    + apply Hround. reflexivity.
  - unfold ret at 1. apply Hround. now split.
Qed.

Lemma loop_round_forgets_the_scheduled_callback_witness :
  exists (served : rpc_slave) (m2 : machine script),
    match Some (5, 2) with
    | Some _ => __schedule_cb served = 0
    | None => served = setup_loop_callback 9 echo_slave
              /\ m2 = snd (__get_command 10 100 echo_start)
    end
    /\ (schedule_callback 0 (setup_loop_callback 9 echo_slave),
        snd (loop_round echo_callback idle_callback 10 100 100
               (setup_loop_callback 9 echo_slave) echo_start))
       = (if __loop_cb served =? 0 then (served, m2)
          else idle_callback (__loop_cb served) served m2)
    /\ (__loop_cb served = 0 ->
        match Some (5, 2) with
        | Some _ =>
            __schedule_cb
              (schedule_callback 0 (setup_loop_callback 9 echo_slave)) = 0
        | None =>
            schedule_callback 0 (setup_loop_callback 9 echo_slave)
            = setup_loop_callback 9 echo_slave
            /\ snd (loop_round echo_callback idle_callback 10 100 100
                      (setup_loop_callback 9 echo_slave) echo_start)
               = snd (__get_command 10 100 echo_start)
        end).
Proof.
  apply (loop_round_forgets_the_scheduled_callback echo_callback
           idle_callback 10 100 100 (setup_loop_callback 9 echo_slave)
           (schedule_callback 0 (setup_loop_callback 9 echo_slave))
           echo_start (snd (__get_command 10 100 echo_start))
           (snd (loop_round echo_callback idle_callback 10 100 100
                   (setup_loop_callback 9 echo_slave) echo_start))
           (Some (5, 2)));
    vm_compute; reflexivity.
Defined.

(** *** The call path stays inside the scratch buffer *)

Section ScratchSafety.
Context {W : Type} `{Transport W} `{Arduino W}.

Lemma scratch_safe_refl len (m : machine W) : scratch_safe len m m.
Proof. intros Hlen. split; [exact Hlen|]. exists []. now split. Qed.

Lemma scratch_safe_trans len (m1 m2 m3 : machine W) :
  scratch_safe len m1 m2 -> scratch_safe len m2 m3 -> scratch_safe len m1 m3.
Proof.
  intros H12 H23 Hlen. destruct (H12 Hlen) as (Hlen2 & new1 & Ht1 & Hf1).
  destruct (H23 Hlen2) as (Hlen3 & new2 & Ht2 & Hf2).
  split; [exact Hlen3|]. exists (new2 ++ new1). split.
  - now rewrite Ht2, Ht1, app_assoc.
  - apply Forall_app. now split.
Qed.

(** A step that keeps [_buff_len] and adds the events [new]. *)
Lemma scratch_safe_step len (m m' : machine W) new :
  _buff_len (self m') = _buff_len (self m) ->
  trace m' = new ++ trace m ->
  Forall (scratch_get_fits len) new ->
  scratch_safe len m m'.
Proof. intros Hsame Ht Hf Hlen. split; [congruence|]. now exists new. Qed.

Lemma handshake_loop_scratch_safe {R : Type} len fuel next
    (body : M W (attempt R)) timed_out timeout start (m : machine W) :
  (forall m1, scratch_safe len m1 (snd (body m1))) ->
  scratch_safe len m
    (snd (handshake_loop fuel next body timed_out timeout start m)).
Proof.
  intros Hbody. revert m. induction fuel as [|fuel IH]; intros m.
  - apply scratch_safe_refl.
  - cbn [handshake_loop]. unfold bind at 1. unfold lift_world.
    destruct (millis (world m)) as [now w1].
    assert (Hclock : scratch_safe len m (mk_machine (self m) w1 (trace m)))
      by (apply (scratch_safe_step _ _ _ []); [reflexivity..|constructor]).
    destruct (u32 (now - start) <? timeout); cbn [negb]; [|exact Hclock].
    unfold bind at 1.
    specialize (Hbody (mk_machine (self m) w1 (trace m))).
    destruct (body (mk_machine (self m) w1 (trace m))) as [[a|] m2];
      cbn [snd] in Hbody.
    + exact (scratch_safe_trans _ _ _ _ Hclock Hbody).
    + unfold bind at 1, modify_self.
      refine (scratch_safe_trans _ _ _ _ Hclock
                (scratch_safe_trans _ _ _ _ Hbody
                   (scratch_safe_trans _ _ _ _ _ (IH _)))).
      apply (scratch_safe_step _ _ _ []); [reflexivity..|constructor].
Qed.

Lemma attempts_scratch_safe len out_header size (m : machine W) :
  scratch_safe len m (snd (put_command_attempt out_header size m))
  /\ scratch_safe len m (snd (get_result_attempt m))
  /\ scratch_safe len m (snd (get_command_attempt m))
  /\ scratch_safe len m (snd (put_result_attempt out_header size m)).
Proof.
  unfold put_command_attempt, get_result_attempt, get_command_attempt,
    put_result_attempt, _get_packet, io_get, io_put, io_flush, bind, ret,
    get_self, modify_self.
  cbn [self world trace fst snd].
  repeat apply conj; intros Hlen;
    repeat match goal with
           | |- context [put_bytes ?a ?b ?c ?d ?e] =>
               destruct (put_bytes a b c d e) as [? ?];
               cbn [fst snd negb self world trace]
           | |- context [get_bytes ?a ?b ?c ?d ?e] =>
               destruct (get_bytes a b c d e) as [[? ?] ?];
               cbn [fst snd negb self world trace]
           | |- context [Z.ltb ?a ?b] =>
               destruct (Z.ltb_spec a b); cbn [fst snd negb self world trace]
           | |- context [if ?c then _ else _] =>
               destruct c; cbn [fst snd negb self world trace]
           end;
    (split; [exact Hlen|]);
    first [ now exists []
          | eexists [_]; split; [reflexivity|]
          | eexists [_; _]; split; [reflexivity|]
          | eexists [_; _; _]; split; [reflexivity|]
          | eexists [_; _; _; _]; split; [reflexivity|]
          | eexists [_; _; _; _; _]; split; [reflexivity|]
          | eexists [_; _; _; _; _; _]; split; [reflexivity|] ];
    repeat first [ apply List.Forall_nil
                 | apply List.Forall_cons; [cbn; first [exact I | lia]|] ].
Qed.

Lemma put_command_scratch_safe fuel command data size timeout
    (m : machine W) :
  scratch_safe (_buff_len (self m)) m
    (snd (__put_command fuel command data size timeout m)).
Proof.
  unfold __put_command, put_command_loop, bind, ret, get_self, modify_self,
    lift_world.
  cbn [self world trace].
  destruct (_buff_len (self m) <? size_t (size + 4));
    [apply scratch_safe_refl|].
  destruct (millis (world m)) as [start w1]. cbn [self world trace].
  refine (scratch_safe_trans _ _ _ _ _
            (handshake_loop_scratch_safe _ _ _ _ _ _ _ _ _)).
  - apply (scratch_safe_step _ _ _ []); [reflexivity..|constructor].
  - intros m1. apply attempts_scratch_safe.
Qed.

Lemma get_result_scratch_safe len fuel timeout (m : machine W) :
  scratch_safe len m (snd (__get_result fuel timeout m)).
Proof.
  unfold __get_result, get_result_loop, bind, ret, get_self, modify_self,
    lift_world.
  cbn [self world trace].
  destruct (millis (world m)) as [start w1]. cbn [self world trace].
  refine (scratch_safe_trans _ _ _ _ _
            (handshake_loop_scratch_safe _ _ _ _ _ _ _ _ _)).
  - apply (scratch_safe_step _ _ _ []); [reflexivity..|constructor].
  - intros m1. apply (attempts_scratch_safe len [] 0).
Qed.

Lemma get_command_scratch_safe len fuel timeout (m : machine W) :
  scratch_safe len m (snd (__get_command fuel timeout m)).
Proof.
  unfold __get_command, get_command_loop, bind, ret, get_self, modify_self,
    lift_world.
  cbn [self world trace].
  destruct (millis (world m)) as [start w1]. cbn [self world trace].
  refine (scratch_safe_trans _ _ _ _ _
            (handshake_loop_scratch_safe _ _ _ _ _ _ _ _ _)).
  - apply (scratch_safe_step _ _ _ []); [reflexivity..|constructor].
  - intros m1. apply (attempts_scratch_safe len [] 0).
Qed.

Lemma put_result_scratch_safe fuel data size timeout (m : machine W) :
  scratch_safe (_buff_len (self m)) m
    (snd (__put_result fuel data size timeout m)).
Proof.
  unfold __put_result, put_result_loop, bind, ret, get_self, modify_self,
    lift_world.
  cbn [self world trace].
  destruct (_buff_len (self m) <? size_t (size + 4));
    [apply scratch_safe_refl|].
  destruct (millis (world m)) as [start w1]. cbn [self world trace].
  refine (scratch_safe_trans _ _ _ _ _
            (handshake_loop_scratch_safe _ _ _ _ _ _ _ _ _)).
  - apply (scratch_safe_step _ _ _ []); [reflexivity..|constructor].
  - intros m1. apply attempts_scratch_safe.
Qed.

Lemma exchange_scratch_safe fuel command data size send_timeout recv_timeout
    (m : machine W) :
  scratch_safe (_buff_len (self m)) m
    (snd (exchange fuel command data size send_timeout recv_timeout m)).
Proof.
  unfold exchange. unfold bind at 1.
  pose proof (put_command_scratch_safe fuel command data size send_timeout m)
    as Hsent.
  destruct (__put_command fuel command data size send_timeout m)
    as [[[|]|] m1]; cbn [snd] in Hsent; try exact Hsent.
  exact (scratch_safe_trans _ _ _ _ Hsent
           (get_result_scratch_safe _ fuel recv_timeout m1)).
Qed.

(** X25.  Whatever the peer sends and whether they succeed or not, the
    four handshake functions, the zero-copy call and the copying call keep
    [_buff_len] and never ask the transport for more than [_buff_len]
    bytes into the scratch buffer. *)
Theorem call_path_stays_inside_the_scratch_buffer (fuel : nat)
    (char_signed : bool) (name : list Z) (command : Z) (data : list Z)
    (size : Z) (result_data : list Z) (result_data_len : Z) (flag : bool)
    (send_timeout recv_timeout : Z) (m : machine W) :
  stays_inside_scratch m
    (snd (__put_command fuel command data size send_timeout m))
  /\ stays_inside_scratch m (snd (__get_result fuel recv_timeout m))
  /\ stays_inside_scratch m (snd (__get_command fuel recv_timeout m))
  /\ stays_inside_scratch m
       (snd (__put_result fuel data size send_timeout m))
  /\ stays_inside_scratch m
       (snd (call_no_copy fuel char_signed name data size send_timeout
               recv_timeout m))
  /\ stays_inside_scratch m
       (snd (call fuel char_signed name data size result_data
               result_data_len flag send_timeout recv_timeout m)).
Proof.
  assert (Hrun : forall m' : machine W,
             scratch_safe (_buff_len (self m)) m m' ->
             stays_inside_scratch m m').
  { intros m' Hsafe. destruct (Hsafe eq_refl) as (Hlen & Hnew). now split. }
  split; [|split; [|split; [|split; [|split]]]]; apply Hrun.
  - apply put_command_scratch_safe.
  - apply get_result_scratch_safe.
  - apply get_command_scratch_safe.
  - apply put_result_scratch_safe.
  - unfold call_no_copy.
    destruct (_hash char_signed name) as [h|]; [|apply scratch_safe_refl].
    apply exchange_scratch_safe.
  - unfold call.
    destruct (_hash char_signed name) as [h|]; [|apply scratch_safe_refl].
    unfold call_hashed. unfold bind at 1.
    pose proof (exchange_scratch_safe fuel h data size send_timeout
                  recv_timeout m) as Hsafe.
    destruct (exchange fuel h data size send_timeout recv_timeout m)
      as [[e|] m1]; exact Hsafe.
Qed.

End ScratchSafety.

(** *** A call that is answered *)

Lemma acknowledgements_pass :
  packet_ok _COMMAND_HEADER_PACKET_MAGIC __out_command_header_ack 4 = true
  /\ packet_ok _COMMAND_DATA_PACKET_MAGIC __out_command_data_ack 4 = true
  /\ packet_ok _RESULT_HEADER_PACKET_MAGIC __out_result_header_ack 4 = true
  /\ packet_ok _RESULT_DATA_PACKET_MAGIC __out_result_data_ack 4 = true.
Proof. vm_compute. repeat split; reflexivity. Qed.

Section Answers.
Context {W : Type} `{Transport W} `{Arduino W}.

(** A loop that is within its budget returns what its first attempt
    returns. *)
Lemma handshake_first_return {R : Type} fuel next (body : M W (attempt R))
    timed_out timeout start (m m2 : machine W) now w1 a :
  millis (world m) = (now, w1) ->
  u32 (now - start) < timeout ->
  body (mk_machine (self m) w1 (trace m)) = (Return a, m2) ->
  handshake_loop (S fuel) next body timed_out timeout start m = (Some a, m2).
Proof.
  intros Hnow Hin Hbody. cbn [handshake_loop]. unfold bind at 1.
  unfold lift_world. rewrite Hnow.
  destruct (Z.ltb_spec (u32 (now - start)) timeout) as [_|]; [|lia].
  cbn [negb]. unfold bind at 1. now rewrite Hbody.
Qed.

Lemma put_command_attempt_acknowledged (m : machine W) out_header size
    (w1 w2 : W) :
  get_bytes (self m) (replicate 4 0) 4 (_get_short_timeout (self m))
    (snd (put_bytes (self m) out_header 12 (_put_short_timeout (self m))
            (_flush (self m) (world m))))
  = (true, __out_command_header_ack, w1) ->
  get_bytes (self m) (replicate 4 0) 4 (_get_short_timeout (self m))
    (snd (put_bytes (self m) (_buff (self m)) (size_t (size + 4))
            (_put_long_timeout (self m)) w1))
  = (true, __out_command_data_ack, w2) ->
  put_command_attempt out_header size m
  = (Return true,
     mk_machine (self m) w2
       (trace (snd (put_command_attempt out_header size m)))).
Proof.
  intros Hm1 Hm2. destruct acknowledgements_pass as (Hch & Hcd & _ & _).
  unfold put_command_attempt, _get_packet, io_get, io_put, io_flush, bind,
    ret, get_self, modify_self.
  cbn [self world trace].
  change (_zero (replicate sizeof_ack 0) sizeof_ack) with (replicate 4 0).
  change (Z.to_nat 4) with 4%nat.
  destruct (put_bytes (self m) out_header 12 (_put_short_timeout (self m))
              (_flush (self m) (world m))) as [ok1 wa].
  cbn [snd] in Hm1. cbn [self world trace]. rewrite Hm1.
  cbn [negb self world trace]. rewrite Hch. cbn [self world trace].
  destruct (put_bytes (self m) (_buff (self m)) (size_t (size + 4))
              (_put_long_timeout (self m)) w1) as [ok2 wb].
  cbn [snd] in Hm2. cbn [self world trace]. rewrite Hm2.
  cbn [negb self world trace]. rewrite Hcd. reflexivity.
Qed.

Lemma put_result_attempt_acknowledged (m : machine W) out_header size
    (w3 w4 : W) :
  get_bytes (self m) (replicate 4 0) 4 (_get_short_timeout (self m))
    (_flush (self m) (world m))
  = (true, __out_result_header_ack, w3) ->
  get_bytes (self m) (replicate 4 0) 4 (_get_short_timeout (self m))
    (snd (put_bytes (self m) out_header 8 (_put_short_timeout (self m)) w3))
  = (true, __out_result_data_ack, w4) ->
  fst (put_result_attempt out_header size m) = Return true.
Proof.
  intros Hs1 Hs2. destruct acknowledgements_pass as (_ & _ & Hrh & Hrd).
  unfold put_result_attempt, _get_packet, io_get, io_put, io_flush, bind,
    ret, get_self, modify_self.
  cbn [self world trace].
  change (_zero (replicate sizeof_ack 0) sizeof_ack) with (replicate 4 0).
  change (Z.to_nat 4) with 4%nat.
  rewrite Hs1. cbn [negb self world trace]. rewrite Hrh.
  cbn [self world trace].
  destruct (put_bytes (self m) out_header 8 (_put_short_timeout (self m)) w3)
    as [ok3 wc].
  cbn [snd] in Hs2. cbn [self world trace]. rewrite Hs2.
  cbn [negb self world trace]. rewrite Hrd. cbn [self world trace].
  destruct (put_bytes _ _ _ _ w4) as [ok4 wd]. reflexivity.
Qed.

(** X26.  A round of [__put_command] that receives the two acknowledgement
    frames the constructor of [rpc_slave] builds returns [true], and so
    does a round of [__put_result] that receives the two request frames
    the constructor of [rpc_master] builds. *)
Theorem acknowledgements_of_the_peer_are_accepted
    (master slave : machine W) (out_command_header out_result_header : list Z)
    (command_size result_size : Z) (w1 w2 w3 w4 : W) :
  get_bytes (self master) (replicate 4 0) 4 (_get_short_timeout (self master))
    (snd (put_bytes (self master) out_command_header 12
            (_put_short_timeout (self master))
            (_flush (self master) (world master))))
  = (true, __out_command_header_ack, w1) ->
  get_bytes (self master) (replicate 4 0) 4 (_get_short_timeout (self master))
    (snd (put_bytes (self master) (_buff (self master))
            (size_t (command_size + 4)) (_put_long_timeout (self master)) w1))
  = (true, __out_command_data_ack, w2) ->
  get_bytes (self slave) (replicate 4 0) 4 (_get_short_timeout (self slave))
    (_flush (self slave) (world slave))
  = (true, __out_result_header_ack, w3) ->
  get_bytes (self slave) (replicate 4 0) 4 (_get_short_timeout (self slave))
    (snd (put_bytes (self slave) out_result_header 8
            (_put_short_timeout (self slave)) w3))
  = (true, __out_result_data_ack, w4) ->
  fst (put_command_attempt out_command_header command_size master)
  = Return true
  /\ fst (put_result_attempt out_result_header result_size slave)
     = Return true.
Proof.
  intros Hm1 Hm2 Hs1 Hs2. split.
  - now rewrite (put_command_attempt_acknowledged _ _ _ _ _ Hm1 Hm2).
  - exact (put_result_attempt_acknowledged _ _ _ _ _ Hs1 Hs2).
Qed.

End Answers.

Lemma acknowledgements_of_the_peer_are_accepted_witness :
  fst (put_command_attempt (replicate 12 0) 0 empty_result_start)
  = Return true
  /\ fst (put_result_attempt (replicate 8 0) 0 result_request_start)
     = Return true.
Proof.
  apply (acknowledgements_of_the_peer_are_accepted empty_result_start
           result_request_start (replicate 12 0) (replicate 8 0) 0 0
           (mk_script 0 [frame 0x8ADE []; frame 0x6CEB (bytes_of_u32 0);
                         frame 0xF1A5 []] [] [])
           (mk_script 0 [frame 0x6CEB (bytes_of_u32 0); frame 0xF1A5 []] [] [])
           (mk_script 0 [frame 0xF1A5 []] [] [])
           (mk_script 0 [] [] []));
    vm_compute; reflexivity.
Defined.

(** *** A call on the scripted peer *)

Lemma script_get_cons buff size (w : script) chunk rest :
  incoming w = chunk :: rest -> Z.of_nat (length chunk) = size ->
  script_get buff size w
  = (true, list_inserts 0 chunk buff,
     mk_script (clock w) rest (outgoing w) (delayed w)).
Proof.
  intros Hin Hlen. unfold script_get. rewrite Hin, Hlen, Z.eqb_refl.
  reflexivity.
Qed.

Lemma set_packet_length buff magic_value data size :
  length (_set_packet buff magic_value data size) = length buff.
Proof.
  unfold _set_packet, memcpy.
  destruct (size =? 0)%nat;
    repeat (rewrite length_insert || rewrite length_inserts); reflexivity.
Qed.

Lemma script_put_command_acknowledged fuel command data size timeout this
    (w : script) tr rest :
  incoming w = __out_command_header_ack :: __out_command_data_ack :: rest ->
  1 < timeout -> 0 <= size -> size + 4 <= _buff_len this ->
  _buff_len this < 2 ^ 32 ->
  exists m1,
    __put_command (S fuel) command data size timeout (mk_machine this w tr)
    = (Some true, m1)
    /\ incoming (world m1) = rest
    /\ _buff_len (self m1) = _buff_len this
    /\ length (_buff (self m1)) = length (_buff this).
Proof.
  intros Hin Htimeout Hsize Hfit Hlen.
  unfold __put_command, put_command_loop, bind, get_self, modify_self,
    lift_world.
  cbn [self world trace]. rewrite size_t_small by lia.
  destruct (Z.ltb_spec (_buff_len this) (size + 4)) as [|_]; [lia|].
  cbn [millis script_arduino self world trace].
  set (out_header := _set_packet _ _ _ 8).
  set (this1 := set_buff _ _).
  set (w1 := mk_script (clock w + 1 + 1) (incoming w) (outgoing w) (delayed w)).
  pose proof (put_command_attempt_acknowledged
                (mk_machine this1 w1 tr) out_header size
                (mk_script (clock w + 1 + 1) (__out_command_data_ack :: rest)
                   (outgoing w) (delayed w))
                (mk_script (clock w + 1 + 1) rest (outgoing w) (delayed w)))
    as Hbody.
  cbn [get_bytes put_bytes _flush script_transport self world snd] in Hbody.
  rewrite (script_get_cons _ _ w1 __out_command_header_ack
             (__out_command_data_ack :: rest)) in Hbody
    by (exact Hin || reflexivity).
  specialize (Hbody eq_refl).
  erewrite script_get_cons in Hbody by reflexivity.
  specialize (Hbody eq_refl).
  eexists. split.
  - apply (handshake_first_return _ _ _ _ _ (clock w) _ _ (clock w + 1) w1);
      [reflexivity| |exact Hbody].
    replace (clock w + 1 - clock w) with 1 by lia. exact Htimeout.
  - cbn [self world incoming]. repeat split.
    unfold this1. cbn [set_buff _buff set_short_timeouts].
    apply set_packet_length.
Qed.

Lemma script_get_result_answered fuel timeout (m : machine script) answer
    rest :
  incoming (world m)
  = frame _RESULT_HEADER_PACKET_MAGIC (bytes_of_u32 (Z.of_nat (length answer)))
    :: frame _RESULT_DATA_PACKET_MAGIC answer :: rest ->
  1 < timeout ->
  Z.of_nat (length answer) + 4 <= _buff_len (self m) ->
  _buff_len (self m) <= Z.of_nat (length (_buff (self m))) ->
  _buff_len (self m) < 2 ^ 32 ->
  exists m2,
    __get_result (S fuel) timeout m
    = (Some (Some (Z.of_nat (length answer))), m2)
    /\ take (length answer) (drop 2 (_buff (self m2))) = answer
    /\ (length answer <= length (drop 2 (_buff (self m2))))%nat.
Proof.
  intros Hin Htimeout Hfit Hbuff Hlen.
  destruct m as [this w tr]. cbn [self world trace] in *.
  unfold __get_result, get_result_loop, bind, get_self, modify_self,
    lift_world.
  cbn [millis script_arduino self world trace].
  set (this1 := set_short_timeouts _ _ this).
  set (w1 := mk_script (clock w + 1 + 1) (incoming w) (outgoing w) (delayed w)).
  set (size := Z.of_nat (length answer)) in *.
  destruct (get_result_attempt_decodes (mk_machine this1 w1 tr) size answer
              (drop (length answer + 4) (_buff this))
              (mk_script (clock w + 1 + 1)
                 (frame _RESULT_DATA_PACKET_MAGIC answer :: rest)
                 (outgoing w) (delayed w))
              (mk_script (clock w + 1 + 1) rest (outgoing w) (delayed w)))
    as (Hret & Hgot & Hpayload); try (unfold size; lia).
  - cbn [self this1 set_short_timeouts _buff_len]. exact Hfit.
  - cbn [get_bytes put_bytes _flush script_transport self world snd].
    rewrite (script_get_cons _ _ w1 _ _ Hin)
      by (rewrite frame_length; reflexivity).
    rewrite inserts_at_start
      by (rewrite frame_length, length_replicate; cbn; lia).
    rewrite frame_length. cbn [bytes_of_u32 length Nat.add drop replicate].
    now rewrite app_nil_r.
  - cbn [get_bytes put_bytes _flush script_transport self world snd].
    erewrite script_get_cons
      by (reflexivity || (rewrite frame_length; unfold size; lia)).
    rewrite inserts_at_start
      by (rewrite frame_length; cbn [this1 set_short_timeouts _buff]; lia).
    rewrite frame_length. reflexivity.
  - eexists. split; [|split].
    + apply (handshake_first_return _ _ _ _ _ (clock w) _ _ (clock w + 1) w1);
        [reflexivity| |].
      * replace (clock w + 1 - clock w) with 1 by lia. exact Htimeout.
      * rewrite <- Hret. apply surjective_pairing.
    + unfold size in Hpayload. rewrite Nat2Z.id in Hpayload. exact Hpayload.
    + rewrite Hgot, length_drop, length_app, frame_length. lia.
Qed.

(** X27.  On the scripted peer, a slave that acknowledges the command and
    answers with the header and the frame of [answer] makes [call] return
    [true] with the first bytes of [answer] copied into [result_data], as
    many as [result_data_len] allows; with the flag set and an empty
    answer it makes [call] return [false] with [result_data] zeroed. *)
Theorem call_returns_the_answer_of_the_slave (fuel : nat)
    (char_signed : bool) (name : list Z) (h : Z) (command_data : list Z)
    (command_data_len : Z) (result_data : list Z) (result_data_len : Z)
    (flag : bool) (send_timeout recv_timeout : Z) (this : rpc) (w : script)
    (tr : list event) (answer : list Z) (rest : list (list Z)) :
  _hash char_signed name = Some h ->
  0 <= command_data_len ->
  command_data_len + 4 <= _buff_len this ->
  Z.of_nat (length answer) + 4 <= _buff_len this ->
  _buff_len this <= Z.of_nat (length (_buff this)) ->
  _buff_len this < 2 ^ 32 ->
  1 < send_timeout -> 1 < recv_timeout ->
  (Z.to_nat result_data_len <= length result_data)%nat ->
  incoming w
  = __out_command_header_ack :: __out_command_data_ack
    :: frame _RESULT_HEADER_PACKET_MAGIC
         (bytes_of_u32 (Z.of_nat (length answer)))
    :: frame _RESULT_DATA_PACKET_MAGIC answer :: rest ->
  fst (call (S fuel) char_signed name command_data command_data_len
         result_data result_data_len flag send_timeout recv_timeout
         (mk_machine this w tr))
  = Some (if flag && (Z.of_nat (length answer) =? 0)
          then (false, replicate (Z.to_nat result_data_len) 0
                       ++ drop (Z.to_nat result_data_len) result_data)
          else (true,
                take (Z.to_nat (Z.min result_data_len
                                  (Z.of_nat (length answer)))) answer
                ++ drop (Z.to_nat (Z.min result_data_len
                                     (Z.of_nat (length answer))))
                     result_data)).
Proof.
  intros Hhash Hsize Hfit Hanswer Hbuff Hlen Hsend Hrecv Hresult Hin.
  destruct (script_put_command_acknowledged fuel h command_data
              command_data_len send_timeout this w tr _ Hin Hsend Hsize Hfit
              Hlen) as (m1 & Hput & Hin1 & Hlen1 & Hbuff1).
  destruct (script_get_result_answered fuel recv_timeout m1 answer rest Hin1
              Hrecv) as (m2 & Hget & Hpayload & Hroom); try lia.
  unfold call. rewrite Hhash.
  rewrite (call_hashed_result _ _ _ _ _ _ _ _ _ _ m2
             (Some (Z.of_nat (length answer)))).
  2:{ unfold exchange. unfold bind at 1. now rewrite Hput. }
  cbn [fst]. f_equal.
  rewrite copy_result_cases
    by (exact Hresult || (cbn; rewrite Nat2Z.id; exact Hroom)).
  destruct (flag && (Z.of_nat (length answer) =? 0)); [reflexivity|].
  f_equal. f_equal.
  transitivity (take (Z.to_nat (Z.min result_data_len
                                  (Z.of_nat (length answer))))
                  (take (length answer) (drop 2 (_buff (self m2)))));
    [rewrite take_take; f_equal; lia | now rewrite Hpayload].
Qed.

Lemma call_returns_the_answer_of_the_slave_witness :
  fst (call (S 9) false [97; 0] [1; 2; 3] 3 [9; 9; 9; 9] 4 false 100 100
         (mk_machine (default_rpc 16 255)
            (mk_script 0
               [__out_command_header_ack; __out_command_data_ack;
                frame _RESULT_HEADER_PACKET_MAGIC
                  (bytes_of_u32 (Z.of_nat (length [7; 8])));
                frame _RESULT_DATA_PACKET_MAGIC [7; 8]] [] []) []))
  = Some (if false && (Z.of_nat (length [7; 8]) =? 0)
          then (false, replicate (Z.to_nat 4) 0
                       ++ drop (Z.to_nat 4) [9; 9; 9; 9])
          else (true,
                take (Z.to_nat (Z.min 4 (Z.of_nat (length [7; 8])))) [7; 8]
                ++ drop (Z.to_nat (Z.min 4 (Z.of_nat (length [7; 8]))))
                     [9; 9; 9; 9])).
Proof.
  apply (call_returns_the_answer_of_the_slave 9 false [97; 0] 177604 [1; 2; 3]
           3 [9; 9; 9; 9] 4 false 100 100 (default_rpc 16 255)
           (mk_script 0
              [__out_command_header_ack; __out_command_data_ack;
               frame _RESULT_HEADER_PACKET_MAGIC
                 (bytes_of_u32 (Z.of_nat (length [7; 8])));
               frame _RESULT_DATA_PACKET_MAGIC [7; 8]] [] []) [] [7; 8] []);
    try reflexivity; cbn; lia.
Defined.
